(** * build_static.py: metrics, incremental rebuild and pruning

    A shallow embedding of [build_static.py], the build script of the
    static Trajectory Visualizer, and the properties its specification
    states about it.

    The script reads a directory of conversations (one directory per
    trajectory, holding [base_state.json] and [events/event-*.json]),
    derives a metrics record per trajectory, rewrites the per-trajectory
    outputs that are out of date and removes the outputs whose trajectory
    is gone.

    Conventions of the embedding:
    - values read by [json.load] are terms of [json]; the numbers among
      them are integers, as the token counters are (fractional numbers in
      the input are outside the model);
    - Python exceptions are values of [exn]; a computation that may raise
      has type [result A];
    - Python floats are IEEE binary64 numbers, [spec_float] with
      precision 53 and maximal exponent 1024;
    - what the interpreter and the operating system supply
      ([datetime.fromisoformat], [time.ctime], the summation used by
      [sum]) is collected in the class [Runtime];
    - the output directory [dist/data] is a finite map from names to
      nodes, threaded through [build_static_site] together with a trace
      of the writes, removals and warnings of the run. *)

From Stdlib Require Import ZArith List String Ascii Bool Lia SpecFloat.
From Stdlib Require Import Sorted Permutation.
From stdpp Require Import gmap strings list fin_maps.
Import ListNotations.
Set Warnings "-register-all,-clear-no-such-hyp".
Local Open Scope string_scope.
Local Open Scope list_scope.
Local Open Scope Z_scope.

(** ** Exceptions *)

Inductive exn :=
| AttributeError
| TypeError
| ValueError
| IndexError
| OverflowError
| ZeroDivisionError
| JSONDecodeError
| IOError
| FileExistsError
| NotADirectoryError
| IsADirectoryError.

Inductive result (A : Type) :=
| Ok (a : A)
| Raise (e : exn).
Arguments Ok {A} a.
Arguments Raise {A} e.

#[global] Instance exn_eq_dec : EqDecision exn.
Proof. solve_decision. Defined.

#[global] Instance result_ret : MRet result := fun _ a => Ok a.
#[global] Instance result_bind : MBind result := fun _ _ f m =>
  match m with
  | Ok a => f a
  | Raise e => Raise e
  end.

(** The class hierarchy among these exceptions: [IOError] is another
    name of [OSError], of which [FileExistsError], [NotADirectoryError]
    and [IsADirectoryError] are subclasses; [JSONDecodeError] is a
    subclass of [ValueError]. [subclass e c]: an exception of class [e] is
    an instance of the class [c]. *)
Definition subclass (e c : exn) : bool :=
  match c, e with
  | IOError, (IOError | FileExistsError | NotADirectoryError | IsADirectoryError) => true
  | ValueError, (ValueError | JSONDecodeError) => true
  | _, _ => bool_decide (e = c)
  end.

(** Whether [except caught] catches an exception of class [e]. *)
Definition caught_by (caught : list exn) (e : exn) : bool :=
  existsb (subclass e) caught.

(** [try body except caught: handler], for a body without side effect. *)
Definition try_except {A} (body : result A) (caught : list exn) (handler : result A)
  : result A :=
  match body with
  | Ok a => Ok a
  | Raise e => if caught_by caught e then handler else Raise e
  end.

(** ** JSON values, as [json.load] returns them *)

Inductive json :=
| JNull
| JBool (b : bool)
| JInt (n : Z)
| JStr (s : string)
| JArr (items : list json)
| JObj (fields : list (string * json)).

(** Lookup in a dict, kept as the list of its items in insertion order. *)
Fixpoint assoc (k : string) (fields : list (string * json)) : option json :=
  match fields with
  | [] => None
  | (k', v) :: rest => if String.eqb k k' then Some v else assoc k rest
  end.

Definition is_dict (v : json) : bool :=
  match v with
  | JObj _ => true
  | _ => false
  end.

(** [v.get(k, default)]; only dicts have a [get] method. *)
Definition py_get (v : json) (k : string) (default_value : json) : result json :=
  match v with
  | JObj fields => Ok (default default_value (assoc k fields))
  | _ => Raise AttributeError
  end.

(** Truth value of a value in a condition. *)
Definition truthy (v : json) : bool :=
  match v with
  | JNull => false
  | JBool b => b
  | JInt n => negb (n =? 0)
  | JStr s => negb (String.eqb s EmptyString)
  | JArr items => match items with [] => false | _ => true end
  | JObj fields => match fields with [] => false | _ => true end
  end.

(** [v == s] and [v != s] for a string literal [s]: a value that is not
    a string differs from every string. *)
Definition py_eq_str (v : json) (s : string) : bool :=
  match v with
  | JStr s' => String.eqb s' s
  | _ => false
  end.

Definition py_ne_str (v : json) (s : string) : bool := negb (py_eq_str v s).

(** [s in v] for a string [s]: key of a dict, element of a list,
    substring of a string; the other values are not containers. *)
Definition py_contains (v : json) (s : string) : result bool :=
  match v with
  | JObj fields => Ok (bool_decide (is_Some (assoc s fields)))
  | JArr items => Ok (existsb (fun x => py_eq_str x s) items)
  | JStr s' => Ok (bool_decide (is_Some (String.index 0 s s')))
  | _ => Raise TypeError
  end.

(** [events[i]] on a list, for [0 <= i]. *)
Definition py_index {A} (l : list A) (i : nat) : result A :=
  match l !! i with
  | Some x => Ok x
  | None => Raise IndexError
  end.

(** [range(a, b)] *)
Definition py_range (a b : nat) : list nat := seq a (b - a).

(** A [for] loop whose body may raise: the loop variables are threaded
    through the iterations, the first exception ends the loop. *)
Fixpoint for_each {A S} (items : list A) (body : S -> A -> result S) (s : S)
  : result S :=
  match items with
  | [] => Ok s
  | x :: rest => s' ← body s x; for_each rest body s'
  end.

(** ** Floats and numbers *)

Definition fadd : spec_float -> spec_float -> spec_float := SFadd 53 1024.
Definition fsub : spec_float -> spec_float -> spec_float := SFsub 53 1024.
Definition fmul : spec_float -> spec_float -> spec_float := SFmul 53 1024.
Definition fdiv : spec_float -> spec_float -> spec_float := SFdiv 53 1024.

(** The float nearest to an integer. *)
Definition float_of_Z (z : Z) : spec_float := binary_normalize 53 1024 z 0 false.

(** An integer as an unrounded float (the mantissa may exceed 53 bits);
    the operations of [SpecFloat] round their result, not their
    arguments. *)
Definition exact_of_Z (z : Z) : spec_float :=
  match z with
  | Z0 => S754_zero false
  | Zpos p => S754_finite false p 0
  | Zneg p => S754_finite true p 0
  end.

(** [a / b] on integers: the correctly rounded quotient. *)
Definition int_truediv (a b : Z) : result spec_float :=
  if b =? 0 then Raise ZeroDivisionError
  else match fdiv (exact_of_Z a) (exact_of_Z b) with
       | S754_infinity _ => Raise OverflowError
       | q => Ok q
       end.

(** [x > 0] on a float. *)
Definition float_gt0 (x : spec_float) : bool := SFltb (S754_zero false) x.

(** The integer nearest to [n / d] for [0 < d], ties to the even one. *)
Definition round_half_even_div (n d : Z) : Z :=
  let q := n / d in
  match (2 * (n mod d)) ?= d with
  | Lt => q
  | Gt => q + 1
  | Eq => if Z.even q then q else q + 1
  end.

(** [round(x, 1)] on a float: the exact value of [x] is rounded to one
    decimal, ties to even, and the float nearest to that decimal is
    returned. *)
Definition float_round1 (x : spec_float) : spec_float :=
  match x with
  | S754_finite s m e =>
      let tenths :=
        match e with
        | Zneg p => round_half_even_div (10 * Zpos m) (2 ^ Zpos p)
        | _ => 10 * Zpos m * 2 ^ e
        end in
      match tenths with
      | Zpos p => fdiv (S754_finite s p 0) (S754_finite false 10 0)
      | _ => S754_zero s
      end
  | _ => x
  end.

(** [round(x)] on a float: the nearest integer, ties to even. *)
Definition float_round (x : spec_float) : result Z :=
  match x with
  | S754_zero _ => Ok 0
  | S754_infinity _ => Raise OverflowError
  | S754_nan => Raise ValueError
  | S754_finite s m e =>
      let n :=
        match e with
        | Zneg p => round_half_even_div (Zpos m) (2 ^ Zpos p)
        | _ => Zpos m * 2 ^ e
        end in
      Ok (if s then - n else n)
  end.

(** A Python number that is an [int] or a [float]. *)
Inductive pynum :=
| PyInt (n : Z)
| PyFloat (x : spec_float).

(** [total += duration] for a float [duration]. *)
Definition py_add_float (total : pynum) (duration : spec_float) : pynum :=
  match total with
  | PyInt n => PyFloat (fadd (float_of_Z n) duration)
  | PyFloat x => PyFloat (fadd x duration)
  end.

(** [round(total, 1)]: an [int] is returned unchanged. *)
Definition py_round1 (total : pynum) : pynum :=
  match total with
  | PyInt n => PyInt n
  | PyFloat x => PyFloat (float_round1 x)
  end.

(** One step of the compensated summation of CPython 3.12 and later. *)
Definition cs_add (total : spec_float * spec_float) (x : spec_float)
  : spec_float * spec_float :=
  let '(hi, lo) := total in
  let t := fadd hi x in
  if SFleb (SFabs x) (SFabs hi)
  then (t, fadd lo (fadd (fsub hi t) x))
  else (t, fadd lo (fadd (fsub x t) hi)).

Definition cs_to_double (total : spec_float * spec_float) : spec_float :=
  let '(hi, lo) := total in
  match lo with
  | S754_finite _ _ _ => fadd hi lo
  | _ => hi
  end.

(** [sum(xs)] on a list of floats. The start value is the int 0; the
    first item is added to it, the others are accumulated, with
    compensation from CPython 3.12 on and by plain additions before. *)
Definition py_sum (compensated : bool) (xs : list spec_float) : pynum :=
  match xs with
  | [] => PyInt 0
  | x :: rest =>
      let first := fadd (float_of_Z 0) x in
      if compensated
      then PyFloat (cs_to_double (fold_left cs_add rest (first, S754_zero false)))
      else PyFloat (fold_left fadd rest first)
  end.

(** [total / n] for the sum of a non-empty list and its length. *)
Definition py_div_len (total : pynum) (n : nat) : result spec_float :=
  if (n =? 0)%nat then Raise ZeroDivisionError
  else match total with
       | PyInt s => int_truediv s (Z.of_nat n)
       | PyFloat x => Ok (fdiv x (float_of_Z (Z.of_nat n)))
       end.

(** ** Timestamps *)

(** [datetime]: the wall-clock fields as microseconds since the first
    instant of year 1, and the UTC offset in microseconds of an aware
    value ([None] for a naive one). *)
Record datetime := {
  wall_us : Z;
  utcoffset_us : option Z
}.

(** [a - b] as microseconds: naive and aware values do not mix. *)
Definition datetime_sub (a b : datetime) : result Z :=
  match utcoffset_us a, utcoffset_us b with
  | None, None => Ok (wall_us a - wall_us b)
  | Some off_a, Some off_b => Ok (wall_us a - wall_us b + off_b - off_a)
  | _, _ => Raise TypeError
  end.

(** [timedelta.total_seconds()] *)
Definition total_seconds (delta_us : Z) : spec_float :=
  fdiv (exact_of_Z delta_us) (exact_of_Z 1000000).

(** [s.replace("Z", "+00:00")] *)
Fixpoint replace_Z (s : string) : string :=
  match s with
  | EmptyString => EmptyString
  | String c rest =>
      if Ascii.eqb c "Z"%char then "+00:00" +:+ replace_Z rest
      else String c (replace_Z rest)
  end.

(** [v.replace("Z", "+00:00")]; only strings have a [replace] method. *)
Definition py_replace_Z (v : json) : result string :=
  match v with
  | JStr s => Ok (replace_Z s)
  | _ => Raise AttributeError
  end.

(** What the interpreter and the operating system supply. *)
Class Runtime := {
  (** [datetime.fromisoformat] on a string: [None] stands for the
      [ValueError] of a string that is not in ISO format. *)
  fromisoformat : string -> option datetime;
  (** [time.ctime] of a modification time. *)
  ctime : Z -> string;
  (** whether [sum] compensates (CPython 3.12 and later). *)
  sum_compensated : bool
}.

(** ** Sorting *)

(** [list.sort] and [sorted] are stable. [insert_by before x sorted]
    puts [x], which stood in front of every item of [sorted], behind the
    items that have to come [before] it. *)
Fixpoint insert_by {A} (before : A -> A -> bool) (x : A) (sorted : list A) : list A :=
  match sorted with
  | [] => [x]
  | y :: rest => if before y x then y :: insert_by before x rest else x :: sorted
  end.

Definition sort_by {A} (before : A -> A -> bool) (l : list A) : list A :=
  foldr (insert_by before) [] l.

(** [a < b] on the keys of a sort. Strings are compared with strings and
    integers (booleans included) with integers; a comparison across these
    kinds, or one that involves [None] or a dict, raises [TypeError].
    Keys that are lists, which Python compares item by item, are not
    ordered by this model. *)
Definition py_lt (a b : json) : result bool :=
  match a, b with
  | JStr x, JStr y => Ok (String.ltb x y)
  | JInt x, JInt y => Ok (x <? y)
  | JInt x, JBool y => Ok (x <? Z.b2z y)
  | JBool x, JInt y => Ok (Z.b2z x <? y)
  | JBool x, JBool y => Ok (Z.b2z x <? Z.b2z y)
  | _, _ => Raise TypeError
  end.

(** The stable sort on precomputed keys, with a comparison that may
    raise. A list of fewer than two items is never compared. *)
Fixpoint insert_keyed {A} (kx : json * A) (sorted : list (json * A))
  : result (list (json * A)) :=
  match sorted with
  | [] => Ok [kx]
  | ky :: rest =>
      lt ← py_lt (fst ky) (fst kx);
      if lt : bool then rest' ← insert_keyed kx rest; Ok (ky :: rest')
      else Ok (kx :: sorted)
  end.

Fixpoint sort_keyed {A} (l : list (json * A)) : result (list (json * A)) :=
  match l with
  | [] => Ok []
  | kx :: rest => sorted ← sort_keyed rest; insert_keyed kx sorted
  end.

(** [events.sort] with the key [e.get("timestamp", default)], whose
    default is the empty string: the keys are computed first, for every
    event. *)
Definition sort_by_timestamp (events : list json) : result (list json) :=
  keyed ← for_each events
            (fun acc e => k ← py_get e "timestamp" (JStr EmptyString); Ok (acc ++ [(k, e)])) [];
  sorted ← sort_keyed keyed;
  Ok (map snd sorted).

(** ** The source tree *)

(** A file under a trajectory: what [open] and [json.load] yield on it
    (a value, or the exception raised), and its modification time.
    A modification time is a finite binary64 value, hence a multiple of
    2^-1074; it is kept as that integer multiple, an embedding that
    preserves [max] and [<=], the only operations applied to it. *)
Record src_file := {
  contents : result json;
  file_mtime : Z
}.

Record dir_contents := {
  base_state_json : option src_file;
  events_subdir : option (list (string * src_file))
}.

(** A path of the conversations directory: [dir] is [None] for an
    entry that is not a directory. *)
Record source_path := {
  name : string;
  st_mtime : Z;
  dir : option dir_contents
}.

(** [trajectory_path / "base_state.json"], when it exists. *)
Definition base_state_path (trajectory_path : source_path) : option src_file :=
  d ← dir trajectory_path; base_state_json d.

(** The listing of [trajectory_path / "events"], when it exists. *)
Definition events_dir (trajectory_path : source_path) : option (list (string * src_file)) :=
  d ← dir trajectory_path; events_subdir d.

Definition ends_with (suffix s : string) : bool :=
  let n := String.length s in
  let k := String.length suffix in
  (k <=? n)%nat && String.eqb (String.substring (n - k) k s) suffix.

(** Whether a file name matches the pattern [event-*.json]. *)
Definition matches_event_glob (file_name : string) : bool :=
  String.prefix "event-" file_name && ends_with ".json" file_name
  && (11 <=? String.length file_name)%nat.

(** [events_dir.glob("event-*.json")], in the order of the listing. *)
Definition glob_events (listing : list (string * src_file)) : list (string * src_file) :=
  filter (fun f => matches_event_glob (fst f) = true) listing.

(** [sorted(events_dir.glob("event-*.json"))]: paths of one directory
    are ordered by their file names. *)
Definition sorted_event_files (listing : list (string * src_file))
  : list (string * src_file) :=
  sort_by (fun f g => String.ltb (fst f) (fst g)) (glob_events listing).

(** ** Metrics *)

Section Metrics.
Context {rt : Runtime}.

(** [datetime.fromisoformat(s)] *)
Definition py_fromisoformat (s : string) : result datetime :=
  match fromisoformat s with
  | Some d => Ok d
  | None => Raise ValueError
  end.

(** The guarded block of [compute_total_conversation_time]: the new
    value of [total_time]. *)
Definition add_interval (total_time : pynum) (prev_timestamp curr_timestamp : json)
  : result pynum :=
  try_except
    (p ← py_replace_Z prev_timestamp;
     prev_dt ← py_fromisoformat p;
     c ← py_replace_Z curr_timestamp;
     curr_dt ← py_fromisoformat c;
     delta ← datetime_sub curr_dt prev_dt;
     let duration := total_seconds delta in
     if float_gt0 duration then Ok (py_add_float total_time duration)
     else Ok total_time)
    [ValueError; TypeError]
    (Ok total_time).

(** The body of the loop of [compute_total_conversation_time]. *)
Definition total_time_step (events : list json) (total_time : pynum) (i : nat)
  : result pynum :=
  prev_event ← py_index events (i - 1);
  curr_event ← py_index events i;
  source ← py_get prev_event "source" JNull;
  if py_ne_str source "user" then
    prev_timestamp ← py_get prev_event "timestamp" JNull;
    curr_timestamp ← py_get curr_event "timestamp" JNull;
    if truthy prev_timestamp && truthy curr_timestamp
    then add_interval total_time prev_timestamp curr_timestamp
    else Ok total_time
  else Ok total_time.

Definition compute_total_conversation_time (events : list json) : result pynum :=
  if (length events <? 2)%nat then Ok (PyInt 0)
  else
    total_time ← for_each (py_range 1 (length events)) (total_time_step events) (PyInt 0);
    Ok (py_round1 total_time).

(** The guarded block of the turn-time loop: the new value of
    [agent_turn_times]. *)
Definition add_turn_time (agent_turn_times : list spec_float)
    (event_timestamp last_trigger_timestamp : json) : result (list spec_float) :=
  try_except
    (c ← py_replace_Z event_timestamp;
     current_dt ← py_fromisoformat c;
     p ← py_replace_Z last_trigger_timestamp;
     prev_dt ← py_fromisoformat p;
     delta ← datetime_sub current_dt prev_dt;
     let duration := total_seconds delta in
     if float_gt0 duration then Ok (agent_turn_times ++ [duration])
     else Ok agent_turn_times)
    [ValueError; TypeError]
    (Ok agent_turn_times).

(** The body of the turn-time loop of [compute_trajectory_metadata], on
    the pair [(agent_turn_times, last_trigger_timestamp)]; [None] is
    [JNull]. *)
Definition turn_time_step (st : list spec_float * json) (event : json)
  : result (list spec_float * json) :=
  let '(agent_turn_times, last_trigger_timestamp) := st in
  event_source ← py_get event "source" JNull;
  event_timestamp ← py_get event "timestamp" JNull;
  if negb (truthy event_timestamp) then Ok st
  else
    agent_turn_times' ←
      (if py_eq_str event_source "agent" && truthy last_trigger_timestamp
       then add_turn_time agent_turn_times event_timestamp last_trigger_timestamp
       else Ok agent_turn_times);
    Ok (agent_turn_times', event_timestamp).

(** The turn-time loop and the average that follows it. *)
Definition agent_turn_times_of (events : list json) : result (list spec_float) :=
  st ← for_each events turn_time_step ([], JNull);
  Ok (fst st).

Definition average_turn_time (agent_turn_times : list spec_float) : result pynum :=
  match agent_turn_times with
  | [] => Ok (PyInt 0)
  | _ =>
      mean ← py_div_len (py_sum sum_compensated agent_turn_times)
                        (length agent_turn_times);
      Ok (PyFloat (float_round1 mean))
  end.

(** The record returned by [compute_trajectory_metadata]. *)
Record metadata := {
  id : string;
  title : json;
  model : json;
  created : string;
  eventCount : nat;
  promptTokens : json;
  completionTokens : json;
  reasoningTokens : json;
  cacheReadTokens : json;
  cachePct : Z;
  totalTokens : json;
  avgAgentTurnTime : pynum;
  totalConversationTime : pynum
}.

(** What the base-state block assigns. *)
Record base_state_fields := {
  bs_title : json;
  bs_model : json;
  bs_prompt_tokens : json;
  bs_completion_tokens : json;
  bs_reasoning_tokens : json;
  bs_cache_read_tokens : json
}.

Definition default_fields (trajectory_id : string) : base_state_fields :=
  {| bs_title := JStr trajectory_id;
     bs_model := JNull;
     bs_prompt_tokens := JInt 0;
     bs_completion_tokens := JInt 0;
     bs_reasoning_tokens := JInt 0;
     bs_cache_read_tokens := JInt 0 |}.

(** The statements under [json.load] in the base-state block. *)
Definition read_base_state (trajectory_id : string) (base_state : json)
  : result base_state_fields :=
  has_agent ← py_contains base_state "agent";
  '(title, model) ←
    (if has_agent : bool then
       agent ← py_get base_state "agent" (JObj []);
       if is_dict agent then
         title ← py_get agent "id" (JStr trajectory_id);
         llm ← py_get agent "llm" (JObj []);
         if is_dict llm then
           model ← py_get llm "model" JNull;
           Ok (title, model)
         else Ok (title, JNull)
       else Ok (JStr trajectory_id, JNull)
     else Ok (JStr trajectory_id, JNull));
  stats ← py_get base_state "stats" (JObj []);
  usage ← py_get stats "usage_to_metrics" (JObj []);
  agent_usage ← py_get usage "agent" (JObj []);
  token_usage ← py_get agent_usage "accumulated_token_usage" (JObj []);
  prompt_tokens ← py_get token_usage "prompt_tokens" (JInt 0);
  completion_tokens ← py_get token_usage "completion_tokens" (JInt 0);
  reasoning_tokens ← py_get token_usage "reasoning_tokens" (JInt 0);
  cache_read_tokens ← py_get token_usage "cache_read_tokens" (JInt 0);
  Ok {| bs_title := title;
        bs_model := model;
        bs_prompt_tokens := prompt_tokens;
        bs_completion_tokens := completion_tokens;
        bs_reasoning_tokens := reasoning_tokens;
        bs_cache_read_tokens := cache_read_tokens |}.

(** The base-state block: a file that is absent, cannot be opened or
    is not JSON leaves the defaults. *)
Definition base_state_block (trajectory_path : source_path) : result base_state_fields :=
  let trajectory_id := name trajectory_path in
  match base_state_path trajectory_path with
  | Some f =>
      try_except
        (base_state ← contents f; read_base_state trajectory_id base_state)
        [JSONDecodeError; IOError]
        (Ok (default_fields trajectory_id))
  | None => Ok (default_fields trajectory_id)
  end.

(** The loop that loads the event files: a file that cannot be opened
    or is not JSON is left out. *)
Definition load_events (event_files : list (string * src_file)) : result (list json) :=
  for_each event_files
    (fun events event_file =>
       try_except
         (event ← contents (snd event_file); Ok (events ++ [event]))
         [JSONDecodeError; IOError]
         (Ok events))
    [].

(** The events block: [(event_count, avg_agent_turn_time,
    total_conversation_time)]. *)
Definition events_block (trajectory_path : source_path) : result (nat * pynum * pynum) :=
  match events_dir trajectory_path with
  | Some listing =>
      let event_files := sorted_event_files listing in
      let event_count := length event_files in
      events ← load_events event_files;
      events ← sort_by_timestamp events;
      total_conversation_time ← compute_total_conversation_time events;
      agent_turn_times ← agent_turn_times_of events;
      avg_agent_turn_time ← average_turn_time agent_turn_times;
      Ok (event_count, avg_agent_turn_time, total_conversation_time)
  | None => Ok (0%nat, PyInt 0, PyInt 0)
  end.

(** [a + b] on values read from JSON. *)
Definition py_add (a b : json) : result json :=
  match a, b with
  | JInt x, JInt y => Ok (JInt (x + y))
  | JInt x, JBool y => Ok (JInt (x + Z.b2z y))
  | JBool x, JInt y => Ok (JInt (Z.b2z x + y))
  | JBool x, JBool y => Ok (JInt (Z.b2z x + Z.b2z y))
  | JStr x, JStr y => Ok (JStr (x +:+ y))
  | JArr x, JArr y => Ok (JArr (x ++ y))
  | _, _ => Raise TypeError
  end.

(** [v > 0] *)
Definition py_gt0 (v : json) : result bool :=
  match v with
  | JInt n => Ok (0 <? n)
  | JBool b => Ok b
  | _ => Raise TypeError
  end.

(** [a / b] *)
Definition py_truediv (a b : json) : result spec_float :=
  match a, b with
  | JInt x, JInt y => int_truediv x y
  | JInt x, JBool y => int_truediv x (Z.b2z y)
  | JBool x, JInt y => int_truediv (Z.b2z x) y
  | JBool x, JBool y => int_truediv (Z.b2z x) (Z.b2z y)
  | _, _ => Raise TypeError
  end.

Definition compute_trajectory_metadata (trajectory_path : source_path) : result metadata :=
  let trajectory_id := name trajectory_path in
  fields ← base_state_block trajectory_path;
  '(event_count, avg_agent_turn_time, total_conversation_time) ←
     events_block trajectory_path;
  let prompt_tokens := bs_prompt_tokens fields in
  let completion_tokens := bs_completion_tokens fields in
  let cache_read_tokens := bs_cache_read_tokens fields in
  total_tokens ← py_add prompt_tokens completion_tokens;
  has_prompt ← py_gt0 prompt_tokens;
  cache_pct ←
    (if has_prompt : bool then
       ratio ← py_truediv cache_read_tokens prompt_tokens;
       float_round (fmul ratio (float_of_Z 100))
     else Ok 0);
  Ok {| id := trajectory_id;
        title := bs_title fields;
        model := bs_model fields;
        created := ctime (st_mtime trajectory_path);
        eventCount := event_count;
        promptTokens := prompt_tokens;
        completionTokens := completion_tokens;
        reasoningTokens := bs_reasoning_tokens fields;
        cacheReadTokens := cache_read_tokens;
        cachePct := cache_pct;
        totalTokens := total_tokens;
        avgAgentTurnTime := avg_agent_turn_time;
        totalConversationTime := total_conversation_time |}.

(** The dict returned by [build_trajectory_detail]; the keys
    [baseState] and [model] are optional. *)
Record detail := {
  detail_id : string;
  detail_created : string;
  detail_eventCount : nat;
  detail_baseState : option json;
  detail_model : option json
}.

Definition build_trajectory_detail (trajectory_path : source_path) : result detail :=
  '(base, model) ←
    match base_state_path trajectory_path with
    | Some f =>
        try_except
          (base_state ← contents f;
           agent ← py_get base_state "agent" (JObj []);
           if is_dict agent then
             llm ← py_get agent "llm" (JObj []);
             if is_dict llm then
               model ← py_get llm "model" JNull;
               Ok (Some base_state, Some model)
             else Ok (Some base_state, None)
           else Ok (Some base_state, None))
          [JSONDecodeError; IOError]
          (Ok (None, None))
    | None => Ok (None, None)
    end;
  let event_count :=
    match events_dir trajectory_path with
    | Some listing => length (glob_events listing)
    | None => 0%nat
    end in
  Ok {| detail_id := name trajectory_path;
        detail_created := ctime (st_mtime trajectory_path);
        detail_eventCount := event_count;
        detail_baseState := base;
        detail_model := model |}.

(** [build_events]: the events, and the names of the files a warning
    was printed for. *)
Definition build_events (trajectory_path : source_path)
  : result (list json * list string) :=
  match events_dir trajectory_path with
  | None => Ok ([], [])
  | Some listing =>
      for_each (sorted_event_files listing)
        (fun (st : list json * list string) event_file =>
           let '(events, warnings) := st in
           try_except
             (event ← contents (snd event_file); Ok (events ++ [event], warnings))
             [JSONDecodeError; IOError]
             (Ok (events, warnings ++ [fst event_file])))
        ([], [])
  end.

Definition get_source_mtime (trajectory_path : source_path) : Z :=
  let mtime := st_mtime trajectory_path in
  let mtime :=
    match base_state_path trajectory_path with
    | Some base_state => Z.max mtime (file_mtime base_state)
    | None => mtime
    end in
  match events_dir trajectory_path with
  | Some listing =>
      fold_left (fun mtime f => Z.max mtime (file_mtime (snd f)))
                (glob_events listing) mtime
  | None => mtime
  end.

End Metrics.

(** ** The output directory *)

(** What [json.dump] wrote to a file of the output; [OtherContent] is
    a file the script did not write. *)
Inductive content :=
| TrajectoryJson (d : detail)
| EventsJson (events : list json)
| TrajectoriesJson (trajectories : list metadata)
| OtherContent.

Record out_file := {
  written : content;
  out_mtime : Z
}.

(** An entry of [dist/data]: a file, or a directory of files. *)
Inductive out_node :=
| OutFile (f : out_file)
| OutDir (files : gmap string out_file).

(** What a run does to the outside: the files it writes (path below
    [dist/data] and content), the directories it removes, the files
    [build_events] reports as unreadable. *)
Inductive effect :=
| Write (path : list string) (c : content)
| Rmtree (entry_name : string)
| Warning (file_name : string).

Record world := {
  data_dir : gmap string out_node;
  trace : list effect
}.

(** Computations on the output directory; an exception leaves what was
    done before it. *)
Definition M (A : Type) : Type := world -> result A * world.

#[global] Instance M_ret : MRet M := fun _ a w => (Ok a, w).
#[global] Instance M_bind : MBind M := fun _ _ f m w =>
  match m w with
  | (Ok a, w') => f a w'
  | (Raise e, w') => (Raise e, w')
  end.

Definition lift {A} (r : result A) : M A := fun w => (r, w).

Fixpoint for_each_M {A S} (items : list A) (body : S -> A -> M S) (s : S) : M S :=
  match items with
  | [] => mret s
  | x :: rest => s' ← body s x; for_each_M rest body s'
  end.

Definition is_out_dir (node : out_node) : bool :=
  match node with
  | OutDir _ => true
  | OutFile _ => false
  end.

(** [data_dir / entry_name / "events.json"], when it exists. *)
Definition events_output (w : world) (entry_name : string) : option out_file :=
  match data_dir w !! entry_name with
  | Some (OutDir files) => files !! "events.json"
  | _ => None
  end.

(** [traj_output_dir.mkdir(exist_ok=True)] *)
Definition mkdir (entry_name : string) : M unit := fun w =>
  match data_dir w !! entry_name with
  | None =>
      (Ok (), {| data_dir := <[entry_name := OutDir ∅]> (data_dir w);
                 trace := trace w |})
  | Some (OutDir _) => (Ok (), w)
  | Some (OutFile _) => (Raise FileExistsError, w)
  end.

(** [json.dump] to a file of a trajectory's output directory; [now] is
    the modification time the file gets. *)
Definition write_output (entry_name file_name : string) (c : content) (now : Z)
  : M unit := fun w =>
  match data_dir w !! entry_name with
  | Some (OutDir files) =>
      (Ok (),
       {| data_dir :=
            <[entry_name :=
                OutDir (<[file_name := {| written := c; out_mtime := now |}]> files)]>
              (data_dir w);
          trace := trace w ++ [Write [entry_name; file_name] c] |})
  | Some (OutFile _) => (Raise NotADirectoryError, w)
  | None => (Raise IOError, w)
  end.

(** [json.dump] to [data_dir / "trajectories.json"]. *)
Definition write_index (trajectories : list metadata) (now : Z) : M unit := fun w =>
  match data_dir w !! "trajectories.json" with
  | Some (OutDir _) => (Raise IsADirectoryError, w)
  | _ =>
      (Ok (),
       {| data_dir :=
            <["trajectories.json" :=
                OutFile {| written := TrajectoriesJson trajectories;
                           out_mtime := now |}]> (data_dir w);
          trace := trace w ++ [Write ["trajectories.json"] (TrajectoriesJson trajectories)] |})
  end.

(** [shutil.rmtree(existing_output)] *)
Definition rmtree (entry_name : string) : M unit := fun w =>
  (Ok (), {| data_dir := delete entry_name (data_dir w);
             trace := trace w ++ [Rmtree entry_name] |}).

Definition warn (file_names : list string) : M unit := fun w =>
  (Ok (), {| data_dir := data_dir w;
             trace := trace w ++ map Warning file_names |}).

(** [data_dir.iterdir()]: the entries, in the order the system lists
    them. *)
Definition iterdir : M (list (string * out_node)) := fun w =>
  (Ok (map_to_list (data_dir w)), w).

(** ** The build *)

Definition lower_char (c : ascii) : ascii :=
  let n := nat_of_ascii c in
  if (65 <=? n)%nat && (n <=? 90)%nat then ascii_of_nat (n + 32) else c.

(** [entry_name.lower()]. Strings are byte strings here. No character
    outside ASCII is lowered to a hexadecimal digit, so a name with such
    a character fails the test below in Python and in this model alike. *)
Fixpoint lower (s : string) : string :=
  match s with
  | EmptyString => EmptyString
  | String c rest => String (lower_char c) (lower rest)
  end.

(** [c in "0123456789abcdef"] for a character [c]. *)
Definition in_hex_digits (c : ascii) : bool :=
  match String.index 0 (String c EmptyString) "0123456789abcdef" with
  | Some _ => true
  | None => false
  end.

(** [len(entry.name) == 32 and all(c in "0123456789abcdef" for c in
    entry.name.lower())] *)
Definition looks_like_trajectory_id (entry_name : string) : bool :=
  (String.length entry_name =? 32)%nat
  && forallb in_hex_digits (list_ascii_of_string (lower entry_name)).

(** [entry.is_dir()] *)
Definition is_dir (entry : source_path) : bool :=
  match dir entry with
  | Some _ => true
  | None => false
  end.

(** The variables of the main loop of [build_static_site]. *)
Record loop_state := {
  trajectories : list metadata;
  source_ids : gset string;
  rebuilt_count : nat;
  skipped_count : nat
}.

Definition initial_state : loop_state :=
  {| trajectories := []; source_ids := ∅; rebuilt_count := 0; skipped_count := 0 |}.

(** What [build_static_site] has computed when the data is written. *)
Record summary := {
  index : list metadata;
  observed_ids : gset string;
  rebuilt : nat;
  skipped : nat;
  removed : nat
}.

Section Build.
Context {rt : Runtime}.

(** The modification time a file written by this run gets, by its path
    below [dist/data]. *)
Variable clock : list string -> Z.

(** The test that ends the iteration of an up-to-date trajectory. *)
Definition up_to_date (entry : source_path) : M bool := fun w =>
  match events_output w (name entry) with
  | Some events_json =>
      let source_mtime := get_source_mtime entry in
      let output_mtime := out_mtime events_json in
      (Ok (source_mtime <=? output_mtime), w)
  | None => (Ok false, w)
  end.

(** The body of the main loop. *)
Definition process_entry (st : loop_state) (entry : source_path) : M loop_state :=
  if is_dir entry && looks_like_trajectory_id (name entry) then
    let st := {| trajectories := trajectories st;
                 source_ids := {[name entry]} ∪ source_ids st;
                 rebuilt_count := rebuilt_count st;
                 skipped_count := skipped_count st |} in
    metadata ← lift (compute_trajectory_metadata entry);
    let st := {| trajectories := trajectories st ++ [metadata];
                 source_ids := source_ids st;
                 rebuilt_count := rebuilt_count st;
                 skipped_count := skipped_count st |} in
    fresh ← up_to_date entry;
    if fresh : bool then
      mret {| trajectories := trajectories st;
              source_ids := source_ids st;
              rebuilt_count := rebuilt_count st;
              skipped_count := S (skipped_count st) |}
    else
      let st := {| trajectories := trajectories st;
                   source_ids := source_ids st;
                   rebuilt_count := S (rebuilt_count st);
                   skipped_count := skipped_count st |} in
      _ ← mkdir (name entry);
      trajectory_detail ← lift (build_trajectory_detail entry);
      _ ← write_output (name entry) "trajectory.json"
            (TrajectoryJson trajectory_detail)
            (clock [name entry; "trajectory.json"]);
      built ← lift (build_events entry);
      _ ← warn (snd built);
      _ ← write_output (name entry) "events.json"
            (EventsJson (fst built))
            (clock [name entry; "events.json"]);
      mret st
  else mret st.

(** The body of the loop that removes the outputs without a source. *)
Definition remove_if_stale (ids : gset string) (removed_count : nat)
    (existing_output : string * out_node) : M nat :=
  if is_out_dir (snd existing_output) && negb (bool_decide (fst existing_output ∈ ids))
  then _ ← rmtree (fst existing_output); mret (S removed_count)
  else mret removed_count.

(** [build_static_site], up to the writing of [trajectories.json];
    [conversations_dir] is [None] when the directory does not exist and
    its listing, in the order of [iterdir], otherwise. The run starts
    where the output and data directories exist (lines 277-279 have
    returned): a conversations path that is not a directory, an entry
    whose [stat] fails and a file system that refuses a write or a
    removal are not part of this model, which knows the exceptions of the
    trajectories and of the output entries only. *)
Definition build_static_site (conversations_dir : option (list source_path)) : M summary :=
  st ← match conversations_dir with
       | None => mret initial_state
       | Some entries =>
           for_each_M
             (sort_by (fun a b => st_mtime b <? st_mtime a) entries)
             process_entry initial_state
       end;
  existing ← iterdir;
  removed_count ← for_each_M existing (remove_if_stale (source_ids st)) 0%nat;
  _ ← write_index (trajectories st) (clock ["trajectories.json"]);
  mret {| index := trajectories st;
          observed_ids := source_ids st;
          rebuilt := rebuilt_count st;
          skipped := skipped_count st;
          removed := removed_count |}.

End Build.

(** ** A runtime to evaluate the definitions

    [iso_datetime] reads the timestamps that [datetime.isoformat]
    prints, [YYYY-MM-DDTHH:MM:SS] followed by an optional fraction of
    three or six digits and an optional offset [+HH:MM] or [-HH:MM]; every
    version of [datetime.fromisoformat] reads them the same way. *)

Definition digit (c : ascii) : option Z :=
  let n := Z.of_nat (nat_of_ascii c) in
  if (48 <=? n) && (n <=? 57) then Some (n - 48) else None.

Fixpoint number (cs : list ascii) (acc : Z) : option Z :=
  match cs with
  | [] => Some acc
  | c :: rest => d ← digit c; number rest (10 * acc + d)
  end.

Definition is_leap (y : Z) : bool :=
  (y mod 4 =? 0) && (negb (y mod 100 =? 0) || (y mod 400 =? 0)).

Definition days_in_month (y m : Z) : Z :=
  if m =? 2 then (if is_leap y then 29 else 28)
  else if (m =? 4) || (m =? 6) || (m =? 9) || (m =? 11) then 30 else 31.

Definition days_before_year (y : Z) : Z :=
  let p := y - 1 in p * 365 + p / 4 - p / 100 + p / 400.

Fixpoint days_before_month (y : Z) (m : nat) : Z :=
  match m with
  | O => 0
  | S k => days_before_month y k + days_in_month y (Z.of_nat m)
  end.

(** The whole days before the given date, counted from 0001-01-01. *)
Definition ordinal (y m d : Z) : Z :=
  days_before_year y + days_before_month y (Z.to_nat (m - 1)) + (d - 1).

Definition iso_offset (cs : list ascii) : option (option Z) :=
  match cs with
  | [] => Some None
  | sign :: h1 :: h2 :: ":"%char :: m1 :: m2 :: [] =>
      h ← number [h1; h2] 0;
      m ← number [m1; m2] 0;
      if (h <? 24) && (m <? 60) then
        let off := (h * 3600 + m * 60) * 1000000 in
        if Ascii.eqb sign "+"%char then Some (Some off)
        else if Ascii.eqb sign "-"%char then Some (Some (- off))
        else None
      else None
  | _ => None
  end.

Definition iso_fraction (cs : list ascii) : option (Z * list ascii) :=
  match cs with
  | "."%char :: f1 :: f2 :: f3 :: rest =>
      match rest with
      | f4 :: f5 :: f6 :: rest' =>
          match number [f1; f2; f3; f4; f5; f6] 0 with
          | Some us => Some (us, rest')
          | None => ms ← number [f1; f2; f3] 0; Some (ms * 1000, rest)
          end
      | _ => ms ← number [f1; f2; f3] 0; Some (ms * 1000, rest)
      end
  | "."%char :: _ => None
  | _ => Some (0, cs)
  end.

Definition iso_datetime (s : string) : option datetime :=
  match list_ascii_of_string s with
  | y1 :: y2 :: y3 :: y4 :: "-"%char :: m1 :: m2 :: "-"%char :: d1 :: d2 :: "T"%char
    :: h1 :: h2 :: ":"%char :: n1 :: n2 :: ":"%char :: s1 :: s2 :: rest =>
      y ← number [y1; y2; y3; y4] 0;
      m ← number [m1; m2] 0;
      d ← number [d1; d2] 0;
      h ← number [h1; h2] 0;
      n ← number [n1; n2] 0;
      sec ← number [s1; s2] 0;
      '(us, rest) ← iso_fraction rest;
      off ← iso_offset rest;
      if (1 <=? y) && (1 <=? m) && (m <=? 12) && (1 <=? d) && (d <=? days_in_month y m)
         && (h <? 24) && (n <? 60) && (sec <? 60)
      then Some {| wall_us :=
                     (((ordinal y m d * 24 + h) * 60 + n) * 60 + sec) * 1000000 + us;
                   utcoffset_us := off |}
      else None
  | _ => None
  end.

(** The modification time is not rendered. *)
Definition sample_runtime : Runtime :=
  {| fromisoformat := iso_datetime;
     ctime := fun _ => EmptyString;
     sum_compensated := true |}.

(** An event with a source and a timestamp. *)
Definition event_at (source timestamp : string) : json :=
  JObj [("source", JStr source); ("timestamp", JStr timestamp)].

(** ** The specification's reading of the metrics

    These definitions follow the words of the specification; the
    theorems below compare them with the code. *)

Section Reading.
Context {rt : Runtime}.

Definition field (e : json) (k : string) : option json :=
  match e with
  | JObj fields => assoc k fields
  | _ => None
  end.

(** The timestamp an event carries: present and not empty. *)
Definition timestamp_of (e : json) : option string :=
  match field e "timestamp" with
  | Some (JStr s) => if String.eqb s EmptyString then None else Some s
  | _ => None
  end.

(** A timestamp is parsed with a trailing [Z] read as [+00:00]. *)
Definition parse_timestamp (s : string) : option datetime :=
  fromisoformat (replace_Z s).

(** The duration in seconds from [a] to [b], when both parse and can be
    subtracted. *)
Definition duration (a b : string) : option spec_float :=
  match parse_timestamp a, parse_timestamp b with
  | Some da, Some db =>
      match datetime_sub db da with
      | Ok us => Some (total_seconds us)
      | Raise _ => None
      end
  | _, _ => None
  end.

Definition positive_duration (a b : string) : option spec_float :=
  d ← duration a b; if float_gt0 d then Some d else None.

Definition from_user (e : json) : bool :=
  match field e "source" with
  | Some v => py_eq_str v "user"
  | None => false
  end.

Definition from_agent (e : json) : bool :=
  match field e "source" with
  | Some v => py_eq_str v "agent"
  | None => false
  end.

(** What the pair [(prev, curr)] adds to the conversation time. *)
Definition interval (prev curr : json) : option spec_float :=
  if from_user prev then None
  else p ← timestamp_of prev; c ← timestamp_of curr; positive_duration p c.

Fixpoint adjacent_pairs (events : list json) : list (json * json) :=
  match events with
  | prev :: (curr :: _) as rest => (prev, curr) :: adjacent_pairs rest
  | _ => []
  end.

Definition counted_intervals (events : list json) : list spec_float :=
  omap (fun pc => interval (fst pc) (snd pc)) (adjacent_pairs events).

(** The sum of the counted intervals, in the order of the events,
    rounded to one decimal. *)
Definition total_conversation_time_spec (events : list json) : pynum :=
  py_round1 (fold_left py_add_float (counted_intervals events) (PyInt 0)).

(** The last timestamp seen among the events already walked. *)
Definition last_seen_timestamp (seen : list json) : option string :=
  last (omap timestamp_of seen).

(** The sample an event records, given the events walked before it. *)
Definition turn_sample (seen : list json) (e : json) : option spec_float :=
  if from_agent e
  then c ← timestamp_of e; p ← last_seen_timestamp seen; positive_duration p c
  else None.

Definition turn_samples (events : list json) : list spec_float :=
  omap (fun i => e ← events !! i; turn_sample (take i events) e)
       (seq 0 (length events)).

(** The arithmetic mean of a list of samples. *)
Definition mean (samples : list spec_float) : spec_float :=
  let total :=
    match py_sum sum_compensated samples with
    | PyFloat x => x
    | PyInt n => float_of_Z n
    end in
  fdiv total (float_of_Z (Z.of_nat (length samples))).

Definition average_turn_time_spec (samples : list spec_float) : pynum :=
  match samples with
  | [] => PyInt 0
  | _ => PyFloat (float_round1 (mean samples))
  end.

End Reading.

(** An event as the data model has it: a record whose timestamp, when
    present, is a string or [null]. *)
Definition is_event (e : json) : bool :=
  match e with
  | JObj fields =>
      match assoc "timestamp" fields with
      | None | Some JNull | Some (JStr _) => true
      | _ => false
      end
  | _ => false
  end.

(** The value of [last_trigger_timestamp] after the events [seen]. *)
Definition trigger `{Runtime} (seen : list json) : json :=
  match last_seen_timestamp seen with
  | Some s => JStr s
  | None => JNull
  end.

(** The samples of the events [rest], walked after the events [seen]. *)
Fixpoint samples_from `{Runtime} (seen rest : list json) : list spec_float :=
  match rest with
  | [] => []
  | e :: rest' => option_list (turn_sample seen e) ++ samples_from (seen ++ [e]) rest'
  end.

(** An event whose timestamp is missing or empty. *)
Definition lacks_timestamp (e : json) : bool :=
  match e with
  | JObj fields =>
      match assoc "timestamp" fields with
      | None => true
      | Some (JStr s) => String.eqb s EmptyString
      | _ => false
      end
  | _ => false
  end.

(** The path of the token counters in the base state. *)
Definition token_path : list string :=
  ["stats"; "usage_to_metrics"; "agent"; "accumulated_token_usage"].

(** Whether, going down [path] from [v] through objects, a key is
    absent from the object reached. *)
Fixpoint missing_link (v : json) (path : list string) : bool :=
  match path with
  | [] => false
  | k :: rest =>
      match v with
      | JObj fields =>
          match assoc k fields with
          | None => true
          | Some v' => missing_link v' rest
          end
      | _ => false
      end
  end.

(** What an event file holds when it loads. *)
Definition parsed (f : string * src_file) : option json :=
  match contents (snd f) with
  | Ok event => Some event
  | Raise _ => None
  end.

(** A file that cannot be opened or read (an [OSError] of any kind) or
    is not JSON. *)
Definition unparsable (f : string * src_file) : bool :=
  match contents (snd f) with
  | Raise JSONDecodeError | Raise IOError | Raise FileExistsError
  | Raise NotADirectoryError | Raise IsADirectoryError => true
  | _ => false
  end.

(** A file that loads, cannot be opened or is not JSON: reading it
    raises nothing else. *)
Definition loads_or_unparsable (f : string * src_file) : bool :=
  match contents (snd f) with
  | Ok _ => true
  | Raise _ => unparsable f
  end.

(** The number of event files the directory listing shows. *)
Definition listed_event_files (trajectory_path : source_path) : nat :=
  match events_dir trajectory_path with
  | Some listing => length (glob_events listing)
  | None => 0
  end.

(** The metadata of a trajectory whose base state leaves the token
    counters at their default. *)
Definition metadata_without_tokens `{Runtime} (trajectory_path : source_path)
    (title model : json) (ev : nat * pynum * pynum) : metadata :=
  {| id := name trajectory_path;
     title := title;
     model := model;
     created := ctime (st_mtime trajectory_path);
     eventCount := fst (fst ev);
     promptTokens := JInt 0;
     completionTokens := JInt 0;
     reasoningTokens := JInt 0;
     cacheReadTokens := JInt 0;
     cachePct := 0;
     totalTokens := JInt 0;
     avgAgentTurnTime := snd (fst ev);
     totalConversationTime := snd ev |}.

(** The event files of a listing raise nothing but what the loops
    catch. *)
Definition all_load (files : list (string * src_file)) : Prop :=
  Forall (fun f => loads_or_unparsable f = true) files.

(** ** The specification's reading of the build *)

(** An entry of the conversations directory that the main loop takes
    for a trajectory. *)
Definition conforming (entry : source_path) : bool :=
  is_dir entry && looks_like_trajectory_id (name entry).

(** FRESH: the events output exists and is at least as recent as the
    trajectory directory, the base-state file if present, and every
    event file. *)
Definition fresh (w : world) (entry : source_path) : Prop :=
  exists events_json,
    events_output w (name entry) = Some events_json
    /\ st_mtime entry <= out_mtime events_json
    /\ (forall f, base_state_path entry = Some f ->
                  file_mtime f <= out_mtime events_json)
    /\ (forall listing f, events_dir entry = Some listing ->
                          f ∈ glob_events listing ->
                          file_mtime (snd f) <= out_mtime events_json).

(** The loop variables after a trajectory that was skipped, and after
    one that was rebuilt. *)
Definition skipped_state (st : loop_state) (entry : source_path) (m : metadata)
  : loop_state :=
  {| trajectories := trajectories st ++ [m];
     source_ids := {[name entry]} ∪ source_ids st;
     rebuilt_count := rebuilt_count st;
     skipped_count := S (skipped_count st) |}.

Definition rebuilt_state (st : loop_state) (entry : source_path) (m : metadata)
  : loop_state :=
  {| trajectories := trajectories st ++ [m];
     source_ids := {[name entry]} ∪ source_ids st;
     rebuilt_count := S (rebuilt_count st);
     skipped_count := skipped_count st |}.

(** The files of an output directory; none when it does not exist. *)
Definition output_files (w : world) (entry_name : string) : gmap string out_file :=
  match data_dir w !! entry_name with
  | Some (OutDir files) => files
  | _ => ∅
  end.

(** The world after the rebuild of a trajectory: both outputs are
    written, the warnings of [build_events] come between the writes. *)
Definition rebuilt_world (clock : list string -> Z) (w : world) (entry : source_path)
    (d : detail) (events : list json) (warnings : list string) : world :=
  let n := name entry in
  {| data_dir :=
       <[n := OutDir
                (<["events.json" :=
                     {| written := EventsJson events;
                        out_mtime := clock [n; "events.json"] |}]>
                   (<["trajectory.json" :=
                        {| written := TrajectoryJson d;
                           out_mtime := clock [n; "trajectory.json"] |}]>
                      (output_files w n)))]> (data_dir w);
     trace := trace w
              ++ [Write [n; "trajectory.json"] (TrajectoryJson d)]
              ++ map Warning warnings
              ++ [Write [n; "events.json"] (EventsJson events)] |}.

(** The order in which the main loop takes the entries: the most
    recently modified first, ties in the order of the listing. *)
Definition processing_order (entries : list source_path) : list source_path :=
  sort_by (fun a b => st_mtime b <? st_mtime a) entries.

(** The source trajectories of a run, in processing order. *)
Definition source_trajectories (conversations_dir : option (list source_path))
  : list source_path :=
  match conversations_dir with
  | Some entries => filter (fun e => conforming e = true) (processing_order entries)
  | None => []
  end.

Definition names_of (l : list source_path) : gset string :=
  list_to_set (map name l).

(** The output directories without a source, among the entries listed. *)
Definition stale_outputs (ids : gset string) (listing : list (string * out_node))
  : list (string * out_node) :=
  filter (fun x => is_out_dir (snd x) && negb (bool_decide (fst x ∈ ids)) = true)
         listing.

(** The world after the removal of the stale outputs. *)
Definition pruned (ids : gset string) (w : world) : world :=
  let stale := stale_outputs ids (map_to_list (data_dir w)) in
  {| data_dir := fold_left (fun d x => delete (fst x) d) stale (data_dir w);
     trace := trace w ++ map (fun x => Rmtree (fst x)) stale |}.

(** The world after the writing of [trajectories.json]. *)
Definition index_written (clock : list string -> Z) (trajectories : list metadata)
    (w : world) : world :=
  {| data_dir :=
       <["trajectories.json" :=
           OutFile {| written := TrajectoriesJson trajectories;
                      out_mtime := clock ["trajectories.json"] |}]> (data_dir w);
     trace := trace w ++ [Write ["trajectories.json"] (TrajectoriesJson trajectories)] |}.

(** The main loop of [build_static_site]. *)
Definition main_loop `{Runtime} (clock : list string -> Z)
    (conversations_dir : option (list source_path)) : M loop_state :=
  match conversations_dir with
  | None => mret initial_state
  | Some entries =>
      for_each_M (processing_order entries) (process_entry clock) initial_state
  end.

(** The per-trajectory writes of a trace. *)
Definition is_trajectory_write (e : effect) : bool :=
  match e with
  | Write [_; _] _ => true
  | _ => false
  end.

(** The key of an event in the sort by timestamp. *)
Definition timestamp_key (e : json) : json :=
  default (JStr EmptyString) (field e "timestamp").

(** Two keyed items in sorted order: the second is not smaller. *)
Definition keys_ordered {A} (ka kb : json * A) : Prop :=
  py_lt (fst kb) (fst ka) = Ok false.

(** Two events in timestamp order. *)
Definition timestamps_ordered (a b : json) : Prop :=
  py_lt (timestamp_key b) (timestamp_key a) = Ok false.

(** Two event files in file-name order. *)
Definition names_ordered (f g : string * src_file) : Prop :=
  String.leb (fst f) (fst g) = true.

(** A hexadecimal digit, with lower-case letters only, and with letters
    in either case. *)
Definition is_lower_hex_digit (c : ascii) : bool :=
  let n := nat_of_ascii c in
  ((48 <=? n)%nat && (n <=? 57)%nat) || ((97 <=? n)%nat && (n <=? 102)%nat).

Definition is_hex_digit (c : ascii) : bool :=
  is_lower_hex_digit c
  || (let n := nat_of_ascii c in (65 <=? n)%nat && (n <=? 70)%nat).

(** A trajectory id as the specification describes it: exactly 32
    lower-case hexadecimal characters. *)
Definition lowercase_hex_id (s : string) : bool :=
  (String.length s =? 32)%nat && forallb is_lower_hex_digit (list_ascii_of_string s).

(** Exactly 32 hexadecimal characters, letters in either case. *)
Definition hex_id (s : string) : bool :=
  (String.length s =? 32)%nat && forallb is_hex_digit (list_ascii_of_string s).

(** The entries of the conversations directory; none when it does not
    exist. *)
Definition entries_of (conversations_dir : option (list source_path))
  : list source_path :=
  default [] conversations_dir.

(** An effect other than the removal of a directory. *)
Definition not_rmtree (e : effect) : Prop :=
  match e with
  | Rmtree _ => False
  | _ => True
  end.

(** ** Sample data *)

Definition sample_id : string := "0123456789abcdef0123456789abcdef".

(** A base state with an agent entry and no statistics. *)
Definition sample_base_state : json :=
  JObj [("agent", JObj [("id", JStr "helper");
                        ("llm", JObj [("model", JStr "gpt")])])].

(** An events directory as the system lists it: the file with the
    smaller name holds the later event, one event file is not JSON, one
    file is not an event file. *)
Definition sample_listing : list (string * src_file) :=
  [("event-00002.json",
    {| contents := Ok (event_at "agent" "2024-01-01T00:00:04Z"); file_mtime := 30 |});
   ("event-00001.json",
    {| contents := Ok (event_at "user" "2024-01-01T00:00:09Z"); file_mtime := 20 |});
   ("event-00003.json",
    {| contents := Raise JSONDecodeError; file_mtime := 40 |});
   ("notes.txt",
    {| contents := Raise JSONDecodeError; file_mtime := 90 |})].

Definition sample_trajectory : source_path :=
  {| name := sample_id;
     st_mtime := 10;
     dir := Some {| base_state_json :=
                      Some {| contents := Ok sample_base_state; file_mtime := 15 |};
                    events_subdir := Some sample_listing |} |}.

(** The same trajectory with a base-state file that is not JSON. *)
Definition broken_trajectory : source_path :=
  {| name := sample_id;
     st_mtime := 10;
     dir := Some {| base_state_json :=
                      Some {| contents := Raise JSONDecodeError; file_mtime := 15 |};
                    events_subdir := Some sample_listing |} |}.

(** A directory whose name is 32 upper-case hexadecimal characters. *)
Definition upper_case_entry : source_path :=
  {| name := "0123456789ABCDEF0123456789ABCDEF";
     st_mtime := 5;
     dir := Some {| base_state_json := None; events_subdir := None |} |}.

(** A directory whose name is too short, and a plain file. *)
Definition short_entry : source_path :=
  {| name := "0123456789";
     st_mtime := 7;
     dir := Some {| base_state_json := None; events_subdir := None |} |}.

Definition plain_entry : source_path :=
  {| name := "notatrajectory"; st_mtime := 8; dir := None |}.

Definition empty_world : world := {| data_dir := ∅; trace := [] |}.

(** An output directory that holds the output of a trajectory that is
    gone and a file that the script did not write. *)
Definition stale_world : world :=
  {| data_dir :=
       <["deadbeefdeadbeefdeadbeefdeadbeef" := OutDir ∅]>
         (<["notes.txt" := OutFile {| written := OtherContent; out_mtime := 3 |}]> ∅);
     trace := [] |}.

(** A clock later than every sample file, and one earlier. *)
Definition late_clock : list string -> Z := fun _ => 1000.
Definition early_clock : list string -> Z := fun _ => 1.

Definition agent_then_user : list json :=
  [event_at "agent" "2024-01-01T00:00:00Z"; event_at "user" "2024-01-01T00:00:05Z"].

Definition user_agent_agent : list json :=
  [event_at "user" "2024-01-01T00:00:00Z";
   event_at "agent" "2024-01-01T00:00:04Z";
   event_at "agent" "2024-01-01T00:00:10Z"].

(** An agent event without timestamp. *)
Definition agent_without_timestamp : json := JObj [("source", JStr "agent")].

(** The instants of the sample timestamps. *)
Definition instant (seconds : Z) : datetime :=
  {| wall_us := 63839664000000000 + seconds * 1000000; utcoffset_us := Some 0 |}.

(** The value of a computation that ended without exception. *)
Definition ok_value {A} (r : result A) : option A :=
  match r with
  | Ok a => Some a
  | Raise _ => None
  end.

(** An event whose timestamp, when present, is a string. *)
Definition timed_event (e : json) : bool :=
  match e with
  | JObj fields =>
      match assoc "timestamp" fields with
      | None | Some (JStr _) => true
      | _ => false
      end
  | _ => false
  end.

(** The event files of a trajectory load or are unparsable, and those
    that load hold such events. *)
Definition well_formed_events (trajectory_path : source_path) : Prop :=
  match events_dir trajectory_path with
  | None => True
  | Some listing =>
      all_load (glob_events listing)
      /\ Forall (fun e => timed_event e = true) (omap parsed (glob_events listing))
  end.

(** A key of the sort that is a string. *)
Definition string_key {A} (ke : json * A) : Prop :=
  exists s, fst ke = JStr s.

(** ** Further notions about the build *)

(** The removal of a directory, among the effects. *)
Definition is_rmtree (e : effect) : bool :=
  match e with
  | Rmtree _ => true
  | _ => false
  end.

(** A write that a run may make, given the source ids it observed: the
    index, or one of the two outputs of an observed trajectory. *)
Definition allowed_write (ids : gset string) (e : effect) : Prop :=
  match e with
  | Write path _ =>
      path = ["trajectories.json"]
      \/ exists n, n ∈ ids
                   /\ (path = [n; "trajectory.json"] \/ path = [n; "events.json"])
  | _ => True
  end.

(** An effect that is not the writing of the index. *)
Definition not_index_write (e : effect) : Prop :=
  match e with
  | Write path _ => path <> ["trajectories.json"]
  | _ => True
  end.

(** The directories among the entries of the output. *)
Definition is_output_directory (w : world) (entry_name : string) : Prop :=
  exists files, data_dir w !! entry_name = Some (OutDir files).

(** ** Further notions about the base state *)

(** The value reached going down [path] from [v] through objects. *)
Fixpoint descend (v : json) (path : list string) : option json :=
  match path with
  | [] => Some v
  | k :: rest =>
      match v with
      | JObj fields => v' ← assoc k fields; descend v' rest
      | _ => None
      end
  end.

(** Whether, going down [path] from [v] through the keys that are
    present, a value that is not an object is reached ([v] itself
    included). *)
Fixpoint broken_link (v : json) (path : list string) : bool :=
  match v with
  | JObj fields =>
      match path with
      | [] => false
      | k :: rest =>
          match assoc k fields with
          | Some v' => broken_link v' rest
          | None => false
          end
      end
  | _ => true
  end.

(** The title that the agent entry of a base state gives: its [id]
    when the entry is an object with that key, the trajectory id
    otherwise. *)
Definition agent_title (trajectory_id : string) (bf : list (string * json)) : json :=
  match assoc "agent" bf with
  | Some (JObj af) => default (JStr trajectory_id) (assoc "id" af)
  | _ => JStr trajectory_id
  end.

(** The model that the agent entry of a base state names, [None] when
    it names none. *)
Definition agent_model (bf : list (string * json)) : json :=
  match default (JObj []) (assoc "agent" bf) with
  | JObj af =>
      match default (JObj []) (assoc "llm" af) with
      | JObj lf => default JNull (assoc "model" lf)
      | _ => JNull
      end
  | _ => JNull
  end.

(** An [OSError] of any kind: [IOError] and its subclasses. *)
Definition is_os_error (e : exn) : bool :=
  match e with
  | IOError | FileExistsError | NotADirectoryError | IsADirectoryError => true
  | _ => false
  end.

(** An event whose timestamp is a list. Python orders lists item by
    item; [py_lt] does not order them, so the statements about the sort
    leave such events out. *)
Definition list_key (e : json) : bool :=
  match timestamp_key e with
  | JArr _ => true
  | _ => false
  end.

(** What the base-state file holds when it loads. *)
Definition loaded_base_state (trajectory_path : source_path) : option json :=
  f ← base_state_path trajectory_path; ok_value (contents f).

(** A base state with token counters. *)
Definition counted_base_state : json :=
  JObj [("agent", JObj [("id", JStr "helper"); ("llm", JStr "gpt")]);
        ("stats",
         JObj [("usage_to_metrics",
                JObj [("agent",
                       JObj [("accumulated_token_usage",
                              JObj [("prompt_tokens", JInt 200);
                                    ("completion_tokens", JInt 30);
                                    ("cache_read_tokens", JInt 50)])])])])].

Definition counted_trajectory : source_path :=
  {| name := sample_id;
     st_mtime := 10;
     dir := Some {| base_state_json :=
                      Some {| contents := Ok counted_base_state; file_mtime := 15 |};
                    events_subdir := None |} |}.

(** A base state whose statistics are [null]. *)
Definition null_stats_trajectory : source_path :=
  {| name := sample_id;
     st_mtime := 10;
     dir := Some {| base_state_json :=
                      Some {| contents := Ok (JObj [("stats", JNull)]);
                              file_mtime := 15 |};
                    events_subdir := None |} |}.

(** The writing of the index, among the effects. *)
Definition is_index_write (e : effect) : bool :=
  match e with
  | Write path _ => bool_decide (path = ["trajectories.json"])
  | _ => false
  end.

(** Two entries in the order of the index: the first was modified no
    earlier than the second. *)
Definition most_recent_first (a b : source_path) : Prop :=
  st_mtime b <= st_mtime a.

(** ** The conversations directory

    A path is the list of its components. [home] is [Path.home()],
    [resolve p] is [p.expanduser().resolve()] and [path_is_dir p] is
    [p.is_dir()]. *)

Section ConversationsDir.
Variable home : list string.
Variable resolve : list string -> list string.
Variable path_is_dir : list string -> bool.

Definition default_dir : list string := home ++ [".openhands"; "conversations"].

(** [get_conversations_dir]: the directory, and whether it is a custom
    one. *)
Definition get_conversations_dir (input_path : option (list string))
  : list string * bool :=
  match input_path with
  | None => (default_dir, false)
  | Some input_path =>
      let resolved_path := resolve input_path in
      let resolved_path :=
        if path_is_dir (resolved_path ++ ["conversations"])
        then resolved_path ++ ["conversations"]
        else resolved_path in
      let is_custom := negb (bool_decide (resolved_path = default_dir)) in
      (resolved_path, is_custom)
  end.

End ConversationsDir.

(** A file system in which the only directory is the default one. *)
Definition sample_home : list string := ["home"; "user"].

Definition only_default_dir (p : list string) : bool :=
  bool_decide (p = default_dir sample_home).

(** A home directory that is a symbolic link to [/mnt/user]: [resolve]
    follows the link, [Path.home] does not. *)
Definition linked_resolve (p : list string) : list string :=
  match p with
  | "home" :: "user" :: rest => "mnt" :: "user" :: rest
  | _ => p
  end.

Definition only_linked_dir (p : list string) : bool :=
  bool_decide (p = ["mnt"; "user"; ".openhands"; "conversations"]).

(** ** Further sample data *)

(** An event whose timestamp is a number. *)
Definition numbered_event (seconds : Z) : json :=
  JObj [("source", JStr "agent"); ("timestamp", JInt seconds)].

(** A trajectory whose first event has a [null] timestamp. *)
Definition null_timestamp_listing : list (string * src_file) :=
  [("event-00001.json",
    {| contents := Ok (JObj [("source", JStr "user"); ("timestamp", JNull)]);
       file_mtime := 20 |});
   ("event-00002.json",
    {| contents := Ok (event_at "agent" "2024-01-01T00:00:04Z"); file_mtime := 30 |})].

Definition null_timestamp_trajectory : source_path :=
  {| name := sample_id;
     st_mtime := 10;
     dir := Some {| base_state_json := None;
                    events_subdir := Some null_timestamp_listing |} |}.

(** A trajectory whose events are in timestamp order by file name. *)
Definition ordered_events : list json :=
  [event_at "user" "2024-01-01T00:00:00Z"; event_at "agent" "2024-01-01T00:00:04Z"].

Definition ordered_listing : list (string * src_file) :=
  [("event-00002.json",
    {| contents := Ok (event_at "agent" "2024-01-01T00:00:04Z"); file_mtime := 30 |});
   ("event-00001.json",
    {| contents := Ok (event_at "user" "2024-01-01T00:00:00Z"); file_mtime := 20 |})].

Definition ordered_trajectory : source_path :=
  {| name := sample_id;
     st_mtime := 10;
     dir := Some {| base_state_json := None;
                    events_subdir := Some ordered_listing |} |}.

(** A base state with cache reads and no prompt tokens. *)
Definition zero_prompt_state : json :=
  JObj [("stats",
         JObj [("usage_to_metrics",
                JObj [("agent",
                       JObj [("accumulated_token_usage",
                              JObj [("cache_read_tokens", JInt 50)])])])])].

Definition zero_prompt_trajectory : source_path :=
  {| name := sample_id;
     st_mtime := 10;
     dir := Some {| base_state_json :=
                      Some {| contents := Ok zero_prompt_state; file_mtime := 15 |};
                    events_subdir := None |} |}.

(** A base-state file that holds a list. *)
Definition list_state_trajectory : source_path :=
  {| name := sample_id;
     st_mtime := 10;
     dir := Some {| base_state_json :=
                      Some {| contents := Ok (JArr []); file_mtime := 15 |};
                    events_subdir := None |} |}.

(** A second trajectory, modified after the others, without files. *)
Definition second_id : string := "fedcba9876543210fedcba9876543210".

Definition recent_trajectory : source_path :=
  {| name := second_id;
     st_mtime := 50;
     dir := Some {| base_state_json := None; events_subdir := None |} |}.

(** An output in which a plain file stands where the output directory
    of the sample trajectory should be. *)
Definition blocked_world : world :=
  {| data_dir := <[sample_id := OutFile {| written := OtherContent; out_mtime := 3 |}]> ∅;
     trace := [] |}.

(** An output in which the [events.json] of the sample trajectory is
    more recent than every source file. *)
Definition fresh_world : world :=
  {| data_dir :=
       <[sample_id :=
           OutDir (<["events.json" := {| written := EventsJson [];
                                         out_mtime := 1000 |}]> ∅)]> ∅;
     trace := [] |}.

(** The sample trajectory with another timestamp in one event file and
    the same modification times. *)
Definition edited_listing : list (string * src_file) :=
  [("event-00002.json",
    {| contents := Ok (event_at "agent" "2024-01-01T00:00:00Z"); file_mtime := 30 |});
   ("event-00001.json",
    {| contents := Ok (event_at "user" "2024-01-01T00:00:09Z"); file_mtime := 20 |});
   ("event-00003.json",
    {| contents := Raise JSONDecodeError; file_mtime := 40 |});
   ("notes.txt",
    {| contents := Raise JSONDecodeError; file_mtime := 90 |})].

Definition edited_trajectory : source_path :=
  {| name := sample_id;
     st_mtime := 10;
     dir := Some {| base_state_json :=
                      Some {| contents := Ok sample_base_state; file_mtime := 15 |};
                    events_subdir := Some edited_listing |} |}.

(** The sample trajectory with an event file whose reading raises an
    exception that no handler catches. *)
Definition unreadable_listing : list (string * src_file) :=
  [("event-00002.json",
    {| contents := Ok (event_at "agent" "2024-01-01T00:00:04Z"); file_mtime := 30 |});
   ("event-00001.json",
    {| contents := Ok (event_at "user" "2024-01-01T00:00:09Z"); file_mtime := 20 |});
   ("event-00003.json",
    {| contents := Raise ValueError; file_mtime := 40 |})].

Definition unreadable_trajectory : source_path :=
  {| name := sample_id;
     st_mtime := 10;
     dir := Some {| base_state_json :=
                      Some {| contents := Ok sample_base_state; file_mtime := 15 |};
                    events_subdir := Some unreadable_listing |} |}.

(** A base-state file that is a directory. *)
Definition directory_state_trajectory : source_path :=
  {| name := sample_id;
     st_mtime := 10;
     dir := Some {| base_state_json :=
                      Some {| contents := Raise IsADirectoryError; file_mtime := 15 |};
                    events_subdir := None |} |}.

(** An output directory of the sample trajectory that holds a file the
    script did not write. *)
Definition kept_notes_world : world :=
  {| data_dir :=
       <[sample_id :=
           OutDir (<["notes.txt" := {| written := OtherContent; out_mtime := 3 |}]> ∅)]> ∅;
     trace := [] |}.

(** * Properties *)

Section MetricsProperties.
Context {rt : Runtime}.

Ltac case_empty :=
  repeat match goal with
         | |- context [String.eqb ?s EmptyString] => destruct (String.eqb s EmptyString) eqn:?
         end.

Lemma add_interval_spec total p c :
  add_interval total (JStr p) (JStr c)
  = Ok (match positive_duration p c with
        | Some d => py_add_float total d
        | None => total
        end).
Proof.
  unfold add_interval, positive_duration, duration, parse_timestamp,
    py_fromisoformat; simpl.
  destruct (fromisoformat (replace_Z p)) as [dp|]; simpl; [|done].
  destruct (fromisoformat (replace_Z c)) as [dc|]; simpl; [|done].
  destruct (datetime_sub dc dp) as [us|e] eqn:Hsub; simpl.
  - by destruct (float_gt0 (total_seconds us)).
  - unfold datetime_sub in Hsub.
    destruct (utcoffset_us dc), (utcoffset_us dp); by simplify_eq.
Qed.

Lemma total_time_step_spec events total i prev curr :
  events !! (i - 1)%nat = Some prev -> events !! i = Some curr ->
  is_event prev = true -> is_event curr = true ->
  total_time_step events total i
  = Ok (match interval prev curr with
        | Some d => py_add_float total d
        | None => total
        end).
Proof.
  intros Hp Hc Wp Wc. unfold total_time_step, py_index. rewrite Hp, Hc. simpl.
  destruct prev as [| | | |?|pf]; try done.
  destruct curr as [| | | |?|cf]; try done.
  unfold interval, from_user, timestamp_of, py_ne_str; simpl in *.
  assert (Hgo : (prev_timestamp ← Ok (default JNull (assoc "timestamp" pf));
                 curr_timestamp ← Ok (default JNull (assoc "timestamp" cf));
                 if truthy prev_timestamp && truthy curr_timestamp
                 then add_interval total prev_timestamp curr_timestamp
                 else Ok total)
                = Ok (match
                       match assoc "timestamp" pf with
                       | Some (JStr s) => if String.eqb s EmptyString then None else Some s
                       | _ => None
                       end ≫= λ p,
                       match assoc "timestamp" cf with
                       | Some (JStr s) => if String.eqb s EmptyString then None else Some s
                       | _ => None
                       end ≫= λ c, positive_duration p c
                      with
                      | Some d => py_add_float total d
                      | None => total
                      end)).
  { destruct (assoc "timestamp" pf) as [[]|], (assoc "timestamp" cf) as [[]|];
      simpl; try done; case_empty; simpl; try done; apply add_interval_spec. }
  destruct (assoc "source" pf) as [src|]; simpl.
  - destruct (py_eq_str src "user"); simpl; [done|]. apply Hgo.
  - apply Hgo.
Qed.

Lemma total_time_loop events :
  Forall (fun e => is_event e = true) events ->
  forall rest pre prev total,
    events = pre ++ prev :: rest ->
    for_each (seq (S (length pre)) (length rest)) (total_time_step events) total
    = Ok (fold_left py_add_float (counted_intervals (prev :: rest)) total).
Proof.
  intros Hwf rest.
  induction rest as [|curr rest IH]; intros pre prev total Heq; [done|].
  assert (Hp : events !! (S (length pre) - 1)%nat = Some prev).
  { subst events. replace (S (length pre) - 1)%nat with (length pre + 0)%nat by lia.
    by rewrite lookup_app_r, Nat.add_comm, Nat.add_sub by lia. }
  assert (Hc : events !! S (length pre) = Some curr).
  { subst events. replace (S (length pre)) with (length pre + 1)%nat by lia.
    by rewrite lookup_app_r, Nat.add_comm, Nat.add_sub by lia. }
  assert (Wp : is_event prev = true).
  { eapply (proj1 (Forall_lookup _ _) Hwf); eauto. }
  assert (Wc : is_event curr = true).
  { eapply (proj1 (Forall_lookup _ _) Hwf); eauto. }
  cbn [length seq for_each].
  rewrite (total_time_step_spec _ _ _ _ _ Hp Hc Wp Wc). simpl.
  specialize (IH (pre ++ [prev]) curr).
  rewrite length_app in IH. simpl in IH.
  replace (length pre + 1)%nat with (S (length pre)) in IH by lia.
  rewrite IH by (by rewrite <- app_assoc).
  unfold counted_intervals. cbn [adjacent_pairs omap list_omap fst snd].
  by destruct (interval prev curr).
Qed.

Lemma compute_total_conversation_time_spec events :
  Forall (fun e => is_event e = true) events ->
  compute_total_conversation_time events = Ok (total_conversation_time_spec events).
Proof.
  intros Hwf. unfold compute_total_conversation_time, total_conversation_time_spec.
  destruct events as [|prev [|curr rest]]; try done.
  replace (length (prev :: curr :: rest) <? 2)%nat with false
    by (symmetry; apply Nat.ltb_ge; simpl; lia).
  unfold py_range.
  replace (length (prev :: curr :: rest) - 1)%nat with (length (curr :: rest))
    by (simpl; lia).
  by rewrite (total_time_loop _ Hwf (curr :: rest) [] prev).
Qed.

Lemma add_turn_time_spec acc c p :
  add_turn_time acc (JStr c) (JStr p) = Ok (acc ++ option_list (positive_duration p c)).
Proof.
  unfold add_turn_time, positive_duration, duration, parse_timestamp,
    py_fromisoformat; simpl.
  destruct (fromisoformat (replace_Z c)) as [dc|]; simpl.
  2: { destruct (fromisoformat (replace_Z p)); simpl; by rewrite app_nil_r. }
  destruct (fromisoformat (replace_Z p)) as [dp|]; simpl; [|by rewrite app_nil_r].
  destruct (datetime_sub dc dp) as [us|e] eqn:Hsub; simpl.
  - destruct (float_gt0 (total_seconds us)); simpl; by rewrite ?app_nil_r.
  - unfold datetime_sub in Hsub.
    destruct (utcoffset_us dc), (utcoffset_us dp); simplify_eq; simpl;
      by rewrite app_nil_r.
Qed.

Lemma timestamp_of_nonempty e s : timestamp_of e = Some s -> String.eqb s EmptyString = false.
Proof.
  unfold timestamp_of. destruct (field e "timestamp") as [[]|]; try done.
  destruct (String.eqb s0 EmptyString) eqn:E; [done|]. by intros [= <-].
Qed.

Lemma last_seen_nonempty seen s :
  last_seen_timestamp seen = Some s -> String.eqb s EmptyString = false.
Proof.
  unfold last_seen_timestamp. intros H.
  apply last_Some_elem_of, list_elem_of_omap in H as (e & _ & He).
  by eapply timestamp_of_nonempty.
Qed.

Lemma last_seen_snoc seen e :
  last_seen_timestamp (seen ++ [e])
  = match timestamp_of e with
    | Some s => Some s
    | None => last_seen_timestamp seen
    end.
Proof.
  unfold last_seen_timestamp. rewrite omap_app. simpl.
  destruct (timestamp_of e); simpl.
  - by rewrite last_snoc.
  - by rewrite app_nil_r.
Qed.

Lemma turn_time_step_spec acc seen e :
  is_event e = true ->
  turn_time_step (acc, trigger seen) e
  = Ok (acc ++ option_list (turn_sample seen e), trigger (seen ++ [e])).
Proof.
  intros W. destruct e as [| | | |?|f]; try done.
  unfold turn_time_step, turn_sample, from_agent, trigger.
  rewrite last_seen_snoc. unfold timestamp_of. simpl in *.
  destruct (assoc "timestamp" f) as [[]|]; simpl; try done;
    try (destruct (assoc "source" f) as [src|]; simpl;
         [destruct (py_eq_str src "agent")|]; simpl; by rewrite app_nil_r).
  destruct (String.eqb s EmptyString) eqn:Hs; simpl.
  { destruct (assoc "source" f) as [src|]; simpl;
      [destruct (py_eq_str src "agent")|]; simpl; by rewrite app_nil_r. }
  destruct (last_seen_timestamp seen) as [p|] eqn:Hl; simpl.
  - rewrite (last_seen_nonempty _ _ Hl). simpl.
    destruct (assoc "source" f) as [src|]; simpl;
      [destruct (py_eq_str src "agent")|]; simpl; rewrite ?app_nil_r; try done.
    by rewrite add_turn_time_spec.
  - rewrite andb_false_r. simpl.
    destruct (assoc "source" f) as [src|]; simpl;
      [destruct (py_eq_str src "agent")|]; simpl; by rewrite app_nil_r.
Qed.

Lemma turn_time_loop rest :
  forall seen acc,
    Forall (fun e => is_event e = true) rest ->
    for_each rest turn_time_step (acc, trigger seen)
    = Ok (acc ++ samples_from seen rest, trigger (seen ++ rest)).
Proof.
  induction rest as [|e rest IH]; intros seen acc Hwf; cbn [for_each samples_from].
  - by rewrite !app_nil_r.
  - inversion Hwf as [|? ? We Hrest]; subst.
    rewrite (turn_time_step_spec _ _ _ We). cbn [mbind result_bind].
    rewrite IH by done. by rewrite <- !app_assoc.
Qed.

Lemma turn_samples_from seen rest :
  omap (fun i => e ← (seen ++ rest) !! i; turn_sample (take i (seen ++ rest)) e)
       (seq (length seen) (length rest))
  = samples_from seen rest.
Proof.
  revert seen. induction rest as [|e rest IH]; intros seen; [done|].
  cbn [length seq omap list_omap samples_from].
  rewrite lookup_app_r, Nat.sub_diag by lia. simpl.
  rewrite take_app_length.
  specialize (IH (seen ++ [e])).
  rewrite <- app_assoc, length_app in IH. simpl in IH.
  replace (length seen + 1)%nat with (S (length seen)) in IH by lia.
  rewrite IH. by destruct (turn_sample seen e).
Qed.

Lemma agent_turn_times_of_spec events :
  Forall (fun e => is_event e = true) events ->
  agent_turn_times_of events = Ok (turn_samples events).
Proof.
  intros Hwf. unfold agent_turn_times_of.
  change ([], JNull) with (@nil spec_float, trigger []).
  rewrite turn_time_loop by done. simpl.
  unfold turn_samples. by rewrite <- (turn_samples_from [] events).
Qed.

Lemma average_turn_time_mean samples :
  average_turn_time samples = Ok (average_turn_time_spec samples).
Proof.
  destruct samples as [|x rest]; [done|].
  unfold average_turn_time, average_turn_time_spec, mean, py_div_len.
  replace (length (x :: rest) =? 0)%nat with false by done.
  unfold py_sum. by destruct sum_compensated.
Qed.

Lemma for_each_app {A S} (l1 l2 : list A) (body : S -> A -> result S) s :
  for_each (l1 ++ l2) body s = s' ← for_each l1 body s; for_each l2 body s'.
Proof.
  revert s. induction l1 as [|x l1 IH]; intros s; simpl; [done|].
  destruct (body s x); simpl; [apply IH|done].
Qed.

End MetricsProperties.

Section MetricsClaims.
Context {rt : Runtime}.

Lemma turn_time_step_skip st e :
  lacks_timestamp e = true -> turn_time_step st e = Ok st.
Proof.
  intros H. destruct e as [| | | |?|f]; try done.
  destruct st as [acc last]. unfold turn_time_step. simpl in *.
  destruct (assoc "timestamp" f) as [[]|]; simpl; try done.
  by rewrite H.
Qed.

Lemma agent_turn_times_skip before e after :
  lacks_timestamp e = true ->
  agent_turn_times_of (before ++ e :: after) = agent_turn_times_of (before ++ after).
Proof.
  intros H. unfold agent_turn_times_of. rewrite !for_each_app.
  destruct (for_each before turn_time_step ([], JNull)) as [st|]; [|done].
  cbn [mbind result_bind for_each]. by rewrite (turn_time_step_skip _ _ H).
Qed.

Lemma agent_turn_times_snoc before a p c :
  Forall (fun e => is_event e = true) before -> is_event a = true ->
  from_agent a = true -> timestamp_of a = Some c ->
  last_seen_timestamp before = Some p ->
  agent_turn_times_of (before ++ [a])
  = Ok (turn_samples before ++ option_list (positive_duration p c)).
Proof.
  intros Hb Ha Hag Hc Hp. unfold agent_turn_times_of. rewrite for_each_app.
  change ([], JNull) with (@nil spec_float, trigger []).
  rewrite turn_time_loop by done. cbn [mbind result_bind for_each app].
  rewrite turn_time_step_spec by done. cbn [mbind result_bind fst].
  unfold turn_samples. rewrite <- (turn_samples_from [] before).
  unfold turn_sample. rewrite Hag, Hc, Hp. done.
Qed.

(** Claim C10. In the turn-time walk an event whose timestamp is missing
    or empty leaves the loop variables as they are: it records no
    sample, whatever its source, and the trigger timestamp stays the one
    of the last event that carried a timestamp. Hence the walk over a
    list does not change when such an event is taken out of it, and an
    agent event that follows one is measured from the last timestamp
    seen before it. *)
Theorem event_without_timestamp_is_skipped :
  (forall st e, lacks_timestamp e = true -> turn_time_step st e = Ok st)
  /\ (forall before e after,
        lacks_timestamp e = true ->
        agent_turn_times_of (before ++ e :: after)
        = agent_turn_times_of (before ++ after))
  /\ (forall before e a p c,
        Forall (fun x => is_event x = true) before -> is_event a = true ->
        lacks_timestamp e = true ->
        from_agent a = true -> timestamp_of a = Some c ->
        last_seen_timestamp before = Some p ->
        agent_turn_times_of (before ++ [e; a])
        = Ok (turn_samples before ++ option_list (positive_duration p c))).
Proof.
  split; [exact turn_time_step_skip|].
  split; [exact agent_turn_times_skip|].
  intros before e a p c Hb Ha He Hag Hc Hp.
  rewrite (agent_turn_times_skip before e [a] He).
  by apply agent_turn_times_snoc.
Qed.

Lemma total_time_short events :
  (length events < 2)%nat -> compute_total_conversation_time events = Ok (PyInt 0).
Proof.
  intros H. unfold compute_total_conversation_time.
  by replace (length events <? 2)%nat with true by (symmetry; by apply Nat.ltb_lt).
Qed.

Lemma total_time_users t0 t1 t2 :
  compute_total_conversation_time
    [event_at "user" t0; event_at "user" t1; event_at "user" t2]
  = Ok (PyInt 0).
Proof. reflexivity. Qed.

Lemma positive_duration_of p c dp dc us :
  parse_timestamp p = Some dp -> parse_timestamp c = Some dc ->
  datetime_sub dc dp = Ok us -> float_gt0 (total_seconds us) = true ->
  positive_duration p c = Some (total_seconds us).
Proof.
  intros Hp Hc Hs Hpos. unfold positive_duration, duration.
  rewrite Hp, Hc, Hs. simpl. by rewrite Hpos.
Qed.

Lemma timestamp_of_event_at src t :
  t <> EmptyString -> timestamp_of (event_at src t) = Some t.
Proof.
  intros H. unfold timestamp_of. simpl.
  by destruct (String.eqb_spec t EmptyString).
Qed.

Lemma total_time_agent_user t0 t5 d0 d5 :
  t0 <> EmptyString -> t5 <> EmptyString ->
  parse_timestamp t0 = Some d0 -> parse_timestamp t5 = Some d5 ->
  datetime_sub d5 d0 = Ok 5000000 ->
  compute_total_conversation_time [event_at "agent" t0; event_at "user" t5]
  = Ok (PyFloat (float_of_Z 5)).
Proof.
  intros H0 H5 P0 P5 Hs.
  rewrite compute_total_conversation_time_spec by (by repeat constructor).
  unfold total_conversation_time_spec, counted_intervals. simpl.
  unfold interval. simpl.
  rewrite !timestamp_of_event_at by done. simpl.
  by rewrite (positive_duration_of _ _ _ _ _ P0 P5 Hs).
Qed.

(** Claim C1. On every list of events, sorted or not,
    [compute_total_conversation_time] returns the sum, taken in the
    order of the list and rounded to one decimal, of the durations of
    the adjacent pairs whose first event is not from the user, whose
    timestamps are both present and parsed, and whose duration is
    positive; the other pairs add nothing. A list of fewer than two
    events gives the integer 0, so do three user events, and an agent
    event followed five seconds later by a user event gives 5.0. *)
Theorem total_conversation_time_is_sum_of_counted_intervals :
  (forall events,
      Forall (fun e => is_event e = true) events ->
      compute_total_conversation_time events
      = Ok (total_conversation_time_spec events))
  /\ (forall events,
        (length events < 2)%nat ->
        compute_total_conversation_time events = Ok (PyInt 0))
  /\ (forall t0 t1 t2,
        compute_total_conversation_time
          [event_at "user" t0; event_at "user" t1; event_at "user" t2]
        = Ok (PyInt 0))
  /\ (forall t0 t5 d0 d5,
        t0 <> EmptyString -> t5 <> EmptyString ->
        parse_timestamp t0 = Some d0 -> parse_timestamp t5 = Some d5 ->
        datetime_sub d5 d0 = Ok 5000000 ->
        compute_total_conversation_time [event_at "agent" t0; event_at "user" t5]
        = Ok (PyFloat (float_of_Z 5))).
Proof.
  split; [exact compute_total_conversation_time_spec|].
  split; [exact total_time_short|].
  split; [exact total_time_users|exact total_time_agent_user].
Qed.

Lemma turn_times_user_agent_agent t0 t4 t10 d0 d4 d10 :
  t0 <> EmptyString -> t4 <> EmptyString -> t10 <> EmptyString ->
  parse_timestamp t0 = Some d0 -> parse_timestamp t4 = Some d4 ->
  parse_timestamp t10 = Some d10 ->
  datetime_sub d4 d0 = Ok 4000000 -> datetime_sub d10 d4 = Ok 6000000 ->
  agent_turn_times_of [event_at "user" t0; event_at "agent" t4; event_at "agent" t10]
  = Ok [float_of_Z 4; float_of_Z 6].
Proof.
  intros H0 H4 H10 P0 P4 P10 S4 S10.
  rewrite agent_turn_times_of_spec by (by repeat constructor).
  unfold turn_samples. cbn [length seq omap list_omap lookup list_lookup take mbind option_bind].
  unfold turn_sample, last_seen_timestamp. cbn [omap list_omap from_agent field event_at assoc].
  simpl.
  rewrite !timestamp_of_event_at by done. simpl.
  rewrite (positive_duration_of _ _ _ _ _ P0 P4 S4) by done.
  by rewrite (positive_duration_of _ _ _ _ _ P4 P10 S10) by done.
Qed.

Lemma average_of_4_and_6 :
  average_turn_time [float_of_Z 4; float_of_Z 6] = Ok (PyFloat (float_of_Z 5)).
Proof.
  unfold average_turn_time, py_div_len, py_sum. simpl.
  by destruct sum_compensated; vm_compute.
Qed.

(** Claim C2. The turn-time walk records, for every agent event that
    carries a timestamp, the positive duration since the last timestamp
    seen before it, when there is one and both parse; the average is the
    mean of the recorded samples rounded to one decimal, and the integer
    0 without samples. A user event followed by agent events four and
    ten seconds later gives the samples 4 and 6 and the average 5.0. *)
Theorem average_agent_turn_time_is_mean_of_samples :
  (forall events,
      Forall (fun e => is_event e = true) events ->
      agent_turn_times_of events = Ok (turn_samples events))
  /\ (forall samples,
        average_turn_time samples = Ok (average_turn_time_spec samples))
  /\ (forall t0 t4 t10 d0 d4 d10,
        t0 <> EmptyString -> t4 <> EmptyString -> t10 <> EmptyString ->
        parse_timestamp t0 = Some d0 -> parse_timestamp t4 = Some d4 ->
        parse_timestamp t10 = Some d10 ->
        datetime_sub d4 d0 = Ok 4000000 -> datetime_sub d10 d4 = Ok 6000000 ->
        agent_turn_times_of
          [event_at "user" t0; event_at "agent" t4; event_at "agent" t10]
        = Ok [float_of_Z 4; float_of_Z 6]
        /\ average_turn_time [float_of_Z 4; float_of_Z 6]
           = Ok (PyFloat (float_of_Z 5))).
Proof.
  split; [exact agent_turn_times_of_spec|].
  split; [exact average_turn_time_mean|].
  intros. split; [by eapply turn_times_user_agent_agent|exact average_of_4_and_6].
Qed.

End MetricsClaims.

(** ** Sorting is stable insertion *)

Section SortProperties.
Context {A : Type}.

Lemma insert_by_perm (before : A -> A -> bool) x l :
  insert_by before x l ≡ₚ x :: l.
Proof.
  induction l as [|y l IH]; simpl; [done|].
  destruct (before y x); [|done].
  rewrite IH. apply Permutation_swap.
Qed.

Lemma sort_by_perm (before : A -> A -> bool) l : sort_by before l ≡ₚ l.
Proof.
  induction l as [|x l IH]; simpl; [done|].
  unfold sort_by in *. simpl. by rewrite insert_by_perm, IH.
Qed.

Lemma sort_by_length (before : A -> A -> bool) l :
  length (sort_by before l) = length l.
Proof. apply Permutation_length, sort_by_perm. Qed.

(** [insert_by] keeps a list sorted for the order [le], when an item
    that does not have to come before another may come after it. *)
Lemma insert_by_sorted (before : A -> A -> bool) (le : A -> A -> Prop) x l :
  (forall a b, before a b = true -> le a b) ->
  (forall a b, before a b = false -> le b a) ->
  Sorted le l -> Sorted le (insert_by before x l).
Proof.
  intros Hlt Hge. induction 1 as [|y l Hs IH Hhd]; simpl.
  - by repeat constructor.
  - destruct (before y x) eqn:E.
    + constructor; [done|].
      destruct l as [|z l]; simpl in *.
      * constructor. by apply Hlt.
      * destruct (before z x) eqn:E'.
        -- constructor. by inversion Hhd.
        -- constructor. by apply Hlt.
    + constructor; [by constructor|]. constructor. by apply Hge.
Qed.

Lemma sort_by_sorted (before : A -> A -> bool) (le : A -> A -> Prop) l :
  (forall a b, before a b = true -> le a b) ->
  (forall a b, before a b = false -> le b a) ->
  Sorted le (sort_by before l).
Proof.
  intros Hlt Hge. induction l as [|x l IH]; simpl; [constructor|].
  by apply insert_by_sorted.
Qed.

End SortProperties.

Lemma string_ltb_leb a b : String.ltb a b = true -> String.leb a b = true.
Proof. unfold String.ltb, String.leb. by destruct (String.compare a b). Qed.

Lemma string_ltb_false_leb a b : String.ltb a b = false -> String.leb b a = true.
Proof.
  unfold String.ltb, String.leb. rewrite (String.compare_antisym a b).
  by destruct (String.compare b a).
Qed.

Lemma sorted_event_files_sorted listing :
  Sorted names_ordered (sorted_event_files listing).
Proof.
  apply sort_by_sorted; intros a b.
  - apply string_ltb_leb.
  - apply string_ltb_false_leb.
Qed.

Lemma sorted_event_files_perm listing :
  sorted_event_files listing ≡ₚ glob_events listing.
Proof. apply sort_by_perm. Qed.

(** ** Reading a trajectory *)

Section TrajectoryProperties.
Context {rt : Runtime}.

Lemma load_events_loop files : forall acc,
  all_load files ->
  for_each files
    (fun events event_file =>
       try_except (event ← contents (snd event_file); Ok (events ++ [event]))
         [JSONDecodeError; IOError] (Ok events)) acc
  = Ok (acc ++ omap parsed files).
Proof.
  induction files as [|f files IH]; intros acc Hall; simpl.
  - by rewrite app_nil_r.
  - inversion Hall as [|? ? Hf Hrest]; subst.
    unfold loads_or_unparsable, unparsable in Hf. unfold parsed at 1.
    destruct (contents (snd f)) as [event|e] eqn:E; simpl.
    + rewrite IH by done. by rewrite <- app_assoc.
    + destruct e; try done; simpl; by rewrite IH.
Qed.

Lemma load_events_loop_inv files : forall acc evs,
  for_each files
    (fun events event_file =>
       try_except (event ← contents (snd event_file); Ok (events ++ [event]))
         [JSONDecodeError; IOError] (Ok events)) acc
  = Ok evs -> all_load files.
Proof.
  induction files as [|f files IH]; intros acc evs H; simpl in H.
  - constructor.
  - destruct (contents (snd f)) as [event|e] eqn:E; simpl in H.
    + constructor; [|by eapply IH].
      unfold loads_or_unparsable. by rewrite E.
    + destruct e; try done; simpl in H;
        (constructor; [unfold loads_or_unparsable, unparsable; by rewrite E
                      |by eapply IH]).
Qed.

Lemma load_events_ok files :
  all_load files -> load_events files = Ok (omap parsed files).
Proof. intros H. unfold load_events. by rewrite load_events_loop. Qed.

Lemma load_events_inv files evs :
  load_events files = Ok evs -> all_load files /\ evs = omap parsed files.
Proof.
  intros H. assert (Hall : all_load files) by (by eapply load_events_loop_inv).
  split; [done|]. rewrite load_events_ok in H by done. by simplify_eq.
Qed.

Lemma build_events_loop files : forall events warnings,
  all_load files ->
  for_each files
    (fun (st : list json * list string) event_file =>
       let '(events, warnings) := st in
       try_except
         (event ← contents (snd event_file); Ok (events ++ [event], warnings))
         [JSONDecodeError; IOError]
         (Ok (events, warnings ++ [fst event_file])))
    (events, warnings)
  = Ok (events ++ omap parsed files,
        warnings ++ map fst (filter (fun f => unparsable f = true) files)).
Proof.
  induction files as [|f files IH]; intros events warnings Hall; simpl.
  - by rewrite !app_nil_r.
  - inversion Hall as [|? ? Hf Hrest]; subst.
    unfold loads_or_unparsable in Hf. unfold parsed at 1.
    rewrite filter_cons.
    destruct (contents (snd f)) as [event|e] eqn:E; simpl.
    + rewrite IH by done. rewrite <- app_assoc.
      destruct (decide (unparsable f = true)) as [Hu|Hu]; [|done].
      unfold unparsable in Hu. by rewrite E in Hu.
    + rewrite decide_True by done.
      unfold unparsable in Hf. rewrite E in Hf.
      destruct e; try done; simpl; rewrite IH by done; by rewrite <- app_assoc.
Qed.

Lemma build_events_ok trajectory_path listing :
  events_dir trajectory_path = Some listing ->
  all_load (glob_events listing) ->
  build_events trajectory_path
  = Ok (omap parsed (sorted_event_files listing),
        map fst (filter (fun f => unparsable f = true) (sorted_event_files listing))).
Proof.
  intros Hdir Hall. unfold build_events. rewrite Hdir.
  rewrite build_events_loop; [done|].
  unfold all_load. by rewrite sorted_event_files_perm.
Qed.

Lemma length_omap_parsed files :
  all_load files ->
  (length (omap parsed files)
   + length (filter (fun f => unparsable f = true) files) = length files)%nat.
Proof.
  induction 1 as [|f files Hf _ IH]; [done|].
  rewrite filter_cons. unfold loads_or_unparsable in Hf.
  cbn [omap list_omap]. unfold parsed at 1.
  destruct (contents (snd f)) as [event|e] eqn:E.
  - destruct (decide (unparsable f = true)) as [Hu|Hu]; simpl; [|lia].
    unfold unparsable in Hu. by rewrite E in Hu.
  - rewrite decide_True by done. simpl. lia.
Qed.

(** The events block, when it succeeds, is the composition of its steps. *)
Lemma events_block_inv trajectory_path listing ev :
  events_dir trajectory_path = Some listing ->
  events_block trajectory_path = Ok ev ->
  all_load (glob_events listing)
  /\ exists sorted samples,
      sort_by_timestamp (omap parsed (sorted_event_files listing)) = Ok sorted
      /\ compute_total_conversation_time sorted = Ok (snd ev)
      /\ agent_turn_times_of sorted = Ok samples
      /\ average_turn_time samples = Ok (snd (fst ev))
      /\ fst (fst ev) = length (glob_events listing).
Proof.
  intros Hdir H. unfold events_block in H. rewrite Hdir in H.
  destruct (load_events (sorted_event_files listing)) as [evs|] eqn:Hl; [|done].
  apply load_events_inv in Hl as [Hall ->]. simpl in H.
  destruct (sort_by_timestamp _) as [sorted|] eqn:Hs; [|done]. simpl in H.
  destruct (compute_total_conversation_time sorted) as [tot|] eqn:Ht; [|done].
  simpl in H.
  destruct (agent_turn_times_of sorted) as [samples|] eqn:Ha; [|done]. simpl in H.
  destruct (average_turn_time samples) as [avg|] eqn:Hv; [|done]. simpl in H.
  simplify_eq. simpl. split.
  - unfold all_load. by rewrite <- sorted_event_files_perm.
  - exists sorted, samples. repeat split; try done.
    apply sort_by_length.
Qed.

Lemma compute_trajectory_metadata_inv trajectory_path m :
  compute_trajectory_metadata trajectory_path = Ok m ->
  exists fields ev,
    base_state_block trajectory_path = Ok fields
    /\ events_block trajectory_path = Ok ev
    /\ eventCount m = fst (fst ev)
    /\ avgAgentTurnTime m = snd (fst ev)
    /\ totalConversationTime m = snd ev
    /\ title m = bs_title fields /\ model m = bs_model fields.
Proof.
  intros H. unfold compute_trajectory_metadata in H.
  destruct (base_state_block trajectory_path) as [fields|]; [|done]. simpl in H.
  destruct (events_block trajectory_path) as [[[c avg] tot]|]; [|done]. simpl in H.
  destruct (py_add _ _); [|done]. simpl in H.
  destruct (py_gt0 _) as [b|]; [|done]. simpl in H.
  destruct (if b then _ else _); [|done]. simpl in H. simplify_eq.
  by exists fields, (c, avg, tot).
Qed.

Lemma events_block_count trajectory_path ev :
  events_block trajectory_path = Ok ev ->
  fst (fst ev) = listed_event_files trajectory_path.
Proof.
  intros H. unfold listed_event_files.
  destruct (events_dir trajectory_path) as [listing|] eqn:Hdir.
  - destruct (events_block_inv _ _ _ Hdir H) as (_ & sorted & samples & Hrest).
    by destruct Hrest as (_ & _ & _ & _ & ->).
  - unfold events_block in H. rewrite Hdir in H. by simplify_eq.
Qed.

Lemma read_base_state_not_dict trajectory_id base_state :
  is_dict base_state = false ->
  read_base_state trajectory_id base_state = Raise AttributeError
  \/ read_base_state trajectory_id base_state = Raise TypeError.
Proof.
  destruct base_state; try done; intros _; unfold read_base_state; simpl; auto.
  - destruct (bool_decide _); simpl; auto.
  - destruct (existsb _ _); simpl; auto.
Qed.

Lemma build_trajectory_detail_ok trajectory_path fields :
  base_state_block trajectory_path = Ok fields ->
  exists d, build_trajectory_detail trajectory_path = Ok d
            /\ detail_eventCount d = listed_event_files trajectory_path.
Proof.
  intros H. unfold base_state_block in H. unfold build_trajectory_detail.
  destruct (base_state_path trajectory_path) as [f|];
    [|eexists; split; reflexivity].
  destruct (contents f) as [base_state|e]; simpl in *.
  - destruct (is_dict base_state) eqn:Hd.
    + destruct base_state as [| | | | |bf]; try done. simpl.
      destruct (default (JObj []) (assoc "agent" bf)) as [| | | | |af]; simpl;
        try (eexists; split; reflexivity).
      destruct (default (JObj []) (assoc "llm" af)) as [| | | | |lf]; simpl;
        eexists; split; reflexivity.
    + destruct (read_base_state_not_dict (name trajectory_path) _ Hd) as [E|E];
        by rewrite E in H.
  - destruct e; simpl in *; try done; eexists; split; reflexivity.
Qed.

Lemma build_events_of_metadata trajectory_path ev :
  events_block trajectory_path = Ok ev ->
  exists events warnings, build_events trajectory_path = Ok (events, warnings).
Proof.
  intros H. destruct (events_dir trajectory_path) as [listing|] eqn:Hdir.
  - destruct (events_block_inv _ _ _ Hdir H) as [Hall _].
    rewrite (build_events_ok _ _ Hdir Hall). by eexists _, _.
  - unfold build_events. rewrite Hdir. by eexists _, _.
Qed.

End TrajectoryProperties.

(** ** One trajectory of the main loop *)

Section EntryProperties.
Context {rt : Runtime}.
Variable clock : list string -> Z.

Lemma fold_max_le (l : list (string * src_file)) : forall init x,
  fold_left (fun mtime f => Z.max mtime (file_mtime (snd f))) l init <= x
  <-> init <= x /\ Forall (fun f => file_mtime (snd f) <= x) l.
Proof.
  induction l as [|f l IH]; intros init x; simpl.
  - split; [by auto|by intros []].
  - rewrite IH, Forall_cons, Z.max_lub_iff. tauto.
Qed.

Lemma get_source_mtime_le entry x :
  get_source_mtime entry <= x
  <-> st_mtime entry <= x
      /\ (forall f, base_state_path entry = Some f -> file_mtime f <= x)
      /\ (forall listing f, events_dir entry = Some listing ->
                            f ∈ glob_events listing -> file_mtime (snd f) <= x).
Proof.
  unfold get_source_mtime.
  destruct (base_state_path entry) as [b|], (events_dir entry) as [listing|];
    rewrite ?fold_max_le, ?Forall_forall; split.
  - intros [H1 H2]. split; [lia|]. split; [intros ? [= <-]; lia|].
    intros ? f [= <-]. apply H2.
  - intros (H1 & H2 & H3). specialize (H2 _ eq_refl). split; [lia|].
    intros f. by apply H3.
  - intros H. split; [lia|]. split; [intros ? [= <-]; lia|done].
  - intros (H1 & H2 & H3). specialize (H2 _ eq_refl). lia.
  - intros [H1 H2]. split; [lia|]. split; [done|].
    intros ? f [= <-]. apply H2.
  - intros (H1 & H2 & H3). split; [lia|]. intros f. by apply H3.
  - intros H. by repeat split.
  - by intros (H1 & _).
Qed.

Lemma up_to_date_fresh entry w :
  exists b, up_to_date entry w = (Ok b, w) /\ (b = true <-> fresh w entry).
Proof.
  unfold up_to_date, fresh.
  destruct (events_output w (name entry)) as [events_json|].
  - eexists. split; [done|]. rewrite Z.leb_le, get_source_mtime_le. split.
    + intros H. by exists events_json.
    + by intros (? & [= <-] & H).
  - exists false. split; [done|]. split; [done|]. by intros (? & ? & _).
Qed.

Lemma process_entry_ignored st entry w :
  conforming entry = false -> process_entry clock st entry w = (Ok st, w).
Proof. unfold conforming, process_entry. by intros ->. Qed.

Lemma process_entry_raise st entry w e :
  conforming entry = true -> compute_trajectory_metadata entry = Raise e ->
  process_entry clock st entry w = (Raise e, w).
Proof.
  unfold conforming, process_entry. intros -> H.
  unfold mbind, M_bind, lift. by rewrite H.
Qed.

Lemma process_entry_fresh st entry w m :
  conforming entry = true -> compute_trajectory_metadata entry = Ok m ->
  fresh w entry ->
  process_entry clock st entry w = (Ok (skipped_state st entry m), w).
Proof.
  unfold conforming, process_entry. intros -> Hm Hf.
  destruct (up_to_date_fresh entry w) as (b & Hb & Hiff).
  apply Hiff in Hf as ->.
  unfold mbind, M_bind, lift. by rewrite Hm, Hb.
Qed.

Lemma process_entry_stale st entry w m d events warnings :
  conforming entry = true -> compute_trajectory_metadata entry = Ok m ->
  ~ fresh w entry ->
  (forall f, data_dir w !! name entry <> Some (OutFile f)) ->
  build_trajectory_detail entry = Ok d ->
  build_events entry = Ok (events, warnings) ->
  process_entry clock st entry w
  = (Ok (rebuilt_state st entry m), rebuilt_world clock w entry d events warnings).
Proof.
  unfold conforming, process_entry. intros -> Hm Hf Hnf Hd He.
  destruct (up_to_date_fresh entry w) as (b & Hb & Hiff).
  destruct b; [by destruct Hf; apply Hiff|].
  unfold mbind, M_bind, lift. rewrite Hm, Hb, Hd, He.
  unfold rebuilt_world, rebuilt_state, output_files, mkdir, write_output, warn.
  destruct (data_dir w !! name entry) as [[f|files]|] eqn:Hl; simpl.
  - by destruct (Hnf f).
  - rewrite Hl. simpl. rewrite lookup_insert_eq. simpl.
    rewrite insert_insert_eq. by rewrite <- !app_assoc.
  - rewrite lookup_insert_eq. simpl. rewrite lookup_insert_eq. simpl.
    rewrite !insert_insert_eq. by rewrite <- !app_assoc.
Qed.

End EntryProperties.

(** ** The main loop *)

Section LoopProperties.
Context {rt : Runtime}.
Variable clock : list string -> Z.

Lemma fresh_dec w entry : fresh w entry \/ ~ fresh w entry.
Proof.
  destruct (up_to_date_fresh entry w) as ([] & _ & Hiff).
  - left. by apply Hiff.
  - right. intros H. by apply Hiff in H.
Qed.

Lemma process_entry_blocked st entry w m f :
  conforming entry = true -> compute_trajectory_metadata entry = Ok m ->
  ~ fresh w entry -> data_dir w !! name entry = Some (OutFile f) ->
  process_entry clock st entry w = (Raise FileExistsError, w).
Proof.
  unfold conforming, process_entry. intros -> Hm Hf Hl.
  destruct (up_to_date_fresh entry w) as (b & Hb & Hiff).
  destruct b; [by destruct Hf; apply Hiff|].
  unfold mbind, M_bind, lift. rewrite Hm, Hb. unfold mkdir. by rewrite Hl.
Qed.

Lemma process_entry_inv st entry w st' w' :
  process_entry clock st entry w = (Ok st', w') ->
  (conforming entry = false /\ st' = st /\ w' = w)
  \/ (conforming entry = true
      /\ exists m, compute_trajectory_metadata entry = Ok m
         /\ ((fresh w entry /\ st' = skipped_state st entry m /\ w' = w)
             \/ (~ fresh w entry
                 /\ exists d events warnings,
                     build_trajectory_detail entry = Ok d
                     /\ build_events entry = Ok (events, warnings)
                     /\ st' = rebuilt_state st entry m
                     /\ w' = rebuilt_world clock w entry d events warnings))).
Proof.
  intros H. destruct (conforming entry) eqn:Hc.
  - right. split; [done|].
    destruct (compute_trajectory_metadata entry) as [m|e] eqn:Hm.
    2: { by rewrite (process_entry_raise clock st entry w e Hc Hm) in H. }
    exists m. split; [done|].
    destruct (fresh_dec w entry) as [Hf|Hf].
    + left. rewrite (process_entry_fresh clock st entry w m Hc Hm Hf) in H.
      by simplify_eq.
    + right. split; [done|].
      destruct (compute_trajectory_metadata_inv _ _ Hm) as (fields & ev & Hb & He & _).
      destruct (build_trajectory_detail_ok _ _ Hb) as (d & Hd & _).
      destruct (build_events_of_metadata _ _ He) as (events & warnings & Hev).
      exists d, events, warnings.
      destruct (data_dir w !! name entry) as [[f|files]|] eqn:Hl.
      * by rewrite (process_entry_blocked st entry w m f Hc Hm Hf Hl) in H.
      * rewrite (process_entry_stale clock st entry w m d events warnings) in H;
          try done; [by simplify_eq|]. intros f. by rewrite Hl.
      * rewrite (process_entry_stale clock st entry w m d events warnings) in H;
          try done; [by simplify_eq|]. intros f. by rewrite Hl.
  - left. rewrite (process_entry_ignored clock st entry w Hc) in H. by simplify_eq.
Qed.

(** A step changes the output at the name of its entry only. *)
Lemma process_entry_other st entry w st' w' n :
  process_entry clock st entry w = (Ok st', w') ->
  n <> name entry -> data_dir w' !! n = data_dir w !! n.
Proof.
  intros H Hn.
  destruct (process_entry_inv _ _ _ _ _ H)
    as [(_ & _ & ->)|(_ & m & _ & [(_ & _ & ->)|(_ & d & evs & ws & _ & _ & _ & ->)])];
    try done.
  unfold rebuilt_world. simpl. by rewrite lookup_insert_ne.
Qed.

Lemma process_entry_ignores st entry w st' w' :
  process_entry clock st entry w = (Ok st', w') ->
  conforming entry = false -> w' = w.
Proof.
  intros H Hc. rewrite (process_entry_ignored clock st entry w Hc) in H.
  by simplify_eq.
Qed.

Lemma fresh_ext w w' entry :
  data_dir w' !! name entry = data_dir w !! name entry ->
  fresh w entry -> fresh w' entry.
Proof.
  intros Heq (f & Hf & H). exists f. split; [|done].
  unfold events_output in *. by rewrite Heq.
Qed.

Lemma fresh_rebuilt_world w entry d events warnings :
  get_source_mtime entry <= clock [name entry; "events.json"] ->
  fresh (rebuilt_world clock w entry d events warnings) entry.
Proof.
  intros H. unfold fresh, events_output, rebuilt_world. simpl.
  rewrite lookup_insert_eq. eexists. rewrite lookup_insert_eq. split; [done|].
  simpl. by apply get_source_mtime_le.
Qed.

Lemma process_entry_makes_fresh st entry w st' w' :
  process_entry clock st entry w = (Ok st', w') ->
  conforming entry = true ->
  get_source_mtime entry <= clock [name entry; "events.json"] ->
  fresh w' entry.
Proof.
  intros H Hc Hclock.
  destruct (process_entry_inv _ _ _ _ _ H)
    as [(Hc' & _)|(_ & m & _ & [(Hf & _ & ->)|(_ & d & evs & ws & _ & _ & _ & ->)])].
  - by rewrite Hc in Hc'.
  - done.
  - by apply fresh_rebuilt_world.
Qed.

Lemma process_entry_state st entry w st' w' :
  process_entry clock st entry w = (Ok st', w') ->
  (conforming entry = false /\ st' = st)
  \/ (conforming entry = true
      /\ exists m, compute_trajectory_metadata entry = Ok m
                   /\ trajectories st' = trajectories st ++ [m]
                   /\ source_ids st' = {[name entry]} ∪ source_ids st).
Proof.
  intros H.
  destruct (process_entry_inv _ _ _ _ _ H)
    as [(Hc & -> & _)|(Hc & m & Hm & [(_ & -> & _)|(_ & d & evs & ws & _ & _ & -> & _)])];
    [by left|right..]; (split; [done|]); by exists m.
Qed.

(** The main loop, when it ends without exception. *)
Lemma main_loop_state entries : forall st w st' w',
  for_each_M entries (process_entry clock) st w = (Ok st', w') ->
  exists ms,
    Forall2 (fun e m => compute_trajectory_metadata e = Ok m)
            (filter (fun e => conforming e = true) entries) ms
    /\ trajectories st' = trajectories st ++ ms
    /\ source_ids st' = source_ids st ∪ names_of (filter (fun e => conforming e = true) entries).
Proof.
  induction entries as [|e entries IH]; intros st w st' w' H; simpl in H.
  - unfold mret, M_ret in H. simplify_eq. exists []. split; [constructor|].
    split; [by rewrite app_nil_r|]. unfold names_of. simpl. set_solver.
  - unfold mbind, M_bind in H.
    destruct (process_entry clock st e w) as [[st1|x] w1] eqn:Hstep; [|done].
    destruct (IH _ _ _ _ H) as (ms & Hms & Ht & Hi).
    rewrite filter_cons.
    destruct (process_entry_state _ _ _ _ _ Hstep)
      as [(Hc & ->)|(Hc & m & Hm & Ht1 & Hi1)].
    + rewrite decide_False by (by rewrite Hc). by exists ms.
    + rewrite decide_True by done. exists (m :: ms).
      split; [by constructor|]. split.
      * by rewrite Ht, Ht1, <- app_assoc.
      * rewrite Hi, Hi1. unfold names_of. simpl. set_solver.
Qed.

Lemma main_loop_other entries : forall st w st' w' n,
  for_each_M entries (process_entry clock) st w = (Ok st', w') ->
  n ∉ names_of (filter (fun e => conforming e = true) entries) ->
  data_dir w' !! n = data_dir w !! n.
Proof.
  induction entries as [|e entries IH]; intros st w st' w' n H Hn; simpl in H.
  - unfold mret, M_ret in H. by simplify_eq.
  - unfold mbind, M_bind in H.
    destruct (process_entry clock st e w) as [[st1|x] w1] eqn:Hstep; [|done].
    rewrite filter_cons in Hn.
    destruct (decide (conforming e = true)) as [Hc|Hc].
    + unfold names_of in Hn. simpl in Hn.
      rewrite (IH _ _ _ _ n H) by (unfold names_of; set_solver).
      eapply process_entry_other; [done|set_solver].
    + apply not_true_is_false in Hc.
      rewrite (IH _ _ _ _ n H) by done.
      by rewrite (process_entry_ignores _ _ _ _ _ Hstep Hc).
Qed.

Lemma main_loop_makes_fresh entries : forall st w st' w',
  for_each_M entries (process_entry clock) st w = (Ok st', w') ->
  NoDup (map name entries) ->
  (forall e, e ∈ entries -> conforming e = true ->
             get_source_mtime e <= clock [name e; "events.json"]) ->
  forall e, e ∈ entries -> conforming e = true -> fresh w' e.
Proof.
  induction entries as [|e0 entries IH]; intros st w st' w' H Hnd Hclock e He Hc.
  - by apply elem_of_nil in He.
  - simpl in H. unfold mbind, M_bind in H.
    destruct (process_entry clock st e0 w) as [[st1|x] w1] eqn:Hstep; [|done].
    simpl in Hnd. apply NoDup_cons in Hnd as [Hnotin Hnd].
    apply elem_of_cons in He as [->|He].
    + apply (fresh_ext w1).
      * eapply main_loop_other; [done|].
        unfold names_of. rewrite elem_of_list_to_set, list_elem_of_fmap.
        intros (e' & Hname & He'). apply list_elem_of_filter in He' as [_ He'].
        apply Hnotin. rewrite Hname. apply list_elem_of_fmap. by exists e'.
      * eapply process_entry_makes_fresh; [done..|].
        apply Hclock; [set_solver|done].
    + eapply IH; try done. intros e' He' Hc'. apply Hclock; [set_solver|done].
Qed.

(** When every trajectory is fresh the main loop leaves the world as it
    is. *)
Lemma main_loop_all_fresh entries : forall st w ms,
  Forall2 (fun e m => compute_trajectory_metadata e = Ok m)
          (filter (fun e => conforming e = true) entries) ms ->
  (forall e, e ∈ entries -> conforming e = true -> fresh w e) ->
  for_each_M entries (process_entry clock) st w
  = (Ok {| trajectories := trajectories st ++ ms;
           source_ids := source_ids st
                         ∪ names_of (filter (fun e => conforming e = true) entries);
           rebuilt_count := rebuilt_count st;
           skipped_count := skipped_count st + length ms |}, w).
Proof.
  induction entries as [|e entries IH]; intros st w ms Hms Hfresh; simpl.
  - inversion Hms; subst. unfold mret, M_ret. destruct st as [t i r s]. simpl.
    do 2 f_equal. f_equal; [by rewrite app_nil_r| |lia].
    unfold names_of. simpl. set_solver.
  - rewrite filter_cons in Hms |- *. unfold mbind, M_bind.
    destruct (decide (conforming e = true)) as [Hc|Hc].
    + inversion Hms as [|? m ? ms' Hm Hms']; subst.
      rewrite (process_entry_fresh clock st e w m Hc Hm) by (apply Hfresh; set_solver).
      rewrite (IH _ _ ms') by (try done; intros; apply Hfresh; set_solver).
      do 2 f_equal. unfold skipped_state. simpl. f_equal.
      * by rewrite <- app_assoc.
      * unfold names_of. simpl. set_solver.
      * lia.
    + apply not_true_is_false in Hc.
      rewrite (process_entry_ignored clock st e w Hc).
      apply IH; [done|]. intros; apply Hfresh; set_solver.
Qed.

End LoopProperties.

(** ** The whole run *)

Section RunProperties.
Context {rt : Runtime}.

Lemma prune_loop ids listing : forall k w,
  for_each_M listing (remove_if_stale ids) k w
  = (Ok (k + length (stale_outputs ids listing))%nat,
     {| data_dir := fold_left (fun d x => delete (fst x) d)
                              (stale_outputs ids listing) (data_dir w);
        trace := trace w ++ map (fun x => Rmtree (fst x)) (stale_outputs ids listing) |}).
Proof.
  induction listing as [|x listing IH]; intros k w; simpl.
  - unfold mret, M_ret. destruct w. simpl. rewrite app_nil_r. do 2 f_equal. lia.
  - unfold stale_outputs. rewrite filter_cons. fold (stale_outputs ids listing).
    unfold mbind, M_bind, remove_if_stale.
    destruct (is_out_dir (snd x) && negb (bool_decide (fst x ∈ ids))) eqn:E.
    + rewrite decide_True by done. unfold rmtree at 1. simpl.
      unfold mret, M_ret. rewrite IH. simpl. rewrite <- app_assoc. simpl.
      do 2 f_equal. lia.
    + rewrite decide_False by done. unfold mret, M_ret. by rewrite IH.
Qed.

Lemma fold_delete_lookup (l : list (string * out_node)) : forall (d : gmap string out_node) n,
  fold_left (fun d x => delete (fst x) d) l d !! n
  = if bool_decide (n ∈ map fst l) then None else d !! n.
Proof.
  induction l as [|x l IH]; intros d n; simpl; [done|].
  rewrite IH. destruct (decide (n = fst x)) as [->|Hne].
  - rewrite lookup_delete_eq. rewrite (bool_decide_eq_true_2 (fst x ∈ fst x :: _))
      by set_solver. by destruct (bool_decide _).
  - rewrite lookup_delete_ne by done.
    destruct (bool_decide (n ∈ map fst l)) eqn:E.
    + apply bool_decide_eq_true in E. by rewrite bool_decide_eq_true_2 by set_solver.
    + apply bool_decide_eq_false in E.
      by rewrite bool_decide_eq_false_2 by set_solver.
Qed.

(** The entries of the pruned output directory. *)
Lemma pruned_lookup ids w n :
  data_dir (pruned ids w) !! n
  = match data_dir w !! n with
    | Some (OutDir files) => if bool_decide (n ∈ ids) then Some (OutDir files) else None
    | other => other
    end.
Proof.
  unfold pruned. simpl. rewrite fold_delete_lookup.
  destruct (bool_decide (n ∈ _)) eqn:E.
  - apply bool_decide_eq_true, list_elem_of_fmap in E as ([n' node] & -> & Hin).
    apply list_elem_of_filter in Hin as [Hst Hin]. simpl in *.
    apply elem_of_map_to_list in Hin. rewrite Hin.
    destruct node; [done|]. simpl in Hst.
    by destruct (bool_decide (n' ∈ ids)).
  - apply bool_decide_eq_false in E.
    destruct (data_dir w !! n) as [[f|files]|] eqn:Hl; try done.
    destruct (bool_decide (n ∈ ids)) eqn:Hi; [done|].
    destruct E. apply list_elem_of_fmap. exists (n, OutDir files). split; [done|].
    apply list_elem_of_filter. split.
    + simpl. by rewrite Hi.
    + by apply elem_of_map_to_list.
Qed.

(** What is removed: the directories of the output whose name is not a
    source id. *)
Lemma pruned_trace ids w n :
  Rmtree n ∈ map (fun x => Rmtree (fst x)) (stale_outputs ids (map_to_list (data_dir w)))
  <-> (exists files, data_dir w !! n = Some (OutDir files)) /\ n ∉ ids.
Proof.
  rewrite list_elem_of_fmap. split.
  - intros ([n' node] & [= ->] & Hin).
    apply list_elem_of_filter in Hin as [Hst Hin]. simpl in *.
    apply elem_of_map_to_list in Hin. destruct node; [done|]. simpl in Hst.
    split; [by eexists|]. by apply negb_true_iff, bool_decide_eq_false in Hst.
  - intros [[files Hl] Hn]. exists (n, OutDir files). split; [done|].
    apply list_elem_of_filter. split.
    + simpl. by rewrite bool_decide_eq_false_2.
    + by apply elem_of_map_to_list.
Qed.

Lemma stale_outputs_none ids (listing : list (string * out_node)) :
  (forall x, x ∈ listing -> is_out_dir (snd x) = true -> fst x ∈ ids) ->
  stale_outputs ids listing = [].
Proof.
  induction listing as [|x listing IH]; intros H; [done|].
  unfold stale_outputs. rewrite filter_cons. fold (stale_outputs ids listing).
  rewrite IH by (intros; apply H; set_solver).
  destruct (is_out_dir (snd x)) eqn:E; simpl.
  - rewrite bool_decide_eq_true_2 by (apply H; [set_solver|done]).
    by destruct (decide _).
  - done.
Qed.

Lemma pruned_nothing ids w :
  (forall n files, data_dir w !! n = Some (OutDir files) -> n ∈ ids) ->
  pruned ids w = w.
Proof.
  intros H. unfold pruned. rewrite stale_outputs_none.
  - destruct w. simpl. by rewrite app_nil_r.
  - intros [n node] Hin Hd. apply elem_of_map_to_list in Hin.
    destruct node; [done|]. by eapply H.
Qed.

Lemma looks_like_trajectory_id_length n :
  looks_like_trajectory_id n = true -> String.length n = 32%nat.
Proof.
  unfold looks_like_trajectory_id. intros H.
  apply andb_true_iff in H as [H _]. by apply Nat.eqb_eq in H.
Qed.

Lemma names_of_conforming (l : list source_path) n :
  n ∈ names_of (filter (fun e => conforming e = true) l) ->
  exists e, e ∈ l /\ name e = n /\ conforming e = true.
Proof.
  unfold names_of. rewrite elem_of_list_to_set, list_elem_of_fmap.
  intros (e & -> & He). apply list_elem_of_filter in He as [Hc He]. by exists e.
Qed.

Lemma names_of_not_index (l : list source_path) :
  "trajectories.json" ∉ names_of (filter (fun e => conforming e = true) l).
Proof.
  intros H. apply names_of_conforming in H as (e & _ & Hn & Hc).
  unfold conforming in Hc. apply andb_true_iff in Hc as [_ Hc].
  apply looks_like_trajectory_id_length in Hc. by rewrite Hn in Hc.
Qed.

Lemma main_loop_ids clock conversations_dir w st w' :
  main_loop clock conversations_dir w = (Ok st, w') ->
  exists ms,
    Forall2 (fun e m => compute_trajectory_metadata e = Ok m)
            (source_trajectories conversations_dir) ms
    /\ trajectories st = ms
    /\ source_ids st = names_of (source_trajectories conversations_dir).
Proof.
  unfold main_loop, source_trajectories. intros H.
  destruct conversations_dir as [entries|].
  - destruct (main_loop_state clock _ _ _ _ _ H) as (ms & Hms & Ht & Hi).
    exists ms. split; [done|]. split; [done|]. rewrite Hi. simpl. set_solver.
  - unfold mret, M_ret in H. simplify_eq. exists []. by repeat split.
Qed.

(** The run is its main loop, the pruning and the writing of the index. *)
Lemma build_static_site_run clock conversations_dir w st w1 :
  main_loop clock conversations_dir w = (Ok st, w1) ->
  build_static_site clock conversations_dir w
  = (Ok {| index := trajectories st;
           observed_ids := source_ids st;
           rebuilt := rebuilt_count st;
           skipped := skipped_count st;
           removed := length (stale_outputs (source_ids st)
                                            (map_to_list (data_dir w1))) |},
     index_written clock (trajectories st) (pruned (source_ids st) w1)).
Proof.
  intros H. unfold build_static_site.
  change (match conversations_dir with
          | Some entries => _
          | None => _
          end) with (main_loop clock conversations_dir).
  unfold mbind at 1, M_bind at 1. rewrite H.
  unfold mbind at 1, M_bind at 1, iterdir.
  unfold mbind at 1, M_bind at 1. rewrite prune_loop.
  fold (pruned (source_ids st) w1).
  unfold mbind, M_bind, write_index.
  destruct (main_loop_ids _ _ _ _ _ H) as (ms & _ & _ & Hi).
  rewrite pruned_lookup.
  destruct (data_dir w1 !! "trajectories.json") as [[f|files]|] eqn:Hl; try done.
  rewrite bool_decide_eq_false_2; [done|].
  rewrite Hi. unfold source_trajectories.
  destruct conversations_dir; [apply names_of_not_index|set_solver].
Qed.

Lemma build_static_site_inv clock conversations_dir w s w' :
  build_static_site clock conversations_dir w = (Ok s, w') ->
  exists st w1,
    main_loop clock conversations_dir w = (Ok st, w1)
    /\ s = {| index := trajectories st;
              observed_ids := source_ids st;
              rebuilt := rebuilt_count st;
              skipped := skipped_count st;
              removed := length (stale_outputs (source_ids st)
                                               (map_to_list (data_dir w1))) |}
    /\ w' = index_written clock (trajectories st) (pruned (source_ids st) w1).
Proof.
  intros H.
  destruct (main_loop clock conversations_dir w) as [[st|e] w1] eqn:Hloop.
  - rewrite (build_static_site_run _ _ _ _ _ Hloop) in H. simplify_eq.
    by exists st, w1.
  - unfold build_static_site in H.
    change (match conversations_dir with
            | Some entries => _
            | None => _
            end) with (main_loop clock conversations_dir) in H.
    unfold mbind at 1, M_bind at 1 in H. by rewrite Hloop in H.
Qed.

End RunProperties.

(** ** Freshness *)

Section TrajectoryClaims.
Context {rt : Runtime}.

Lemma rebuilt_world_changes clock w entry d events warnings :
  rebuilt_world clock w entry d events warnings <> w.
Proof.
  intros H. apply (f_equal (fun x => length (trace x))) in H.
  unfold rebuilt_world in H. simpl in H. rewrite !length_app in H. simpl in H. lia.
Qed.

(** Claim C3, as amended. For a trajectory of the source whose metrics
    were computed and whose output location is not a plain file: the
    iteration of the main loop leaves the output directory and the trace
    as they are (no write, [build_events] not run) exactly when the
    trajectory is fresh, that is when [events.json] exists and is at least
    as recent as the trajectory directory, the base-state file if present
    and every event file; otherwise it writes [trajectory.json] and
    [events.json] anew. The event files are read all the same, fresh or
    not: the metrics come before the test, so that an exception of theirs
    ends the iteration whatever the output holds, and the entry that a
    skipped trajectory adds to the index is computed from the contents of
    its event files. *)
Theorem outputs_skipped_iff_fresh clock st entry w :
  conforming entry = true ->
  (forall m,
      compute_trajectory_metadata entry = Ok m ->
      (forall f, data_dir w !! name entry <> Some (OutFile f)) ->
      (snd (process_entry clock st entry w) = w <-> fresh w entry)
      /\ (fresh w entry ->
          process_entry clock st entry w = (Ok (skipped_state st entry m), w))
      /\ (~ fresh w entry ->
          exists d events warnings,
            build_trajectory_detail entry = Ok d
            /\ build_events entry = Ok (events, warnings)
            /\ process_entry clock st entry w
               = (Ok (rebuilt_state st entry m),
                  rebuilt_world clock w entry d events warnings)))
  /\ (forall x,
        compute_trajectory_metadata entry = Raise x ->
        process_entry clock st entry w = (Raise x, w))
  /\ (forall m listing,
        compute_trajectory_metadata entry = Ok m ->
        fresh w entry ->
        events_dir entry = Some listing ->
        process_entry clock st entry w = (Ok (skipped_state st entry m), w)
        /\ exists sorted samples,
            load_events (sorted_event_files listing)
            = Ok (omap parsed (sorted_event_files listing))
            /\ sort_by_timestamp (omap parsed (sorted_event_files listing)) = Ok sorted
            /\ compute_total_conversation_time sorted = Ok (totalConversationTime m)
            /\ agent_turn_times_of sorted = Ok samples
            /\ average_turn_time samples = Ok (avgAgentTurnTime m)).
Proof.
  intros Hc. split; [|split].
  - intros m Hm Hnf.
    assert (Hstale : ~ fresh w entry ->
        exists d events warnings,
          build_trajectory_detail entry = Ok d
          /\ build_events entry = Ok (events, warnings)
          /\ process_entry clock st entry w
             = (Ok (rebuilt_state st entry m),
                rebuilt_world clock w entry d events warnings)).
    { intros Hf.
      destruct (compute_trajectory_metadata_inv _ _ Hm) as (fields & ev & Hb & He & _).
      destruct (build_trajectory_detail_ok _ _ Hb) as (d & Hd & _).
      destruct (build_events_of_metadata _ _ He) as (events & warnings & Hev).
      exists d, events, warnings. split; [done|]. split; [done|].
      by apply process_entry_stale. }
    split; [|split; [by apply process_entry_fresh|done]].
    split.
    + intros Hw. destruct (fresh_dec w entry) as [Hf|Hf]; [done|].
      destruct (Hstale Hf) as (d & events & warnings & _ & _ & Hp).
      rewrite Hp in Hw. simpl in Hw. by apply rebuilt_world_changes in Hw.
    + intros Hf. by rewrite (process_entry_fresh clock st entry w m Hc Hm Hf).
  - intros x Hx. by apply process_entry_raise.
  - intros m listing Hm Hf Hdir.
    split; [by apply process_entry_fresh|].
    destruct (compute_trajectory_metadata_inv _ _ Hm)
      as (fields & ev & _ & Hev & _ & Havg & Htot & _).
    destruct (events_block_inv _ _ _ Hdir Hev)
      as (Hall & sorted & samples & Hs & Ht & Ha & Hv & _).
    exists sorted, samples. rewrite Havg, Htot.
    split; [|done].
    apply load_events_ok. unfold all_load. by rewrite sorted_event_files_perm.
Qed.

End TrajectoryClaims.

(** ** The order of the events *)

Section EventOrder.
Context {rt : Runtime}.

Lemma insert_keyed_perm {A} (kx : json * A) sorted : forall sorted',
  insert_keyed kx sorted = Ok sorted' -> sorted' ≡ₚ kx :: sorted.
Proof.
  induction sorted as [|ky rest IH]; intros sorted' H; simpl in H.
  - by simplify_eq.
  - destruct (py_lt (fst ky) (fst kx)) as [[]|]; simpl in H; try done.
    + destruct (insert_keyed kx rest) as [rest'|]; [|done]. simpl in H.
      simplify_eq. rewrite (IH rest' eq_refl). apply Permutation_swap.
    + by simplify_eq.
Qed.

Lemma sort_keyed_perm {A} (l : list (json * A)) : forall sorted,
  sort_keyed l = Ok sorted -> sorted ≡ₚ l.
Proof.
  induction l as [|kx l IH]; intros sorted H; simpl in H.
  - by simplify_eq.
  - destruct (sort_keyed l) as [s|]; [|done]. simpl in H.
    apply insert_keyed_perm in H. by rewrite H, (IH s eq_refl).
Qed.

Lemma py_lt_asym a b : py_lt a b = Ok true -> py_lt b a = Ok false.
Proof.
  destruct a, b; simpl; try done; intros [= H]; f_equal.
  - destruct b, b0; done.
  - apply Z.ltb_lt in H. apply Z.ltb_ge. lia.
  - apply Z.ltb_lt in H. apply Z.ltb_ge. lia.
  - apply Z.ltb_lt in H. apply Z.ltb_ge. lia.
  - apply string_ltb_leb in H. unfold String.leb, String.ltb in *.
    rewrite (String.compare_antisym s s0) in H.
    by destruct (String.compare s0 s).
Qed.

Lemma insert_keyed_sorted {A} (kx : json * A) sorted : forall sorted',
  Sorted keys_ordered sorted ->
  insert_keyed kx sorted = Ok sorted' -> Sorted keys_ordered sorted'.
Proof.
  induction sorted as [|ky rest IH]; intros sorted' Hs H; simpl in H.
  - simplify_eq. by repeat constructor.
  - destruct (py_lt (fst ky) (fst kx)) as [[]|] eqn:E; simpl in H; try done.
    + destruct (insert_keyed kx rest) as [rest'|] eqn:Hi; [|done]. simpl in H.
      simplify_eq. inversion Hs as [|? ? Hrest Hhd]; subst.
      constructor; [by eapply IH|].
      destruct rest as [|kz rest]; simpl in Hi.
      * simplify_eq. constructor. by apply py_lt_asym.
      * destruct (py_lt (fst kz) (fst kx)) as [[]|]; simpl in Hi; try done.
        -- destruct (insert_keyed kx rest); [|done]. simpl in Hi. simplify_eq.
           constructor. by inversion Hhd.
        -- simplify_eq. constructor. by apply py_lt_asym.
    + simplify_eq. constructor; [done|]. by constructor.
Qed.

Lemma sort_keyed_sorted {A} (l : list (json * A)) : forall sorted,
  sort_keyed l = Ok sorted -> Sorted keys_ordered sorted.
Proof.
  induction l as [|kx l IH]; intros sorted H; simpl in H.
  - simplify_eq. constructor.
  - destruct (sort_keyed l) as [s|]; [|done]. simpl in H.
    eapply insert_keyed_sorted; [|done]. by apply IH.
Qed.

Lemma keyed_loop events : forall acc keyed,
  for_each events
    (fun acc e => k ← py_get e "timestamp" (JStr EmptyString); Ok (acc ++ [(k, e)]))
    acc = Ok keyed ->
  keyed = acc ++ map (fun e => (timestamp_key e, e)) events.
Proof.
  induction events as [|e events IH]; intros acc keyed H; simpl in H.
  - simplify_eq. by rewrite app_nil_r.
  - destruct e as [| | | | |f]; try done. simpl in H.
    rewrite (IH _ _ H), <- app_assoc. done.
Qed.

Lemma Sorted_map_snd (l : list (json * json)) :
  Forall (fun ke => fst ke = timestamp_key (snd ke)) l ->
  Sorted keys_ordered l ->
  Sorted timestamps_ordered (map snd l).
Proof.
  intros Hk Hs. induction Hs as [|ke l Hs IH Hhd]; simpl; [constructor|].
  inversion Hk as [|? ? Hke Hl]; subst.
  constructor; [by apply IH|].
  destruct Hhd as [|kb l' Hr]; simpl; constructor.
  inversion Hl; subst. unfold keys_ordered in Hr. congruence.
Qed.

(** A sort by timestamp that succeeds returns the events it was given,
    none of them before an event with a smaller key. *)
Lemma sort_by_timestamp_sorts events sorted :
  sort_by_timestamp events = Ok sorted ->
  sorted ≡ₚ events
  /\ Sorted timestamps_ordered sorted.
Proof.
  unfold sort_by_timestamp. intros H.
  destruct (for_each events _ []) as [keyed|] eqn:Hk; [|done]. simpl in H.
  apply keyed_loop in Hk. simpl in Hk. subst keyed.
  destruct (sort_keyed _) as [s|] eqn:Hs; [|done]. simpl in H. simplify_eq.
  pose proof (sort_keyed_perm _ _ Hs) as Hp. split.
  - rewrite Hp, map_map. simpl. by rewrite map_id.
  - apply Sorted_map_snd; [|by eapply sort_keyed_sorted].
    rewrite Hp. apply Forall_forall. intros ke Hin.
    apply list_elem_of_fmap in Hin as (e & -> & _). done.
Qed.

End EventOrder.

(** ** The events output *)

Section EventsClaims.
Context {rt : Runtime}.

Lemma rebuilt_world_events clock w entry d events warnings :
  let w' := rebuilt_world clock w entry d events warnings in
  events_output w' (name entry)
  = Some {| written := EventsJson events;
            out_mtime := clock [name entry; "events.json"] |}
  /\ (exists files, data_dir w' !! name entry = Some (OutDir files)
                    /\ files !! "trajectory.json"
                       = Some {| written := TrajectoryJson d;
                                 out_mtime := clock [name entry; "trajectory.json"] |})
  /\ Write [name entry; "events.json"] (EventsJson events) ∈ trace w'
  /\ Write [name entry; "trajectory.json"] (TrajectoryJson d) ∈ trace w'
  /\ Forall (fun file_name => Warning file_name ∈ trace w') warnings.
Proof.
  unfold rebuilt_world, events_output. simpl. rewrite lookup_insert_eq.
  split; [by rewrite lookup_insert_eq|].
  split. { eexists. split; [done|]. by rewrite lookup_insert_ne, lookup_insert_eq. }
  split; [set_solver|]. split; [set_solver|].
  apply Forall_forall. intros n Hn.
  apply elem_of_app. right. apply elem_of_cons. right.
  apply elem_of_app. left. apply list_elem_of_fmap. by exists n.
Qed.

Lemma process_entry_rebuilds clock st entry w m :
  conforming entry = true ->
  compute_trajectory_metadata entry = Ok m ->
  (forall f, data_dir w !! name entry <> Some (OutFile f)) ->
  ~ fresh w entry ->
  exists d events warnings,
    build_trajectory_detail entry = Ok d
    /\ build_events entry = Ok (events, warnings)
    /\ process_entry clock st entry w
       = (Ok (rebuilt_state st entry m),
          rebuilt_world clock w entry d events warnings).
Proof.
  intros Hc Hm Hnf Hf.
  destruct (compute_trajectory_metadata_inv _ _ Hm) as (fields & ev & Hb & He & _).
  destruct (build_trajectory_detail_ok _ _ Hb) as (d & Hd & _).
  destruct (build_events_of_metadata _ _ He) as (events & warnings & Hev).
  exists d, events, warnings. split; [done|]. split; [done|].
  by apply process_entry_stale.
Qed.

(** Claim C7. [build_events] returns the events of the files that load, in
    the order of their file names, with one warning for each file that
    cannot be opened or is not JSON, and goes on after such a file. That
    list is what a rebuild stores in [events.json], as it is. The
    metrics, for their part, are computed on the same events sorted by
    timestamp. *)
Theorem build_events_keeps_file_name_order :
  (forall trajectory_path listing,
      events_dir trajectory_path = Some listing ->
      all_load (glob_events listing) ->
      build_events trajectory_path
      = Ok (omap parsed (sorted_event_files listing),
            map fst (filter (fun f => unparsable f = true)
                            (sorted_event_files listing))))
  /\ (forall listing,
        Sorted names_ordered (sorted_event_files listing)
        /\ sorted_event_files listing ≡ₚ glob_events listing)
  /\ (forall clock st entry w m,
        conforming entry = true ->
        compute_trajectory_metadata entry = Ok m ->
        ~ fresh w entry ->
        (forall f, data_dir w !! name entry <> Some (OutFile f)) ->
        exists events warnings,
          build_events entry = Ok (events, warnings)
          /\ let w' := snd (process_entry clock st entry w) in
             events_output w' (name entry)
             = Some {| written := EventsJson events;
                       out_mtime := clock [name entry; "events.json"] |}
             /\ Forall (fun file_name => Warning file_name ∈ trace w') warnings)
  /\ (forall trajectory_path listing m,
        events_dir trajectory_path = Some listing ->
        compute_trajectory_metadata trajectory_path = Ok m ->
        exists sorted,
          sort_by_timestamp (omap parsed (sorted_event_files listing)) = Ok sorted
          /\ sorted ≡ₚ omap parsed (sorted_event_files listing)
          /\ Sorted timestamps_ordered sorted
          /\ compute_total_conversation_time sorted = Ok (totalConversationTime m)).
Proof.
  split; [exact build_events_ok|].
  split; [intros; split; [apply sorted_event_files_sorted|apply sorted_event_files_perm]|].
  split.
  - intros clock st entry w m Hc Hm Hf Hnf.
    destruct (process_entry_rebuilds clock st entry w m Hc Hm Hnf Hf)
      as (d & events & warnings & _ & Hev & Hp).
    exists events, warnings. split; [done|]. rewrite Hp. simpl.
    destruct (rebuilt_world_events clock w entry d events warnings)
      as (H1 & _ & _ & _ & H5). by split.
  - intros trajectory_path listing m Hdir Hm.
    destruct (compute_trajectory_metadata_inv _ _ Hm)
      as (fields & ev & _ & He & _ & _ & Ht & _).
    destruct (events_block_inv _ _ _ Hdir He)
      as (_ & sorted & samples & Hs & Htot & _).
    exists sorted. destruct (sort_by_timestamp_sorts _ _ Hs) as [Hp Hsorted].
    repeat split; try done. by rewrite Ht.
Qed.

End EventsClaims.

(** ** The base state *)

Section BaseStateClaims.
Context {rt : Runtime}.

Lemma base_state_block_absent trajectory_path :
  base_state_path trajectory_path = None ->
  base_state_block trajectory_path = Ok (default_fields (name trajectory_path)).
Proof. unfold base_state_block. by intros ->. Qed.

Lemma base_state_block_unparsable trajectory_path f :
  base_state_path trajectory_path = Some f ->
  contents f = Raise JSONDecodeError \/ contents f = Raise IOError ->
  base_state_block trajectory_path = Ok (default_fields (name trajectory_path)).
Proof. unfold base_state_block. by intros -> [-> | ->]. Qed.

Lemma title_and_model_ok trajectory_id (bf : list (string * json)) :
  exists t m,
    (agent ← py_get (JObj bf) "agent" (JObj []);
     if is_dict agent then
       title ← py_get agent "id" (JStr trajectory_id);
       llm ← py_get agent "llm" (JObj []);
       if is_dict llm then
         model ← py_get llm "model" JNull;
         Ok (title, model)
       else Ok (title, JNull)
     else Ok (JStr trajectory_id, JNull)) = Ok (t, m).
Proof.
  simpl. destruct (default (JObj []) (assoc "agent" bf)) as [| | | | |af]; simpl;
    try by eexists _, _.
  destruct (default (JObj []) (assoc "llm" af)) as [| | | | |lf]; simpl;
    by eexists _, _.
Qed.

Lemma read_base_state_missing_link trajectory_id base_state :
  missing_link base_state token_path = true ->
  exists t m,
    read_base_state trajectory_id base_state
    = Ok {| bs_title := t;
            bs_model := m;
            bs_prompt_tokens := JInt 0;
            bs_completion_tokens := JInt 0;
            bs_reasoning_tokens := JInt 0;
            bs_cache_read_tokens := JInt 0 |}.
Proof.
  intros H. destruct base_state as [| | | | |bf]; try done.
  unfold read_base_state.
  assert (Htm : exists t m,
    (has_agent ← py_contains (JObj bf) "agent";
     if has_agent : bool then
       agent ← py_get (JObj bf) "agent" (JObj []);
       if is_dict agent then
         title ← py_get agent "id" (JStr trajectory_id);
         llm ← py_get agent "llm" (JObj []);
         if is_dict llm then
           model ← py_get llm "model" JNull;
           Ok (title, model)
         else Ok (title, JNull)
       else Ok (JStr trajectory_id, JNull)
     else Ok (JStr trajectory_id, JNull)) = Ok (t, m)).
  { simpl. destruct (bool_decide _); [apply title_and_model_ok|by eexists _, _]. }
  destruct Htm as (t & m & Htm). exists t, m.
  simpl in Htm |- *. destruct (bool_decide _).
  - simpl in Htm. rewrite Htm. clear Htm. simpl. revert H. unfold token_path. simpl.
    destruct (assoc "stats" bf) as [[| | | | |sf]|]; try done. simpl.
    destruct (assoc "usage_to_metrics" sf) as [[| | | | |uf]|]; try done. simpl.
    destruct (assoc "agent" uf) as [[| | | | |af]|]; try done. simpl.
    by destruct (assoc "accumulated_token_usage" af) as [[| | | | |tf]|].
  - simplify_eq. simpl. revert H. unfold token_path. simpl.
    destruct (assoc "stats" bf) as [[| | | | |sf]|]; try done. simpl.
    destruct (assoc "usage_to_metrics" sf) as [[| | | | |uf]|]; try done. simpl.
    destruct (assoc "agent" uf) as [[| | | | |af]|]; try done. simpl.
    by destruct (assoc "accumulated_token_usage" af) as [[| | | | |tf]|].
Qed.

Lemma read_base_state_agent_entry trajectory_id (bf : list (string * json)) :
  read_base_state trajectory_id (JObj bf)
  = (stats ← py_get (JObj bf) "stats" (JObj []);
     usage ← py_get stats "usage_to_metrics" (JObj []);
     agent_usage ← py_get usage "agent" (JObj []);
     token_usage ← py_get agent_usage "accumulated_token_usage" (JObj []);
     prompt_tokens ← py_get token_usage "prompt_tokens" (JInt 0);
     completion_tokens ← py_get token_usage "completion_tokens" (JInt 0);
     reasoning_tokens ← py_get token_usage "reasoning_tokens" (JInt 0);
     cache_read_tokens ← py_get token_usage "cache_read_tokens" (JInt 0);
     Ok {| bs_title := agent_title trajectory_id bf;
           bs_model := agent_model bf;
           bs_prompt_tokens := prompt_tokens;
           bs_completion_tokens := completion_tokens;
           bs_reasoning_tokens := reasoning_tokens;
           bs_cache_read_tokens := cache_read_tokens |}).
Proof.
  unfold read_base_state, agent_title, agent_model. simpl.
  destruct (assoc "agent" bf) as [[| | | | |af]|]; simpl; try done.
  by destruct (default (JObj []) (assoc "llm" af)).
Qed.

Lemma read_base_state_missing_link_fields trajectory_id (bf : list (string * json)) :
  missing_link (JObj bf) token_path = true ->
  read_base_state trajectory_id (JObj bf)
  = Ok {| bs_title := agent_title trajectory_id bf;
          bs_model := agent_model bf;
          bs_prompt_tokens := JInt 0;
          bs_completion_tokens := JInt 0;
          bs_reasoning_tokens := JInt 0;
          bs_cache_read_tokens := JInt 0 |}.
Proof.
  intros H. rewrite read_base_state_agent_entry.
  revert H. unfold token_path. simpl.
  destruct (assoc "stats" bf) as [[| | | | |sf]|]; try done. simpl.
  destruct (assoc "usage_to_metrics" sf) as [[| | | | |uf]|]; try done. simpl.
  destruct (assoc "agent" uf) as [[| | | | |af]|]; try done. simpl.
  by destruct (assoc "accumulated_token_usage" af) as [[| | | | |tf]|].
Qed.

Lemma metadata_of_default_tokens trajectory_path t m :
  base_state_block trajectory_path
  = Ok {| bs_title := t;
          bs_model := m;
          bs_prompt_tokens := JInt 0;
          bs_completion_tokens := JInt 0;
          bs_reasoning_tokens := JInt 0;
          bs_cache_read_tokens := JInt 0 |} ->
  compute_trajectory_metadata trajectory_path
  = (ev ← events_block trajectory_path;
     Ok (metadata_without_tokens trajectory_path t m ev)).
Proof.
  intros H. unfold compute_trajectory_metadata. rewrite H. simpl.
  by destruct (events_block trajectory_path) as [[[c avg] tot]|].
Qed.

(** Claim C6, as amended. A base-state file that is absent, cannot be
    opened or is not JSON leaves every field it feeds at its default: the
    four token counters are 0, the title is the trajectory id, the model
    is absent; the metrics are then those of the events alone. When the
    base state is an object in which a key of the path
    stats.usage_to_metrics.agent.accumulated_token_usage is absent, the
    four token counters are 0 and the computation goes on as well; title
    and model are still read from the agent entry: the title is the [id]
    of the agent entry when that entry is an object with this key and the
    trajectory id otherwise, the model is the [model] of the [llm] object
    of the agent entry and absent when there is none. *)
Theorem base_state_defaults :
  (forall trajectory_path,
      base_state_path trajectory_path = None ->
      compute_trajectory_metadata trajectory_path
      = (ev ← events_block trajectory_path;
         Ok (metadata_without_tokens trajectory_path
               (JStr (name trajectory_path)) JNull ev)))
  /\ (forall trajectory_path f,
        base_state_path trajectory_path = Some f ->
        contents f = Raise JSONDecodeError \/ contents f = Raise IOError ->
        compute_trajectory_metadata trajectory_path
        = (ev ← events_block trajectory_path;
           Ok (metadata_without_tokens trajectory_path
                 (JStr (name trajectory_path)) JNull ev)))
  /\ (forall trajectory_path f base_state,
        base_state_path trajectory_path = Some f ->
        contents f = Ok base_state ->
        missing_link base_state token_path = true ->
        exists bf,
          base_state = JObj bf
          /\ compute_trajectory_metadata trajectory_path
             = (ev ← events_block trajectory_path;
                Ok (metadata_without_tokens trajectory_path
                      (agent_title (name trajectory_path) bf)
                      (agent_model bf) ev))).
Proof.
  split; [|split].
  - intros p H. apply metadata_of_default_tokens. by apply base_state_block_absent.
  - intros p f H Hc. apply metadata_of_default_tokens.
    by eapply base_state_block_unparsable.
  - intros p f bs H Hc Hm. destruct bs as [| | | | |bf]; try done.
    exists bf. split; [done|]. apply metadata_of_default_tokens.
    unfold base_state_block. rewrite H, Hc. simpl.
    by rewrite (read_base_state_missing_link_fields (name p) bf Hm).
Qed.

End BaseStateClaims.

(** ** Which entries are trajectories *)

Section IdClaims.
Context {rt : Runtime}.

Lemma in_hex_digits_lower c : in_hex_digits (lower_char c) = is_hex_digit c.
Proof. by destruct c as [[] [] [] [] [] [] [] []]. Qed.

Lemma list_ascii_of_lower s :
  list_ascii_of_string (lower s) = map lower_char (list_ascii_of_string s).
Proof. induction s as [|c s IH]; simpl; [done|]. by rewrite IH. Qed.

Lemma looks_like_trajectory_id_spec s : looks_like_trajectory_id s = hex_id s.
Proof.
  unfold looks_like_trajectory_id, hex_id. f_equal.
  rewrite list_ascii_of_lower.
  induction (list_ascii_of_string s) as [|c l IH]; simpl; [done|].
  by rewrite in_hex_digits_lower, IH.
Qed.

Lemma lowercase_hex_id_hex_id s : lowercase_hex_id s = true -> hex_id s = true.
Proof.
  unfold lowercase_hex_id, hex_id. rewrite !andb_true_iff, !forallb_forall.
  intros [Hl Hf]. split; [done|]. intros c Hc. unfold is_hex_digit.
  by rewrite (Hf c Hc).
Qed.

Lemma processing_order_perm entries : processing_order entries ≡ₚ entries.
Proof. apply sort_by_perm. Qed.

Lemma source_trajectories_elem conversations_dir e :
  e ∈ source_trajectories conversations_dir
  <-> e ∈ entries_of conversations_dir /\ conforming e = true.
Proof.
  unfold source_trajectories, entries_of.
  destruct conversations_dir as [entries|]; simpl.
  - rewrite list_elem_of_filter, processing_order_perm. tauto.
  - set_solver.
Qed.

Lemma observed_ids_spec clock conversations_dir w s w' n :
  build_static_site clock conversations_dir w = (Ok s, w') ->
  n ∈ observed_ids s
  <-> exists e, e ∈ entries_of conversations_dir /\ name e = n /\ conforming e = true.
Proof.
  intros H. destruct (build_static_site_inv _ _ _ _ _ H) as (st & w1 & Hl & -> & _).
  destruct (main_loop_ids _ _ _ _ _ Hl) as (ms & _ & _ & Hi). simpl. rewrite Hi.
  unfold names_of. rewrite elem_of_list_to_set, list_elem_of_fmap. split.
  - intros (e & -> & He). apply source_trajectories_elem in He as [He Hc].
    by exists e.
  - intros (e & He & <- & Hc). exists e. split; [done|].
    by apply source_trajectories_elem.
Qed.

Lemma index_spec clock conversations_dir w s w' :
  build_static_site clock conversations_dir w = (Ok s, w') ->
  Forall2 (fun e m => compute_trajectory_metadata e = Ok m)
          (source_trajectories conversations_dir) (index s).
Proof.
  intros H. destruct (build_static_site_inv _ _ _ _ _ H) as (st & w1 & Hl & -> & _).
  by destruct (main_loop_ids _ _ _ _ _ Hl) as (ms & Hms & <- & _).
Qed.

(** Claim C9, as amended. An entry of the conversations directory is taken
    for a trajectory exactly when it is a directory whose name has 32
    characters, each a hexadecimal digit with letters in either case; a
    name of 32 lower-case hexadecimal characters is one of them. Any
    other entry is passed over without exception and without effect.
    The ids observed by a run are the names of the entries taken, and the
    index holds the metrics of those entries, in processing order. *)
Theorem entry_is_trajectory_iff_hex_directory :
  (forall entry,
      conforming entry = is_dir entry && hex_id (name entry))
  /\ (forall s, lowercase_hex_id s = true -> hex_id s = true)
  /\ (forall clock st entry w,
        conforming entry = false ->
        process_entry clock st entry w = (Ok st, w))
  /\ (forall clock conversations_dir w s w',
        build_static_site clock conversations_dir w = (Ok s, w') ->
        (forall n,
            n ∈ observed_ids s
            <-> exists e, e ∈ entries_of conversations_dir /\ name e = n
                          /\ is_dir e = true /\ hex_id n = true)
        /\ Forall2 (fun e m => compute_trajectory_metadata e = Ok m)
                   (filter (fun e => is_dir e && hex_id (name e) = true)
                           (processing_order (entries_of conversations_dir)))
                   (index s)).
Proof.
  assert (Hconf : forall entry, conforming entry = is_dir entry && hex_id (name entry)).
  { intros entry. unfold conforming. by rewrite looks_like_trajectory_id_spec. }
  split; [done|]. split; [exact lowercase_hex_id_hex_id|].
  split; [exact process_entry_ignored|].
  intros clock conversations_dir w s w' H. split.
  - intros n. rewrite (observed_ids_spec _ _ _ _ _ n H).
    split; intros (e & He & Hn & Hc); exists e; (split; [done|]); (split; [done|]).
    + rewrite Hconf, Hn in Hc. by apply andb_true_iff in Hc.
    + rewrite Hconf, Hn. by apply andb_true_iff.
  - pose proof (index_spec _ _ _ _ _ H) as Hi.
    unfold source_trajectories, entries_of in *.
    destruct conversations_dir as [entries|]; simpl in *.
    + rewrite (list_filter_iff _ (fun e => conforming e = true)); [exact Hi|].
      intros e. by rewrite Hconf.
    + by inversion Hi.
Qed.

End IdClaims.

(** ** What the main loop leaves in place *)

Section PruneProperties.
Context {rt : Runtime}.
Variable clock : list string -> Z.

Lemma process_entry_not_file st entry w st' w' f :
  process_entry clock st entry w = (Ok st', w') ->
  conforming entry = true ->
  data_dir w !! name entry <> Some (OutFile f).
Proof.
  intros H Hc Hl.
  destruct (process_entry_inv _ _ _ _ _ _ H)
    as [(Hc' & _)|(_ & m & Hm & [(Hf & _)|(Hf & _)])].
  - by rewrite Hc in Hc'.
  - destruct Hf as (ej & He & _). unfold events_output in He. by rewrite Hl in He.
  - by rewrite (process_entry_blocked clock st entry w m f Hc Hm Hf Hl) in H.
Qed.

Lemma process_entry_trace st entry w st' w' :
  process_entry clock st entry w = (Ok st', w') ->
  exists added, trace w' = trace w ++ added /\ Forall not_rmtree added.
Proof.
  intros H.
  destruct (process_entry_inv _ _ _ _ _ _ H)
    as [(_ & _ & ->)|(_ & m & _ & [(_ & _ & ->)|(_ & d & evs & ws & _ & _ & _ & ->)])].
  - exists []. by rewrite app_nil_r.
  - exists []. by rewrite app_nil_r.
  - eexists. split; [done|]. simpl. constructor; [done|].
    apply Forall_app. split; [|by repeat constructor].
    apply Forall_forall. intros e He. by apply list_elem_of_fmap in He as (n & -> & _).
Qed.

Lemma process_entry_keeps_dir st entry w st' w' n files :
  process_entry clock st entry w = (Ok st', w') ->
  data_dir w !! n = Some (OutDir files) ->
  exists files', data_dir w' !! n = Some (OutDir files').
Proof.
  intros H Hl.
  destruct (process_entry_inv _ _ _ _ _ _ H)
    as [(_ & _ & ->)|(_ & m & _ & [(_ & _ & ->)|(_ & d & evs & ws & _ & _ & _ & ->)])];
    try by eexists.
  unfold rebuilt_world. simpl. destruct (decide (n = name entry)) as [->|Hn].
  - rewrite lookup_insert_eq. by eexists.
  - rewrite lookup_insert_ne by done. by eexists.
Qed.

Lemma process_entry_makes_dir st entry w st' w' :
  process_entry clock st entry w = (Ok st', w') ->
  conforming entry = true ->
  exists files, data_dir w' !! name entry = Some (OutDir files).
Proof.
  intros H Hc.
  destruct (process_entry_inv _ _ _ _ _ _ H)
    as [(Hc' & _)|(_ & m & _ & [(Hf & _ & ->)|(_ & d & evs & ws & _ & _ & _ & ->)])].
  - by rewrite Hc in Hc'.
  - destruct Hf as (ej & He & _). unfold events_output in He.
    destruct (data_dir w !! name entry) as [[|files]|]; try done. by eexists.
  - unfold rebuilt_world. simpl. rewrite lookup_insert_eq. by eexists.
Qed.

Lemma loop_trace entries : forall st w st' w',
  for_each_M entries (process_entry clock) st w = (Ok st', w') ->
  exists added, trace w' = trace w ++ added /\ Forall not_rmtree added.
Proof.
  induction entries as [|e entries IH]; intros st w st' w' H; simpl in H.
  - unfold mret, M_ret in H. simplify_eq. exists []. by rewrite app_nil_r.
  - unfold mbind, M_bind in H.
    destruct (process_entry clock st e w) as [[st1|x] w1] eqn:Hstep; [|done].
    destruct (process_entry_trace _ _ _ _ _ Hstep) as (a1 & E1 & F1).
    destruct (IH _ _ _ _ H) as (a2 & E2 & F2).
    exists (a1 ++ a2). split; [by rewrite E2, E1, app_assoc|by apply Forall_app].
Qed.

Lemma loop_keeps_dir entries : forall st w st' w' n files,
  for_each_M entries (process_entry clock) st w = (Ok st', w') ->
  data_dir w !! n = Some (OutDir files) ->
  exists files', data_dir w' !! n = Some (OutDir files').
Proof.
  induction entries as [|e entries IH]; intros st w st' w' n files H Hl; simpl in H.
  - unfold mret, M_ret in H. simplify_eq. by eexists.
  - unfold mbind, M_bind in H.
    destruct (process_entry clock st e w) as [[st1|x] w1] eqn:Hstep; [|done].
    destruct (process_entry_keeps_dir _ _ _ _ _ _ _ Hstep Hl) as (files1 & Hl1).
    by eapply IH.
Qed.

Lemma loop_makes_dirs entries : forall st w st' w' e,
  for_each_M entries (process_entry clock) st w = (Ok st', w') ->
  e ∈ entries -> conforming e = true ->
  exists files, data_dir w' !! name e = Some (OutDir files).
Proof.
  induction entries as [|e0 entries IH]; intros st w st' w' e H He Hc; simpl in H.
  - by apply elem_of_nil in He.
  - unfold mbind, M_bind in H.
    destruct (process_entry clock st e0 w) as [[st1|x] w1] eqn:Hstep; [|done].
    apply elem_of_cons in He as [->|He].
    + destruct (process_entry_makes_dir _ _ _ _ _ Hstep Hc) as (files & Hl).
      by eapply loop_keeps_dir.
    + by eapply IH.
Qed.

Lemma loop_keeps_file entries : forall st w st' w' n f,
  for_each_M entries (process_entry clock) st w = (Ok st', w') ->
  data_dir w !! n = Some (OutFile f) ->
  data_dir w' !! n = Some (OutFile f).
Proof.
  induction entries as [|e entries IH]; intros st w st' w' n f H Hl; simpl in H.
  - unfold mret, M_ret in H. by simplify_eq.
  - unfold mbind, M_bind in H.
    destruct (process_entry clock st e w) as [[st1|x] w1] eqn:Hstep; [|done].
    eapply IH; [done|].
    destruct (conforming e) eqn:Hc.
    + destruct (decide (n = name e)) as [->|Hn].
      * by destruct (process_entry_not_file _ _ _ _ _ f Hstep Hc).
      * by rewrite (process_entry_other _ _ _ _ _ _ _ Hstep Hn).
    + by rewrite (process_entry_ignores _ _ _ _ _ _ Hstep Hc).
Qed.

Lemma name_not_in_rest (entries : list source_path) e :
  name e ∉ map name entries ->
  name e ∉ names_of (filter (fun e => conforming e = true) entries).
Proof.
  intros Hn Hin. apply names_of_conforming in Hin as (e' & He' & Hname & _).
  apply Hn. rewrite <- Hname. apply list_elem_of_fmap. by exists e'.
Qed.

Lemma loop_fresh_untouched entries : forall st w st' w' e,
  for_each_M entries (process_entry clock) st w = (Ok st', w') ->
  NoDup (map name entries) ->
  e ∈ entries -> conforming e = true -> fresh w e ->
  data_dir w' !! name e = data_dir w !! name e.
Proof.
  induction entries as [|e0 entries IH]; intros st w st' w' e H Hnd He Hc Hf.
  - by apply elem_of_nil in He.
  - simpl in H. unfold mbind, M_bind in H.
    destruct (process_entry clock st e0 w) as [[st1|x] w1] eqn:Hstep; [|done].
    simpl in Hnd. apply NoDup_cons in Hnd as [Hnotin Hnd].
    apply elem_of_cons in He as [->|He].
    + destruct (compute_trajectory_metadata e0) as [m|x] eqn:Hm.
      2: { by rewrite (process_entry_raise clock st e0 w x Hc Hm) in Hstep. }
      rewrite (process_entry_fresh clock st e0 w m Hc Hm Hf) in Hstep.
      simplify_eq. eapply main_loop_other; [done|]. by apply name_not_in_rest.
    + assert (Hne : name e <> name e0).
      { intros Heq. apply Hnotin. rewrite <- Heq. apply list_elem_of_fmap.
        by exists e. }
      pose proof (process_entry_other _ _ _ _ _ _ _ Hstep Hne) as Hsame.
      rewrite <- Hsame. eapply IH; try done. by apply (fresh_ext w).
Qed.

End PruneProperties.

(** ** Pruning *)

Section RunClaims.
Context {rt : Runtime}.

Lemma main_loop_entries clock conversations_dir w st w1 :
  main_loop clock conversations_dir w = (Ok st, w1) ->
  for_each_M (processing_order (entries_of conversations_dir))
             (process_entry clock) initial_state w = (Ok st, w1).
Proof. unfold main_loop, entries_of. by destruct conversations_dir. Qed.

Lemma processing_order_elem entries e :
  e ∈ processing_order entries <-> e ∈ entries.
Proof. by rewrite processing_order_perm. Qed.

Lemma processing_order_NoDup entries :
  NoDup (map name entries) -> NoDup (map name (processing_order entries)).
Proof. intros H. by rewrite processing_order_perm. Qed.

Lemma source_ids_conforming clock conversations_dir w st w1 n :
  main_loop clock conversations_dir w = (Ok st, w1) ->
  n ∈ source_ids st
  <-> exists e, e ∈ entries_of conversations_dir /\ name e = n /\ conforming e = true.
Proof.
  intros H. destruct (main_loop_ids _ _ _ _ _ H) as (ms & _ & _ & ->).
  unfold names_of. rewrite elem_of_list_to_set, list_elem_of_fmap. split.
  - intros (e & -> & He). apply source_trajectories_elem in He as [He Hc].
    by exists e.
  - intros (e & He & <- & Hc). exists e. split; [done|].
    by apply source_trajectories_elem.
Qed.

Lemma main_loop_outside clock conversations_dir w st w1 n :
  main_loop clock conversations_dir w = (Ok st, w1) ->
  n ∉ source_ids st -> data_dir w1 !! n = data_dir w !! n.
Proof.
  intros H Hn. pose proof (main_loop_entries _ _ _ _ _ H) as Hl.
  eapply main_loop_other; [done|]. intros Hin. apply Hn.
  apply names_of_conforming in Hin as (e & He & Hname & Hc).
  apply (source_ids_conforming _ _ _ _ _ n H). exists e.
  by rewrite processing_order_elem in He.
Qed.

Lemma index_written_other clock l w n :
  n <> "trajectories.json" ->
  data_dir (index_written clock l w) !! n = data_dir w !! n.
Proof. intros H. unfold index_written. simpl. by rewrite lookup_insert_ne. Qed.

Lemma source_id_not_index clock conversations_dir w st w1 :
  main_loop clock conversations_dir w = (Ok st, w1) ->
  "trajectories.json" ∉ source_ids st.
Proof.
  intros H Hin. apply (source_ids_conforming _ _ _ _ _ _ H) in Hin as (e & _ & Hn & Hc).
  unfold conforming in Hc. apply andb_true_iff in Hc as [_ Hc].
  apply looks_like_trajectory_id_length in Hc. by rewrite Hn in Hc.
Qed.

(** Claim C5, as amended. After a run, every entry of the output data
    directory that is a directory and whose name is not among the source
    ids observed by the run has been removed with what it held, and
    nothing else has: the removals of the run are exactly those. The
    entries that are not directories stay (the index file is rewritten
    in place), the entries named by an observed id are still
    directories, and the output of a fresh trajectory is as it was. In
    particular an output directory whose name is 32 hexadecimal
    characters and that has no source trajectory is gone after one
    run. *)
Theorem output_directories_without_source_are_removed
    clock conversations_dir w s w' :
  build_static_site clock conversations_dir w = (Ok s, w') ->
  (exists added,
      trace w' = trace w ++ added
      /\ forall n, Rmtree n ∈ added
                   <-> (exists files, data_dir w !! n = Some (OutDir files))
                       /\ n ∉ observed_ids s)
  /\ (forall n files,
        data_dir w !! n = Some (OutDir files) -> n ∉ observed_ids s ->
        n <> "trajectories.json" -> data_dir w' !! n = None)
  /\ (forall n, n ∈ observed_ids s ->
                exists files, data_dir w' !! n = Some (OutDir files))
  /\ (forall n f,
        data_dir w !! n = Some (OutFile f) -> n <> "trajectories.json" ->
        data_dir w' !! n = Some (OutFile f))
  /\ (forall e,
        NoDup (map name (entries_of conversations_dir)) ->
        e ∈ entries_of conversations_dir -> conforming e = true -> fresh w e ->
        data_dir w' !! name e = data_dir w !! name e).
Proof.
  intros H. destruct (build_static_site_inv _ _ _ _ _ H) as (st & w1 & Hl & -> & ->).
  pose proof (main_loop_entries _ _ _ _ _ Hl) as Hloop. cbn [observed_ids].
  split; [|split; [|split; [|split]]].
  - destruct (loop_trace _ _ _ _ _ _ Hloop) as (a1 & E1 & F1).
    exists (a1 ++ map (fun x => Rmtree (fst x))
                      (stale_outputs (source_ids st) (map_to_list (data_dir w1)))
               ++ [Write ["trajectories.json"] (TrajectoriesJson (trajectories st))]).
    split.
    { unfold index_written, pruned. simpl. by rewrite E1, <- !app_assoc. }
    intros n. rewrite !elem_of_app. split.
    + intros [Hin|[Hin|Hin]].
      * apply (proj1 (Forall_forall _ _) F1) in Hin. done.
      * apply pruned_trace in Hin as [[files Hd] Hn].
        rewrite (main_loop_outside _ _ _ _ _ n Hl Hn) in Hd. split; [by eexists|done].
      * by apply list_elem_of_singleton in Hin.
    + intros [[files Hd] Hn]. right. left. apply pruned_trace. split; [|done].
      exists files. by rewrite (main_loop_outside _ _ _ _ _ n Hl Hn).
  - intros n files Hd Hn Hx. rewrite index_written_other by done.
    rewrite pruned_lookup, (main_loop_outside _ _ _ _ _ n Hl Hn), Hd.
    by rewrite bool_decide_eq_false_2.
  - intros n Hn.
    assert (Hx : n <> "trajectories.json").
    { intros ->. by apply (source_id_not_index _ _ _ _ _ Hl). }
    rewrite index_written_other by done. rewrite pruned_lookup.
    apply (source_ids_conforming _ _ _ _ _ n Hl) in Hn as Hn'.
    destruct Hn' as (e & He & <- & Hc).
    destruct (loop_makes_dirs clock _ _ _ _ _ e Hloop) as (files & Hd);
      [by apply processing_order_elem|done|].
    rewrite Hd, bool_decide_eq_true_2 by done. by eexists.
  - intros n f Hd Hx. rewrite index_written_other by done.
    rewrite pruned_lookup. by rewrite (loop_keeps_file clock _ _ _ _ _ n f Hloop Hd).
  - intros e Hnd He Hc Hf.
    assert (Hin : name e ∈ source_ids st).
    { apply (source_ids_conforming _ _ _ _ _ _ Hl). by exists e. }
    assert (Hx : name e <> "trajectories.json").
    { intros Heq. rewrite Heq in Hin. by apply (source_id_not_index _ _ _ _ _ Hl). }
    rewrite index_written_other by done. rewrite pruned_lookup.
    rewrite (loop_fresh_untouched clock _ _ _ _ _ e Hloop); try done.
    + destruct (data_dir w !! name e) as [[|files]|]; try done.
      by rewrite bool_decide_eq_true_2.
    + by apply processing_order_NoDup.
    + by apply processing_order_elem.
Qed.

End RunClaims.

(** ** Two runs *)

Section TwoRuns.
Context {rt : Runtime}.

Lemma pruned_keeps ids w n :
  n ∈ ids -> data_dir (pruned ids w) !! n = data_dir w !! n.
Proof.
  intros H. rewrite pruned_lookup.
  destruct (data_dir w !! n) as [[|files]|]; try done.
  by rewrite bool_decide_eq_true_2.
Qed.

Lemma pruned_dirs ids w n files :
  data_dir (pruned ids w) !! n = Some (OutDir files) -> n ∈ ids.
Proof.
  rewrite pruned_lookup.
  destruct (data_dir w !! n) as [[|files']|]; try done.
  destruct (bool_decide (n ∈ ids)) eqn:E; [|done].
  intros _. by apply bool_decide_eq_true in E.
Qed.

Lemma index_written_dirs clock l w n files :
  data_dir (index_written clock l w) !! n = Some (OutDir files) ->
  data_dir w !! n = Some (OutDir files).
Proof.
  unfold index_written. simpl. destruct (decide (n = "trajectories.json")) as [->|Hn].
  - by rewrite lookup_insert_eq.
  - by rewrite lookup_insert_ne.
Qed.

Lemma main_loop_all_fresh_run clock conversations_dir w ms :
  Forall2 (fun e m => compute_trajectory_metadata e = Ok m)
          (source_trajectories conversations_dir) ms ->
  (forall e, e ∈ entries_of conversations_dir -> conforming e = true -> fresh w e) ->
  main_loop clock conversations_dir w
  = (Ok {| trajectories := ms;
           source_ids := names_of (source_trajectories conversations_dir);
           rebuilt_count := 0;
           skipped_count := length ms |}, w).
Proof.
  unfold main_loop, source_trajectories, entries_of.
  intros Hms Hf. destruct conversations_dir as [entries|]; simpl in *.
  - rewrite (main_loop_all_fresh clock _ initial_state w ms Hms).
    + simpl. do 3 f_equal. set_solver.
    + intros e He. apply Hf. by apply processing_order_elem.
  - inversion Hms; subst. done.
Qed.

(** Every run writes the index anew, with the metrics of every source
    trajectory. *)
Lemma index_rewritten clock conversations_dir w s w' :
  build_static_site clock conversations_dir w = (Ok s, w') ->
  Forall2 (fun e m => compute_trajectory_metadata e = Ok m)
          (source_trajectories conversations_dir) (index s)
  /\ (exists before,
        trace w' = trace w ++ before
                   ++ [Write ["trajectories.json"] (TrajectoriesJson (index s))])
  /\ data_dir w' !! "trajectories.json"
     = Some (OutFile {| written := TrajectoriesJson (index s);
                        out_mtime := clock ["trajectories.json"] |}).
Proof.
  intros H. split; [by eapply index_spec|].
  destruct (build_static_site_inv _ _ _ _ _ H) as (st & w1 & Hl & -> & ->).
  pose proof (main_loop_entries _ _ _ _ _ Hl) as Hloop.
  destruct (loop_trace _ _ _ _ _ _ Hloop) as (a1 & E1 & _).
  split.
  - exists (a1 ++ map (fun x => Rmtree (fst x))
                      (stale_outputs (source_ids st) (map_to_list (data_dir w1)))).
    unfold index_written, pruned. simpl. by rewrite E1, <- !app_assoc.
  - unfold index_written. simpl. by rewrite lookup_insert_eq.
Qed.

Lemma second_run_skips clock1 clock2 conversations_dir w0 s1 w1 :
  build_static_site clock1 conversations_dir w0 = (Ok s1, w1) ->
  NoDup (map name (entries_of conversations_dir)) ->
  (forall e, e ∈ entries_of conversations_dir -> conforming e = true ->
             get_source_mtime e <= clock1 [name e; "events.json"]) ->
  build_static_site clock2 conversations_dir w1
  = (Ok {| index := index s1;
           observed_ids := observed_ids s1;
           rebuilt := 0;
           skipped := length (index s1);
           removed := 0 |},
     index_written clock2 (index s1) w1).
Proof.
  intros H Hnd Hclock.
  destruct (build_static_site_inv _ _ _ _ _ H) as (st & wl & Hl & -> & ->).
  pose proof (main_loop_entries _ _ _ _ _ Hl) as Hloop.
  destruct (main_loop_ids _ _ _ _ _ Hl) as (ms & Hms & Ht & Hi).
  cbn [index observed_ids].
  set (w1 := index_written clock1 (trajectories st) (pruned (source_ids st) wl)).
  assert (Hfresh : forall e, e ∈ entries_of conversations_dir ->
                             conforming e = true -> fresh w1 e).
  { intros e He Hc. apply (fresh_ext wl).
    - assert (Hin : name e ∈ source_ids st).
      { apply (source_ids_conforming _ _ _ _ _ _ Hl). by exists e. }
      unfold w1. rewrite index_written_other, pruned_keeps; [done..|].
      intros Heq. rewrite Heq in Hin. by apply (source_id_not_index _ _ _ _ _ Hl).
    - eapply (main_loop_makes_fresh clock1); try done.
      + by apply processing_order_NoDup.
      + intros e' He'. apply Hclock. by apply processing_order_elem.
      + by apply processing_order_elem. }
  assert (Hdirs : forall n files, data_dir w1 !! n = Some (OutDir files) ->
                                  n ∈ source_ids st).
  { intros n files Hd. apply index_written_dirs in Hd. by eapply pruned_dirs. }
  rewrite Ht in *.
  pose proof (main_loop_all_fresh_run clock2 conversations_dir w1 ms Hms Hfresh) as Hl2.
  rewrite (build_static_site_run _ _ _ _ _ Hl2). cbn [trajectories source_ids
    rebuilt_count skipped_count]. rewrite <- Hi.
  rewrite pruned_nothing by done.
  rewrite stale_outputs_none; [done|].
  intros [n node] Hin Hd. apply elem_of_map_to_list in Hin.
  destruct node; [done|]. by eapply Hdirs.
Qed.

(** Claim C4, as amended. Every run that ends computes the metrics of
    every source trajectory, fresh or stale, and writes them to
    [trajectories.json] as its last effect. When a run has ended, the
    names of the source entries are distinct and no source artifact is
    more recent than the [events.json] that run wrote for its trajectory,
    a second run on the same source writes [trajectories.json] again,
    with the same metrics, and does nothing else: no trajectory is
    rebuilt, nothing is removed. *)
Theorem index_always_rewritten_outputs_only_when_stale :
  (forall clock conversations_dir w s w',
      build_static_site clock conversations_dir w = (Ok s, w') ->
      Forall2 (fun e m => compute_trajectory_metadata e = Ok m)
              (source_trajectories conversations_dir) (index s)
      /\ (exists before,
            trace w' = trace w ++ before
                       ++ [Write ["trajectories.json"] (TrajectoriesJson (index s))])
      /\ data_dir w' !! "trajectories.json"
         = Some (OutFile {| written := TrajectoriesJson (index s);
                            out_mtime := clock ["trajectories.json"] |}))
  /\ (forall clock1 clock2 conversations_dir w0 s1 w1,
        build_static_site clock1 conversations_dir w0 = (Ok s1, w1) ->
        NoDup (map name (entries_of conversations_dir)) ->
        (forall e, e ∈ entries_of conversations_dir -> conforming e = true ->
                   get_source_mtime e <= clock1 [name e; "events.json"]) ->
        exists s2 w2,
          build_static_site clock2 conversations_dir w1 = (Ok s2, w2)
          /\ index s2 = index s1
          /\ rebuilt s2 = 0%nat
          /\ skipped s2 = length (index s1)
          /\ removed s2 = 0%nat
          /\ trace w2
             = trace w1 ++ [Write ["trajectories.json"] (TrajectoriesJson (index s1))]
          /\ forall n, n <> "trajectories.json" ->
                       data_dir w2 !! n = data_dir w1 !! n).
Proof.
  split; [exact index_rewritten|].
  intros clock1 clock2 conversations_dir w0 s1 w1 H Hnd Hclock.
  eexists _, _. split; [by eapply second_run_skips|].
  repeat split; try done. intros n Hn. by apply index_written_other.
Qed.

End TwoRuns.

(** ** Event counts *)

Section EventCounts.
Context {rt : Runtime}.

Lemma insert_keyed_strings {A} (kx : json * A) sorted :
  string_key kx -> Forall string_key sorted ->
  exists sorted', insert_keyed kx sorted = Ok sorted'.
Proof.
  intros [x Hx]. induction 1 as [|ky rest [y Hy] _ IH]; simpl; [by eexists|].
  rewrite Hx, Hy. simpl. destruct (String.ltb y x); simpl; [|by eexists].
  destruct IH as [rest' ->]. simpl. by eexists.
Qed.

Lemma sort_keyed_strings {A} (l : list (json * A)) :
  Forall string_key l -> exists sorted, sort_keyed l = Ok sorted.
Proof.
  induction 1 as [|kx l Hx Hl [s Hs]]; simpl; [by eexists|].
  rewrite Hs. simpl. apply insert_keyed_strings; [done|].
  by rewrite (sort_keyed_perm _ _ Hs).
Qed.

Lemma keyed_loop_ok events : forall acc,
  Forall (fun e => timed_event e = true) events ->
  for_each events
    (fun acc e => k ← py_get e "timestamp" (JStr EmptyString); Ok (acc ++ [(k, e)]))
    acc
  = Ok (acc ++ map (fun e => (timestamp_key e, e)) events).
Proof.
  induction events as [|e events IH]; intros acc H; simpl.
  - by rewrite app_nil_r.
  - inversion H as [|? ? He Hrest]; subst.
    destruct e as [| | | | |f]; try done. simpl.
    rewrite IH by done. by rewrite <- app_assoc.
Qed.

Lemma timed_event_string_key e :
  timed_event e = true -> exists s, timestamp_key e = JStr s.
Proof.
  destruct e as [| | | | |f]; try done. unfold timestamp_key. simpl.
  destruct (assoc "timestamp" f) as [[]|]; try done; by eexists.
Qed.

Lemma timed_event_is_event e : timed_event e = true -> is_event e = true.
Proof.
  destruct e as [| | | | |f]; try done. simpl.
  by destruct (assoc "timestamp" f) as [[]|].
Qed.

Lemma sort_by_timestamp_total events :
  Forall (fun e => timed_event e = true) events ->
  exists sorted, sort_by_timestamp events = Ok sorted.
Proof.
  intros H. unfold sort_by_timestamp. rewrite keyed_loop_ok by done. simpl.
  destruct (sort_keyed_strings (map (fun e => (timestamp_key e, e)) events))
    as [sorted ->]; [|by eexists].
  apply Forall_forall. intros ke Hin.
  apply list_elem_of_fmap in Hin as (e & -> & He).
  apply timed_event_string_key. by apply (proj1 (Forall_forall _ _) H).
Qed.

Lemma events_block_total trajectory_path :
  well_formed_events trajectory_path ->
  exists ev, events_block trajectory_path = Ok ev.
Proof.
  unfold well_formed_events, events_block.
  destruct (events_dir trajectory_path) as [listing|]; [|by eexists].
  intros [Hall Hev].
  assert (Hall' : all_load (sorted_event_files listing)).
  { unfold all_load. by rewrite sorted_event_files_perm. }
  rewrite load_events_ok by done. simpl.
  assert (Hev' : Forall (fun e => timed_event e = true)
                        (omap parsed (sorted_event_files listing))).
  { apply Forall_forall. intros e He.
    apply list_elem_of_omap in He as (f & Hf & Hp).
    apply (proj1 (Forall_forall _ _) Hev), list_elem_of_omap. exists f.
    split; [|done]. by rewrite <- sorted_event_files_perm. }
  destruct (sort_by_timestamp_total _ Hev') as [sorted Hs]. rewrite Hs. simpl.
  assert (Hsorted : Forall (fun e => is_event e = true) sorted).
  { destruct (sort_by_timestamp_sorts _ _ Hs) as [Hp _]. rewrite Hp.
    eapply Forall_impl; [exact Hev'|]. apply timed_event_is_event. }
  rewrite compute_total_conversation_time_spec by done. simpl.
  rewrite agent_turn_times_of_spec by done. simpl.
  rewrite average_turn_time_mean. simpl. by eexists.
Qed.

(** The metrics of a trajectory without readable base state and with
    well-formed events are computed. *)
Lemma compute_trajectory_metadata_total trajectory_path :
  base_state_path trajectory_path = None
  \/ (exists f, base_state_path trajectory_path = Some f
                /\ (contents f = Raise JSONDecodeError
                    \/ contents f = Raise IOError)) ->
  well_formed_events trajectory_path ->
  exists m, compute_trajectory_metadata trajectory_path = Ok m.
Proof.
  intros Hb Hev. destruct (events_block_total _ Hev) as [ev He].
  rewrite (metadata_of_default_tokens trajectory_path
             (JStr (name trajectory_path)) JNull).
  - rewrite He. by eexists.
  - destruct Hb as [Hb|(f & Hb & Hc)];
      [by apply base_state_block_absent|by eapply base_state_block_unparsable].
Qed.


Lemma event_count_of_metadata trajectory_path m :
  compute_trajectory_metadata trajectory_path = Ok m ->
  eventCount m = listed_event_files trajectory_path
  /\ (exists d, build_trajectory_detail trajectory_path = Ok d
                /\ detail_eventCount d = listed_event_files trajectory_path)
  /\ (forall listing,
        events_dir trajectory_path = Some listing ->
        let files := sorted_event_files listing in
        let events := omap parsed files in
        load_events files = Ok events
        /\ (exists sorted samples,
              sort_by_timestamp events = Ok sorted
              /\ compute_total_conversation_time sorted = Ok (totalConversationTime m)
              /\ agent_turn_times_of sorted = Ok samples
              /\ average_turn_time samples = Ok (avgAgentTurnTime m))
        /\ (length events + length (filter (fun f => unparsable f = true) files)
            = eventCount m)%nat).
Proof.
  intros Hm.
  destruct (compute_trajectory_metadata_inv _ _ Hm)
    as (fields & ev & Hb & He & Hc & Ha & Ht & _).
  split; [rewrite Hc; by apply events_block_count|].
  split; [by eapply build_trajectory_detail_ok|].
  intros listing Hdir files events.
  destruct (events_block_inv _ _ _ Hdir He)
    as (Hall & sorted & samples & Hs & Htot & Hsam & Havg & Hcount).
  assert (Hall' : all_load files).
  { unfold all_load, files. by rewrite sorted_event_files_perm. }
  split; [by apply load_events_ok|]. split.
  - exists sorted, samples. by rewrite Ht, Ha.
  - unfold events. rewrite length_omap_parsed by done.
    rewrite Hc, Hcount. apply sort_by_length.
Qed.

(** Claim C8. The [eventCount] of the metrics and of the detail record is
    the number of event files the directory listing shows, whether they
    load or not; the events that enter the duration math are those of
    the files that load, so the two counts differ by the number of files
    that do not. The metrics of a trajectory without readable base state
    and with well-formed events are computed, with that count. *)
Theorem event_count_is_listing_size :
  (forall trajectory_path m,
      compute_trajectory_metadata trajectory_path = Ok m ->
      eventCount m = listed_event_files trajectory_path
      /\ (exists d, build_trajectory_detail trajectory_path = Ok d
                    /\ detail_eventCount d = listed_event_files trajectory_path)
      /\ (forall listing,
            events_dir trajectory_path = Some listing ->
            let files := sorted_event_files listing in
            let events := omap parsed files in
            load_events files = Ok events
            /\ (exists sorted samples,
                  sort_by_timestamp events = Ok sorted
                  /\ compute_total_conversation_time sorted = Ok (totalConversationTime m)
                  /\ agent_turn_times_of sorted = Ok samples
                  /\ average_turn_time samples = Ok (avgAgentTurnTime m))
            /\ (length events + length (filter (fun f => unparsable f = true) files)
                = eventCount m)%nat))
  /\ (forall trajectory_path,
        base_state_path trajectory_path = None
        \/ (exists f, base_state_path trajectory_path = Some f
                      /\ (contents f = Raise JSONDecodeError
                          \/ contents f = Raise IOError)) ->
        well_formed_events trajectory_path ->
        exists m, compute_trajectory_metadata trajectory_path = Ok m
                  /\ eventCount m = listed_event_files trajectory_path).
Proof.
  split; [exact event_count_of_metadata|].
  intros trajectory_path Hb Hev.
  destruct (compute_trajectory_metadata_total trajectory_path Hb Hev) as [m Hm].
  exists m. split; [done|]. by destruct (event_count_of_metadata _ _ Hm).
Qed.

End EventCounts.

(** ** Intervals that add nothing *)

Section Intervals.
Context {rt : Runtime}.

Lemma binary_round_aux_negative mx ex lx :
  float_gt0 (binary_round_aux 53 1024 true mx ex lx) = false.
Proof.
  unfold binary_round_aux.
  destruct (shr_fexp 53 1024 mx ex lx) as [mrs' e'].
  destruct (shr_fexp 53 1024 _ e' loc_Exact) as [mrs'' e''].
  destruct (shr_m mrs''); [reflexivity| |reflexivity].
  destruct (e'' <=? 1024 - 53); reflexivity.
Qed.

Lemma total_seconds_not_positive us : us <= 0 -> float_gt0 (total_seconds us) = false.
Proof.
  intros H. unfold total_seconds, fdiv. destruct us as [|p|p]; [reflexivity|lia|].
  cbn [exact_of_Z SFdiv xorb].
  destruct (SFdiv_core_binary 53 1024 (Z.pos p) 0 1000000 0) as [[mz ez] lz].
  apply binary_round_aux_negative.
Qed.

Lemma positive_duration_not_later p c dp dc us :
  parse_timestamp p = Some dp -> parse_timestamp c = Some dc ->
  datetime_sub dc dp = Ok us -> us <= 0 ->
  positive_duration p c = None.
Proof.
  intros Hp Hc Hs Hus. unfold positive_duration, duration.
  rewrite Hp, Hc, Hs. cbn. by rewrite total_seconds_not_positive.
Qed.

Lemma total_time_step_user events total i prev curr :
  events !! (i - 1)%nat = Some prev -> events !! i = Some curr ->
  from_user prev = true ->
  total_time_step events total i = Ok total.
Proof.
  intros Hp Hc Hu. unfold total_time_step, py_index. rewrite Hp, Hc. cbn.
  unfold from_user, field in Hu. destruct prev as [| | | | |fields]; try done.
  cbn. unfold py_ne_str.
  destruct (assoc "source" fields) as [v|]; [|done]. cbn. by rewrite Hu.
Qed.

Lemma total_time_loop_users events : forall l total,
  (forall i, i ∈ l -> exists prev curr,
        events !! (i - 1)%nat = Some prev /\ events !! i = Some curr
        /\ from_user prev = true) ->
  for_each l (total_time_step events) total = Ok total.
Proof.
  induction l as [|i l IH]; intros total H; [done|].
  cbn [for_each]. destruct (H i) as (prev & curr & Hp & Hc & Hu); [left|].
  rewrite (total_time_step_user _ _ _ _ _ Hp Hc Hu). cbn.
  apply IH. intros j Hj. apply H. by right.
Qed.

Lemma add_interval_non_string total v v' :
  truthy v = true -> (forall s, v <> JStr s) ->
  add_interval total v v' = Raise AttributeError.
Proof.
  intros _ Hv. unfold add_interval.
  destruct v; try done. by destruct (Hv s).
Qed.

Lemma omap_none {A B} (f : A -> option B) l :
  (forall x, x ∈ l -> f x = None) -> omap f l = [].
Proof.
  induction l as [|x l IH]; intros H; [done|].
  cbn. rewrite (H x) by left. apply IH. intros y Hy. apply H. by right.
Qed.

Lemma samples_from_bound rest : forall seen,
  (length (samples_from seen rest)
   <= length (filter (fun e => from_agent e = true) rest))%nat.
Proof.
  induction rest as [|e rest IH]; intros seen; [done|].
  cbn [samples_from]. rewrite length_app.
  specialize (IH (seen ++ [e])).
  unfold turn_sample. destruct (from_agent e) eqn:Ha.
  - rewrite filter_cons_True by done. cbn [length].
    destruct (c ← timestamp_of e; p ← last_seen_timestamp seen; positive_duration p c);
      cbn; lia.
  - rewrite filter_cons_False by (by rewrite Ha). cbn. lia.
Qed.

Lemma turn_samples_samples_from events : turn_samples events = samples_from [] events.
Proof. unfold turn_samples. by rewrite <- (turn_samples_from [] events). Qed.

Lemma turn_samples_bound events :
  (length (turn_samples events)
   <= length (filter (fun e => from_agent e = true) events))%nat.
Proof. rewrite turn_samples_samples_from. apply samples_from_bound. Qed.

Lemma samples_from_first seen e rest :
  last_seen_timestamp seen = None ->
  samples_from seen (e :: rest) = samples_from (seen ++ [e]) rest.
Proof.
  intros H. cbn [samples_from]. unfold turn_sample. rewrite H.
  destruct (from_agent e); [|done]. by destruct (timestamp_of e).
Qed.


(** X1. An interval whose second timestamp is not later than its first
    adds nothing: the guards [duration > 0] of lines 48 and 140 leave the
    total and the list of turn times as they were, and two events whose
    timestamps do not advance give a conversation time of 0. *)
Theorem interval_not_later_adds_nothing total acc p c dp dc us :
  parse_timestamp p = Some dp -> parse_timestamp c = Some dc ->
  datetime_sub dc dp = Ok us -> us <= 0 ->
  add_interval total (JStr p) (JStr c) = Ok total
  /\ add_turn_time acc (JStr c) (JStr p) = Ok acc
  /\ (forall prev_source curr_source,
        compute_total_conversation_time
          [event_at prev_source p; event_at curr_source c] = Ok (PyInt 0)).
Proof.
  intros Hp Hc Hs Hus.
  pose proof (positive_duration_not_later _ _ _ _ _ Hp Hc Hs Hus) as Hd.
  split; [|split].
  - by rewrite add_interval_spec, Hd.
  - rewrite add_turn_time_spec, Hd. cbn. by rewrite app_nil_r.
  - intros prev_source curr_source.
    rewrite compute_total_conversation_time_spec by by repeat constructor.
    unfold total_conversation_time_spec, counted_intervals. cbn.
    unfold interval. destruct (from_user _); [done|].
    unfold timestamp_of. cbn.
    destruct (String.eqb p EmptyString); [done|]. cbn.
    destruct (String.eqb c EmptyString); [done|]. cbn.
    by rewrite Hd.
Qed.

(** X2. A timestamp that is truthy and not a string is not tolerated:
    [prev_timestamp.replace] raises [AttributeError], which the handler
    of line 50 does not catch, so [compute_total_conversation_time]
    raises it at the first pair whose first event is not from the user. *)
Theorem non_string_timestamp_raises_attribute_error prev curr rest v v' :
  from_user prev = false ->
  field prev "timestamp" = Some v -> truthy v = true -> (forall s, v <> JStr s) ->
  field curr "timestamp" = Some v' -> truthy v' = true ->
  compute_total_conversation_time (prev :: curr :: rest) = Raise AttributeError.
Proof.
  intros Hu Hv Ht Hs Hv' Ht'. unfold compute_total_conversation_time.
  cbn [length Nat.ltb Nat.leb]. unfold py_range.
  replace (length rest + 2 - 1)%nat with (S (length rest)) by lia.
  cbn [length]. replace (S (S (length rest)) - 1)%nat with (S (length rest)) by lia.
  cbn [seq for_each].
  assert (Hstep : forall total,
             total_time_step (prev :: curr :: rest) total 1 = Raise AttributeError).
  { intros total. unfold total_time_step, py_index. cbn.
    destruct prev as [| | | | |pf]; try done.
    destruct curr as [| | | | |cf]; try done.
    cbn in *. unfold from_user, field in Hu. unfold py_ne_str.
    assert (Hne : py_eq_str (default JNull (assoc "source" pf)) "user" = false).
    { destruct (assoc "source" pf); [done|done]. }
    rewrite Hne. cbn. rewrite Hv, Hv'. cbn. rewrite Ht, Ht'. cbn.
    by apply add_interval_non_string. }
  by rewrite Hstep.
Qed.


(** X3. When every event but the last is from the user, the
    conversation time is the int 0, whatever the events hold besides:
    the test of line 35 skips every pair before a timestamp is read. *)
Theorem conversation_time_is_zero_after_user_events pre last :
  Forall (fun e => from_user e = true) pre ->
  compute_total_conversation_time (pre ++ [last]) = Ok (PyInt 0).
Proof.
  intros Hpre. unfold compute_total_conversation_time.
  destruct (length (pre ++ [last]) <? 2)%nat eqn:Hlen; [done|].
  rewrite total_time_loop_users; [done|].
  intros i Hi. unfold py_range in Hi. apply elem_of_seq in Hi.
  rewrite length_app in Hi. cbn in Hi.
  assert (Hlt : (i - 1 < length pre)%nat) by lia.
  destruct (lookup_lt_is_Some_2 pre (i - 1)%nat Hlt) as [prev Hprev].
  assert (Hi' : (i < length (pre ++ [last]))%nat) by (rewrite length_app; cbn; lia).
  destruct (lookup_lt_is_Some_2 _ i Hi') as [curr Hcurr].
  exists prev, curr. split; [|split]; [|done|].
  - by rewrite lookup_app_l.
  - eapply Forall_lookup_1 in Hpre; [|exact Hprev]. done.
Qed.

(** X4. The turn-time loop of lines 121-144 records at most one sample
    per agent event; without agent events there is no sample and the
    average turn time stays the int 0 of line 70. *)
Theorem turn_samples_come_from_agent_events events :
  Forall (fun e => is_event e = true) events ->
  exists samples,
    agent_turn_times_of events = Ok samples
    /\ (length samples
        <= length (filter (fun e => from_agent e = true) events))%nat
    /\ (Forall (fun e => from_agent e = false) events ->
        samples = [] /\ average_turn_time samples = Ok (PyInt 0)).
Proof.
  intros Hev. exists (turn_samples events). split; [|split].
  - by apply agent_turn_times_of_spec.
  - apply turn_samples_bound.
  - intros Hno.
    assert (Hnil : turn_samples events = []).
    { pose proof (turn_samples_bound events) as Hb.
      assert (Hf : filter (fun e => from_agent e = true) events = []).
      { clear Hb Hev. induction Hno as [|e l He _ IH]; [done|].
        rewrite filter_cons_False by (by rewrite He). exact IH. }
      rewrite Hf in Hb. destruct (turn_samples events); [done|cbn in Hb; lia]. }
    by rewrite Hnil.
Qed.

End Intervals.

(** ** The sort by timestamp *)

Section TimestampSort.
Context {rt : Runtime}.

Lemma py_lt_null_l b : py_lt JNull b = Raise TypeError.
Proof. done. Qed.

Lemma py_lt_null_r a : py_lt a JNull = Raise TypeError.
Proof. by destruct a. Qed.

Lemma py_lt_raises a b e : py_lt a b = Raise e -> e = TypeError.
Proof. destruct a, b; cbn; congruence. Qed.

Lemma insert_keyed_raises {A} (kx : json * A) sorted e :
  insert_keyed kx sorted = Raise e -> e = TypeError.
Proof.
  induction sorted as [|ky rest IH]; cbn; [done|].
  destruct (py_lt (fst ky) (fst kx)) as [[|]|e'] eqn:Hlt; cbn.
  - destruct (insert_keyed kx rest); cbn; [done|]. intros [= <-]. by apply IH.
  - done.
  - intros [= <-]. by apply py_lt_raises in Hlt.
Qed.

Lemma sort_keyed_raises {A} (l : list (json * A)) e :
  sort_keyed l = Raise e -> e = TypeError.
Proof.
  revert e. induction l as [|kx rest IH]; intros e; cbn; [done|].
  destruct (sort_keyed rest) as [sorted|e']; cbn.
  - apply insert_keyed_raises.
  - intros [= <-]. by apply IH.
Qed.

Lemma insert_keyed_null {A} (kx : json * A) ky rest :
  fst kx = JNull \/ fst ky = JNull ->
  insert_keyed kx (ky :: rest) = Raise TypeError.
Proof.
  intros [H|H]; cbn; rewrite H; [by rewrite py_lt_null_r|done].
Qed.

(** A sort of two or more items compares every key with another one:
    a key that is [None] makes it raise. *)
Lemma sort_keyed_null {A} (l : list (json * A)) :
  (2 <= length l)%nat -> Exists (fun k => fst k = JNull) l ->
  sort_keyed l = Raise TypeError.
Proof.
  induction l as [|kx rest IH]; intros Hlen Hex; [cbn in Hlen; lia|].
  cbn [sort_keyed].
  destruct (sort_keyed rest) as [sorted|e] eqn:Hrest; cbn.
  - pose proof (sort_keyed_perm _ _ Hrest) as Hperm.
    destruct sorted as [|ky sorted].
    { apply Permutation_length in Hperm. cbn in *. lia. }
    apply Exists_cons in Hex as [Hx|Hex].
    + apply insert_keyed_null. by left.
    + destruct rest as [|kz [|kz' rest']].
      * by apply Exists_nil in Hex.
      * cbn in Hrest. simplify_eq.
        apply Exists_cons in Hex as [Hz|Hex]; [|by apply Exists_nil in Hex].
        apply insert_keyed_null. by right.
      * assert (Hl : (2 <= length (kz :: kz' :: rest'))%nat) by (cbn; lia).
        discriminate (IH Hl Hex).
  - f_equal. by apply sort_keyed_raises in Hrest.
Qed.

Lemma keyed_loop_dicts events : forall acc,
  Forall (fun e => is_dict e = true) events ->
  for_each events
    (fun acc e => k ← py_get e "timestamp" (JStr EmptyString); Ok (acc ++ [(k, e)]))
    acc
  = Ok (acc ++ map (fun e => (timestamp_key e, e)) events).
Proof.
  induction events as [|e events IH]; intros acc H; cbn [for_each map].
  - by rewrite app_nil_r.
  - apply Forall_cons in H as [He H].
    destruct e as [| | | | |fields]; try done. cbn.
    rewrite IH by done. by rewrite <- app_assoc.
Qed.

Lemma keyed_loop_dicts_inv events : forall acc keyed,
  for_each events
    (fun acc e => k ← py_get e "timestamp" (JStr EmptyString); Ok (acc ++ [(k, e)]))
    acc = Ok keyed ->
  Forall (fun e => is_dict e = true) events.
Proof.
  induction events as [|e events IH]; intros acc keyed H; [done|].
  cbn [for_each] in H.
  destruct e as [| | | | |fields]; try done. cbn in H.
  constructor; [done|]. by eapply IH.
Qed.

Lemma sort_by_timestamp_null events :
  Forall (fun e => is_dict e = true) events ->
  (2 <= length events)%nat ->
  Exists (fun e => field e "timestamp" = Some JNull) events ->
  sort_by_timestamp events = Raise TypeError.
Proof.
  intros Hd Hlen Hex. unfold sort_by_timestamp.
  rewrite keyed_loop_dicts by done. cbn.
  rewrite sort_keyed_null; [done|by rewrite length_map|].
  apply Exists_exists in Hex as (e & He & Hts).
  apply Exists_exists. exists (timestamp_key e, e). split.
  - apply list_elem_of_fmap. by exists e.
  - cbn. unfold timestamp_key. by rewrite Hts.
Qed.

(** A list in sorted order is left as it is. *)
Lemma sort_keyed_sorted_id {A} (l : list (json * A)) :
  Sorted keys_ordered l -> sort_keyed l = Ok l.
Proof.
  induction l as [|kx rest IH]; intros Hs; [done|].
  apply Sorted_inv in Hs as [Hrest Hhd].
  cbn [sort_keyed]. rewrite IH by done. cbn.
  destruct rest as [|ky rest]; [done|].
  apply HdRel_inv in Hhd. unfold keys_ordered in Hhd. cbn. by rewrite Hhd.
Qed.

Lemma Sorted_keyed events :
  Sorted timestamps_ordered events ->
  Sorted keys_ordered (map (fun e => (timestamp_key e, e)) events).
Proof.
  induction 1 as [|e events Hs IH Hhd]; cbn; constructor; [done|].
  destruct Hhd; cbn; constructor. done.
Qed.

Lemma sort_by_timestamp_sorted_id events :
  Forall (fun e => is_dict e = true) events ->
  Sorted timestamps_ordered events ->
  sort_by_timestamp events = Ok events.
Proof.
  intros Hd Hs. unfold sort_by_timestamp.
  rewrite keyed_loop_dicts by done. cbn.
  rewrite sort_keyed_sorted_id by by apply Sorted_keyed. cbn.
  rewrite map_map. cbn. by rewrite map_id.
Qed.

Lemma sort_by_timestamp_dicts events sorted :
  sort_by_timestamp events = Ok sorted -> Forall (fun e => is_dict e = true) events.
Proof.
  unfold sort_by_timestamp. intros H.
  destruct (for_each events _ []) as [keyed|] eqn:Hk; [|done].
  by eapply keyed_loop_dicts_inv.
Qed.

Lemma sort_by_timestamp_fixed events :
  sort_by_timestamp events = Ok events
  <-> Forall (fun e => is_dict e = true) events /\ Sorted timestamps_ordered events.
Proof.
  split.
  - intros H. split; [by eapply sort_by_timestamp_dicts|].
    by destruct (sort_by_timestamp_sorts _ _ H).
  - intros [Hd Hs]. by apply sort_by_timestamp_sorted_id.
Qed.


(** X5. A [null] timestamp is fatal to the metrics as soon as there are
    two events: the sort of line 115 compares the keys, [None] is not
    ordered, and the [TypeError] is caught nowhere, so
    [compute_trajectory_metadata] raises it. *)
Theorem null_timestamp_breaks_the_sort :
  (forall events,
      Forall (fun e => is_dict e = true) events ->
      (2 <= length events)%nat ->
      Exists (fun e => field e "timestamp" = Some JNull) events ->
      sort_by_timestamp events = Raise TypeError)
  /\ (forall trajectory_path listing fields,
        events_dir trajectory_path = Some listing ->
        base_state_block trajectory_path = Ok fields ->
        all_load (glob_events listing) ->
        Forall (fun e => is_dict e = true)
               (omap parsed (sorted_event_files listing)) ->
        (2 <= length (omap parsed (sorted_event_files listing)))%nat ->
        Exists (fun e => field e "timestamp" = Some JNull)
               (omap parsed (sorted_event_files listing)) ->
        compute_trajectory_metadata trajectory_path = Raise TypeError).
Proof.
  split; [apply sort_by_timestamp_null|].
  intros trajectory_path listing fields Hdir Hb Hall Hd Hlen Hex.
  unfold compute_trajectory_metadata. rewrite Hb. cbn.
  unfold events_block. rewrite Hdir.
  rewrite load_events_ok by (unfold all_load; by rewrite sorted_event_files_perm).
  cbn. by rewrite sort_by_timestamp_null.
Qed.

(** X6. On events none of whose timestamps is a list, the sort of line
    115 returns the list of events as it was exactly when every event is
    an object and the list is already in timestamp order (each timestamp
    comparable with the one before it, as two strings or two integers,
    and not smaller); the metrics of a trajectory whose events are in
    timestamp order by file name are then those of the list that
    [build_events] returns. Timestamps that are lists are left out:
    Python orders them item by item, [py_lt] does not. *)
Theorem events_in_order_are_measured_as_built :
  (forall events,
      Forall (fun e => list_key e = false) events ->
      sort_by_timestamp events = Ok events
      <-> Forall (fun e => is_dict e = true) events
          /\ Sorted timestamps_ordered events)
  /\ (forall trajectory_path m events warnings,
        compute_trajectory_metadata trajectory_path = Ok m ->
        build_events trajectory_path = Ok (events, warnings) ->
        Sorted timestamps_ordered events ->
        compute_total_conversation_time events = Ok (totalConversationTime m)
        /\ (samples ← agent_turn_times_of events; average_turn_time samples)
           = Ok (avgAgentTurnTime m)).
Proof.
  split; [intros events _; apply sort_by_timestamp_fixed|].
  intros trajectory_path m events warnings Hm Hb Hs.
  destruct (compute_trajectory_metadata_inv _ _ Hm)
    as (fields & ev & _ & Hev & _ & Havg & Htot & _).
  rewrite Havg, Htot.
  destruct (events_dir trajectory_path) as [listing|] eqn:Hdir.
  - destruct (events_block_inv _ _ _ Hdir Hev)
      as (Hall & sorted & samples & Hsort & Ht & Ha & Hv & _).
    rewrite (build_events_ok _ _ Hdir Hall) in Hb. simplify_eq.
    assert (sorted = omap parsed (sorted_event_files listing)) as ->.
    { pose proof (sort_by_timestamp_dicts _ _ Hsort) as Hd.
      rewrite sort_by_timestamp_sorted_id in Hsort by done. by simplify_eq. }
    split; [done|]. by rewrite Ha.
  - unfold build_events in Hb. unfold events_block in Hev.
    rewrite Hdir in Hb, Hev. by simplify_eq.
Qed.

End TimestampSort.

(** ** The fields read from the base state *)

Section BaseStateProperties.
Context {rt : Runtime}.

(** The metadata record, when it is returned, field by field. *)
Lemma compute_trajectory_metadata_fields trajectory_path m :
  compute_trajectory_metadata trajectory_path = Ok m ->
  exists fields,
    base_state_block trajectory_path = Ok fields
    /\ id m = name trajectory_path
    /\ created m = ctime (st_mtime trajectory_path)
    /\ title m = bs_title fields /\ model m = bs_model fields
    /\ promptTokens m = bs_prompt_tokens fields
    /\ completionTokens m = bs_completion_tokens fields
    /\ reasoningTokens m = bs_reasoning_tokens fields
    /\ cacheReadTokens m = bs_cache_read_tokens fields
    /\ py_add (promptTokens m) (completionTokens m) = Ok (totalTokens m)
    /\ exists has_prompt,
        py_gt0 (promptTokens m) = Ok has_prompt
        /\ (if has_prompt : bool
            then ratio ← py_truediv (cacheReadTokens m) (promptTokens m);
                 float_round (fmul ratio (float_of_Z 100))
            else Ok 0) = Ok (cachePct m).
Proof.
  intros H. unfold compute_trajectory_metadata in H.
  destruct (base_state_block trajectory_path) as [fields|]; [|done]. simpl in H.
  destruct (events_block trajectory_path) as [[[c avg] tot]|]; [|done]. simpl in H.
  destruct (py_add _ _) as [total|] eqn:Hadd; [|done]. simpl in H.
  destruct (py_gt0 _) as [b|] eqn:Hgt; [|done]. simpl in H.
  destruct (if b then _ else _) as [pct|] eqn:Hpct; [|done]. simpl in H.
  simplify_eq. exists fields. cbn. repeat split; try done.
  by exists b.
Qed.

Lemma read_base_state_object trajectory_id (bf : list (string * json)) :
  exists t m,
    read_base_state trajectory_id (JObj bf)
    = (stats ← py_get (JObj bf) "stats" (JObj []);
       usage ← py_get stats "usage_to_metrics" (JObj []);
       agent_usage ← py_get usage "agent" (JObj []);
       token_usage ← py_get agent_usage "accumulated_token_usage" (JObj []);
       prompt_tokens ← py_get token_usage "prompt_tokens" (JInt 0);
       completion_tokens ← py_get token_usage "completion_tokens" (JInt 0);
       reasoning_tokens ← py_get token_usage "reasoning_tokens" (JInt 0);
       cache_read_tokens ← py_get token_usage "cache_read_tokens" (JInt 0);
       Ok {| bs_title := t;
             bs_model := m;
             bs_prompt_tokens := prompt_tokens;
             bs_completion_tokens := completion_tokens;
             bs_reasoning_tokens := reasoning_tokens;
             bs_cache_read_tokens := cache_read_tokens |}).
Proof.
  destruct (title_and_model_ok trajectory_id bf) as (t & m & Htm).
  unfold read_base_state. simpl in Htm |- *. destruct (bool_decide _).
  - exists t, m. simpl. by rewrite Htm.
  - by exists (JStr trajectory_id), JNull.
Qed.

Lemma read_base_state_tokens trajectory_id bf tu :
  descend (JObj bf) token_path = Some (JObj tu) ->
  exists t m,
    read_base_state trajectory_id (JObj bf)
    = Ok {| bs_title := t;
            bs_model := m;
            bs_prompt_tokens := default (JInt 0) (assoc "prompt_tokens" tu);
            bs_completion_tokens := default (JInt 0) (assoc "completion_tokens" tu);
            bs_reasoning_tokens := default (JInt 0) (assoc "reasoning_tokens" tu);
            bs_cache_read_tokens := default (JInt 0) (assoc "cache_read_tokens" tu) |}.
Proof.
  intros H.
  destruct (read_base_state_object trajectory_id bf) as (t & m & Htm).
  exists t, m. rewrite Htm. clear Htm. revert H. unfold token_path. simpl.
  destruct (assoc "stats" bf) as [[| | | | |sf]|]; try done. simpl.
  destruct (assoc "usage_to_metrics" sf) as [[| | | | |uf]|]; try done. simpl.
  destruct (assoc "agent" uf) as [[| | | | |af]|]; try done. simpl.
  destruct (assoc "accumulated_token_usage" af) as [[| | | | |tf]|]; try done. simpl.
  by intros [= ->].
Qed.

Lemma read_base_state_broken trajectory_id base_state :
  broken_link base_state token_path = true ->
  read_base_state trajectory_id base_state = Raise AttributeError
  \/ read_base_state trajectory_id base_state = Raise TypeError.
Proof.
  intros H. destruct (is_dict base_state) eqn:Hd;
    [|by apply read_base_state_not_dict].
  destruct base_state as [| | | | |bf]; try done. left.
  destruct (read_base_state_object trajectory_id bf) as (t & m & Htm).
  rewrite Htm. clear Htm. revert H. unfold token_path. simpl.
  destruct (assoc "stats" bf) as [[| | | | |sf]|]; try done. simpl.
  destruct (assoc "usage_to_metrics" sf) as [[| | | | |uf]|]; try done. simpl.
  destruct (assoc "agent" uf) as [[| | | | |af]|]; try done. simpl.
  by destruct (assoc "accumulated_token_usage" af) as [[| | | | |tf]|].
Qed.

Lemma read_base_state_raises trajectory_id base_state e :
  read_base_state trajectory_id base_state = Raise e ->
  e = AttributeError \/ e = TypeError.
Proof.
  intros H. destruct (is_dict base_state) eqn:Hd.
  - destruct base_state as [| | | | |bf]; try done. left.
    destruct (read_base_state_object trajectory_id bf) as (t & m & Htm).
    rewrite Htm in H. clear Htm. simpl in H.
    destruct (default (JObj []) (assoc "stats" bf)) as [| | | | |sf];
      simpl in H; try congruence.
    destruct (default (JObj []) (assoc "usage_to_metrics" sf)) as [| | | | |uf];
      simpl in H; try congruence.
    destruct (default (JObj []) (assoc "agent" uf)) as [| | | | |af];
      simpl in H; try congruence.
    destruct (default (JObj []) (assoc "accumulated_token_usage" af))
      as [| | | | |tf]; simpl in H; congruence.
  - destruct (read_base_state_not_dict trajectory_id _ Hd) as [E|E];
      rewrite E in H; simplify_eq; auto.
Qed.

Lemma base_state_block_loaded trajectory_path f base_state :
  base_state_path trajectory_path = Some f -> contents f = Ok base_state ->
  base_state_block trajectory_path
  = read_base_state (name trajectory_path) base_state.
Proof.
  intros Hf Hc. unfold base_state_block. rewrite Hf, Hc. simpl.
  destruct (read_base_state _ _) as [fields|e] eqn:Hr; [done|].
  by destruct (read_base_state_raises _ _ _ Hr) as [-> | ->].
Qed.

(** X7. The four token counters are the values found at
    stats.usage_to_metrics.agent.accumulated_token_usage, each 0 when its
    key is absent; [totalTokens] is the sum of the prompt and completion
    counters (the reasoning counter is not added), and [cachePct] is 0
    unless the prompt counter is positive, so that no division by zero
    occurs. *)
Theorem token_counters_are_reported trajectory_path m :
  compute_trajectory_metadata trajectory_path = Ok m ->
  (forall f bf tu,
      base_state_path trajectory_path = Some f -> contents f = Ok (JObj bf) ->
      descend (JObj bf) token_path = Some (JObj tu) ->
      promptTokens m = default (JInt 0) (assoc "prompt_tokens" tu)
      /\ completionTokens m = default (JInt 0) (assoc "completion_tokens" tu)
      /\ reasoningTokens m = default (JInt 0) (assoc "reasoning_tokens" tu)
      /\ cacheReadTokens m = default (JInt 0) (assoc "cache_read_tokens" tu))
  /\ (forall p c,
        promptTokens m = JInt p -> completionTokens m = JInt c ->
        totalTokens m = JInt (p + c))
  /\ (forall p, promptTokens m = JInt p -> p <= 0 -> cachePct m = 0)
  /\ (forall p k,
        promptTokens m = JInt p -> cacheReadTokens m = JInt k -> 0 < p ->
        exists ratio,
          int_truediv k p = Ok ratio
          /\ float_round (fmul ratio (float_of_Z 100)) = Ok (cachePct m)).
Proof.
  intros Hm.
  destruct (compute_trajectory_metadata_fields _ _ Hm)
    as (fields & Hb & _ & _ & _ & _ & Hp & Hc & Hr & Hk & Hadd & b & Hgt & Hpct).
  split; [|split; [|split]].
  - intros f bf tu Hf Hcont Hd.
    rewrite (base_state_block_loaded _ _ _ Hf Hcont) in Hb.
    destruct (read_base_state_tokens (name trajectory_path) _ _ Hd)
      as (t & mo & Hread).
    rewrite Hread in Hb. simplify_eq. by rewrite Hp, Hc, Hr, Hk.
  - intros p c Ep Ec. rewrite Ep, Ec in Hadd. cbn in Hadd. congruence.
  - intros p Ep Hle. rewrite Ep in Hgt. cbn in Hgt. simplify_eq.
    destruct (0 <? p) eqn:E; [lia|]. congruence.
  - intros p k Ep Ek Hlt. rewrite Ep in Hgt. cbn in Hgt. simplify_eq.
    destruct (0 <? p) eqn:E; [|lia]. rewrite Ep, Ek in Hpct. cbn in Hpct.
    destruct (int_truediv k p) as [ratio|]; [|done]. by exists ratio.
Qed.

(** X8. A base state that parses is not tolerated like a file that does
    not: when it is not an object, or when a key of the token path is
    present with a value that is not an object, [.get] raises an
    exception that the handler of line 96 does not catch, and
    [compute_trajectory_metadata] raises it. *)
Theorem malformed_base_state_is_fatal trajectory_path f base_state :
  base_state_path trajectory_path = Some f -> contents f = Ok base_state ->
  broken_link base_state token_path = true ->
  compute_trajectory_metadata trajectory_path = Raise AttributeError
  \/ compute_trajectory_metadata trajectory_path = Raise TypeError.
Proof.
  intros Hf Hc Hbroken. unfold compute_trajectory_metadata.
  rewrite (base_state_block_loaded _ _ _ Hf Hc).
  destruct (read_base_state_broken (name trajectory_path) _ Hbroken) as [E|E];
    rewrite E; auto.
Qed.

Lemma read_base_state_model trajectory_id bf fields :
  read_base_state trajectory_id (JObj bf) = Ok fields ->
  bs_model fields = agent_model bf.
Proof.
  intros H. unfold read_base_state in H. unfold agent_model. simpl in H.
  assert (Hchain : forall t mo,
    (stats ← py_get (JObj bf) "stats" (JObj []);
     usage ← py_get stats "usage_to_metrics" (JObj []);
     agent_usage ← py_get usage "agent" (JObj []);
     token_usage ← py_get agent_usage "accumulated_token_usage" (JObj []);
     prompt_tokens ← py_get token_usage "prompt_tokens" (JInt 0);
     completion_tokens ← py_get token_usage "completion_tokens" (JInt 0);
     reasoning_tokens ← py_get token_usage "reasoning_tokens" (JInt 0);
     cache_read_tokens ← py_get token_usage "cache_read_tokens" (JInt 0);
     Ok {| bs_title := t;
           bs_model := mo;
           bs_prompt_tokens := prompt_tokens;
           bs_completion_tokens := completion_tokens;
           bs_reasoning_tokens := reasoning_tokens;
           bs_cache_read_tokens := cache_read_tokens |}) = Ok fields ->
    bs_model fields = mo).
  { intros t mo Hc. simpl in Hc.
    destruct (default (JObj []) (assoc "stats" bf)) as [| | | | |sf];
      simpl in Hc; try done.
    destruct (default (JObj []) (assoc "usage_to_metrics" sf)) as [| | | | |uf];
      simpl in Hc; try done.
    destruct (default (JObj []) (assoc "agent" uf)) as [| | | | |af];
      simpl in Hc; try done.
    destruct (default (JObj []) (assoc "accumulated_token_usage" af))
      as [| | | | |tf]; simpl in Hc; try done.
    by simplify_eq. }
  destruct (assoc "agent" bf) as [agent|]; simpl in H |- *.
  - destruct agent as [| | | | |af]; simpl in H |- *;
      try exact (Hchain _ _ H).
    destruct (default (JObj []) (assoc "llm" af)) as [| | | | |lf]; simpl in H |- *;
      exact (Hchain _ _ H).
  - exact (Hchain _ _ H).
Qed.

Lemma build_trajectory_detail_model trajectory_path f bf d :
  base_state_path trajectory_path = Some f -> contents f = Ok (JObj bf) ->
  build_trajectory_detail trajectory_path = Ok d ->
  default JNull (detail_model d) = agent_model bf
  /\ detail_baseState d = Some (JObj bf).
Proof.
  intros Hf Hc. unfold build_trajectory_detail, agent_model. rewrite Hf, Hc. simpl.
  destruct (default (JObj []) (assoc "agent" bf)) as [| | | | |af]; simpl;
    try (intros ?; by simplify_eq).
  destruct (default (JObj []) (assoc "llm" af)) as [| | | | |lf]; simpl;
    intros ?; by simplify_eq.
Qed.

(** X9. The detail of a trajectory agrees with its metadata: when
    [compute_trajectory_metadata] returns, [build_trajectory_detail]
    returns as well, with the same id, creation time and event count,
    with the base state the file holds when it loads, and with the same
    model, an absent [model] key standing for [None]. *)
Theorem detail_agrees_with_metadata trajectory_path m :
  compute_trajectory_metadata trajectory_path = Ok m ->
  exists d,
    build_trajectory_detail trajectory_path = Ok d
    /\ detail_id d = id m
    /\ detail_created d = created m
    /\ detail_eventCount d = eventCount m
    /\ default JNull (detail_model d) = model m
    /\ detail_baseState d = loaded_base_state trajectory_path.
Proof.
  intros Hm.
  destruct (compute_trajectory_metadata_fields _ _ Hm)
    as (fields & Hb & Hid & Hcr & _ & Hmo & _).
  destruct (compute_trajectory_metadata_inv _ _ Hm)
    as (fields' & ev & Hb' & Hev & Hcount & _).
  pose proof (events_block_count _ _ Hev) as Hlisted.
  destruct (build_trajectory_detail_ok _ _ Hb) as (d & Hd & Hdc).
  exists d. split; [done|].
  rewrite Hid, Hcr, Hcount, Hlisted, Hmo. unfold loaded_base_state.
  assert (Hfields : detail_id d = name trajectory_path
                    /\ detail_created d = ctime (st_mtime trajectory_path)).
  { unfold build_trajectory_detail in Hd.
    destruct (match base_state_path trajectory_path with
              | Some _ => _ | None => _ end) as [[base mo]|]; [|done].
    simpl in Hd. by simplify_eq. }
  destruct Hfields as [Hdid Hdcr].
  split; [done|]. split; [done|]. split; [done|].
  destruct (base_state_path trajectory_path) as [f|] eqn:Hf.
  - destruct (contents f) as [base_state|e] eqn:Hc.
    + rewrite (base_state_block_loaded _ _ _ Hf Hc) in Hb.
      destruct (is_dict base_state) eqn:Hdict.
      * destruct base_state as [| | | | |bf]; try done.
        destruct (build_trajectory_detail_model _ _ _ _ Hf Hc Hd) as [Hmodel Hbase].
        simpl. rewrite Hc. simpl.
        by rewrite Hmodel, Hbase, (read_base_state_model _ _ _ Hb).
      * destruct (read_base_state_not_dict (name trajectory_path) _ Hdict) as [E|E];
          by rewrite E in Hb.
    + unfold base_state_block in Hb. unfold build_trajectory_detail in Hd.
      rewrite Hf in Hb, Hd. rewrite Hc in Hb, Hd. simpl in *. rewrite Hc. simpl.
      destruct e; simpl in *; by simplify_eq.
  - unfold base_state_block in Hb. unfold build_trajectory_detail in Hd.
    rewrite Hf in Hb, Hd. simpl in *. by simplify_eq.
Qed.

(** X10. [build_trajectory_detail] raises in two cases only: reading
    the base-state file raises an exception that is neither a
    [JSONDecodeError] nor an [OSError] of any kind (the handler of line
    195 catches those, subclasses included, and the detail is returned
    without base state), or the file holds a value that is not an
    object, on which [.get] raises [AttributeError]. Listing the events
    directory is taken to succeed. *)
Theorem build_trajectory_detail_raises_iff trajectory_path e :
  build_trajectory_detail trajectory_path = Raise e
  <-> exists f,
      base_state_path trajectory_path = Some f
      /\ ((contents f = Raise e /\ e <> JSONDecodeError /\ is_os_error e = false)
          \/ (exists v, contents f = Ok v /\ is_dict v = false /\ e = AttributeError)).
Proof.
  unfold build_trajectory_detail.
  destruct (base_state_path trajectory_path) as [f|]; simpl;
    [|split; [done|by intros (f & ? & _)]].
  destruct (contents f) as [v|e'] eqn:Hc; simpl.
  - destruct (is_dict v) eqn:Hd.
    + destruct v as [| | | | |bf]; try done. simpl. split.
      * destruct (default (JObj []) (assoc "agent" bf)) as [| | | | |af]; simpl;
          try done.
        by destruct (default (JObj []) (assoc "llm" af)) as [| | | | |lf].
      * intros (f' & [= <-] & [(Hr & _)|(v & Hv & Hnd & _)]); [congruence|].
        rewrite Hc in Hv. injection Hv as <-. done.
    + assert (Hraise : (agent ← py_get v "agent" (JObj []);
                        if is_dict agent then
                          llm ← py_get agent "llm" (JObj []);
                          if is_dict llm then
                            model ← py_get llm "model" JNull;
                            Ok (Some v, Some model)
                          else Ok (Some v, None)
                        else Ok (Some v, None)) = Raise AttributeError)
        by by destruct v.
      rewrite Hraise. simpl. split.
      * intros [= <-]. exists f. split; [done|]. right. by exists v.
      * intros (f' & [= <-] & [(Hr & _)|(v' & Hv & _ & ->)]); [congruence|done].
  - split.
    + intros H. exists f. split; [done|left].
      destruct e'; simpl in H; simplify_eq; by repeat split.
    + intros (f' & [= <-] & [(Hr & Hj & Hi)|(v & Hv & _)]); [|congruence].
      rewrite Hc in Hr. injection Hr as ->. by destruct e.
Qed.

End BaseStateProperties.

(** ** What a run does, and what it leaves undone *)

Lemma allowed_write_mono (ids ids' : gset string) e :
  ids ⊆ ids' -> allowed_write ids e -> allowed_write ids' e.
Proof.
  intros Hsub. destruct e as [path c| |]; simpl; [|done|done].
  intros [H|(n & Hn & H)]; [by left|right]. exists n. split; [set_solver|done].
Qed.

Lemma filter_warnings (P : effect -> bool) ws :
  (forall n, P (Warning n) = false) ->
  filter (fun e => P e = true) (map Warning ws) = [].
Proof.
  intros HP. induction ws as [|n ws IH]; [done|]. simpl.
  rewrite filter_cons_False by (by rewrite HP). exact IH.
Qed.

Lemma is_index_write_pair a b c : is_index_write (Write [a; b] c) = false.
Proof. simpl. by apply bool_decide_eq_false_2. Qed.

Lemma filter_rmtree_map (stale : list (string * out_node)) :
  filter (fun e => is_rmtree e = true) (map (fun x => Rmtree (fst x)) stale)
  = map (fun x => Rmtree (fst x)) stale.
Proof.
  induction stale as [|x stale IH]; [done|]. simpl.
  rewrite filter_cons_True by done. by rewrite IH.
Qed.

Lemma filter_not_rmtree_map (P : effect -> bool) (stale : list (string * out_node)) :
  (forall n, P (Rmtree n) = false) ->
  filter (fun e => P e = true) (map (fun x => Rmtree (fst x)) stale) = [].
Proof.
  intros HP. induction stale as [|x stale IH]; [done|]. simpl.
  rewrite filter_cons_False by (by rewrite HP). exact IH.
Qed.

Section RunEffects.
Context {rt : Runtime}.
Variable clock : list string -> Z.

(** The effects of one iteration of the main loop that ends normally. *)
Lemma process_entry_effects st entry w st' w' :
  process_entry clock st entry w = (Ok st', w') ->
  exists added,
    trace w' = trace w ++ added
    /\ Forall (allowed_write {[name entry]}) added
    /\ Forall not_index_write added
    /\ filter (fun e => is_rmtree e = true) added = []
    /\ filter (fun e => is_index_write e = true) added = []
    /\ (length (filter (fun e => is_trajectory_write e = true) added)
        + 2 * rebuilt_count st = 2 * rebuilt_count st')%nat
    /\ (rebuilt_count st' + skipped_count st'
        = rebuilt_count st + skipped_count st
          + (if conforming entry then 1 else 0))%nat.
Proof.
  intros H.
  destruct (process_entry_inv _ _ _ _ _ _ H)
    as [(Hc & -> & ->)
       |(Hc & m & _ & [(_ & -> & ->)|(_ & d & evs & ws & _ & _ & -> & ->)])];
    rewrite Hc.
  - exists []. rewrite app_nil_r. repeat split; try done; simpl; lia.
  - exists []. rewrite app_nil_r. repeat split; try done; simpl; lia.
  - exists ([Write [name entry; "trajectory.json"] (TrajectoryJson d)]
              ++ map Warning ws
              ++ [Write [name entry; "events.json"] (EventsJson evs)]).
    split; [done|]. split; [|split; [|split; [|split; [|split]]]].
    + apply Forall_app. split; [|apply Forall_app; split].
      * constructor; [|done]. right. exists (name entry). split; [set_solver|by left].
      * apply Forall_forall. intros e He.
        apply list_elem_of_fmap in He as (n & -> & _). done.
      * constructor; [|done]. right. exists (name entry). split; [set_solver|by right].
    + apply Forall_app. split; [|apply Forall_app; split].
      * by constructor.
      * apply Forall_forall. intros e He.
        apply list_elem_of_fmap in He as (n & -> & _). done.
      * by constructor.
    + rewrite !filter_app, filter_warnings by done. reflexivity.
    + rewrite !filter_app, filter_warnings by done.
      rewrite !filter_cons_False by (by rewrite is_index_write_pair). reflexivity.
    + rewrite !filter_app, filter_warnings by done. simpl. lia.
    + simpl. lia.
Qed.

Lemma loop_effects entries : forall st w st' w',
  for_each_M entries (process_entry clock) st w = (Ok st', w') ->
  exists added,
    trace w' = trace w ++ added
    /\ Forall (allowed_write (names_of (filter (fun e => conforming e = true) entries)))
              added
    /\ Forall not_index_write added
    /\ filter (fun e => is_rmtree e = true) added = []
    /\ filter (fun e => is_index_write e = true) added = []
    /\ (length (filter (fun e => is_trajectory_write e = true) added)
        + 2 * rebuilt_count st = 2 * rebuilt_count st')%nat
    /\ (rebuilt_count st' + skipped_count st'
        = rebuilt_count st + skipped_count st
          + length (filter (fun e => conforming e = true) entries))%nat.
Proof.
  induction entries as [|e entries IH]; intros st w st' w' H; simpl in H.
  - unfold mret, M_ret in H. simplify_eq. exists []. rewrite app_nil_r.
    repeat split; try done; simpl; lia.
  - unfold mbind, M_bind in H.
    destruct (process_entry clock st e w) as [[st1|x] w1] eqn:Hstep; [|done].
    destruct (process_entry_effects _ _ _ _ _ Hstep)
      as (a1 & Ht1 & Hw1 & Hi1 & Hr1 & Hx1 & Hc1 & Hn1).
    destruct (IH _ _ _ _ H) as (a2 & Ht2 & Hw2 & Hi2 & Hr2 & Hx2 & Hc2 & Hn2).
    exists (a1 ++ a2).
    split; [by rewrite Ht2, Ht1, <- app_assoc|].
    split; [|split; [|split; [|split; [|split]]]].
    + apply Forall_app. split.
      * destruct (conforming e) eqn:Hc.
        -- eapply Forall_impl; [exact Hw1|]. intros x. apply allowed_write_mono.
           rewrite filter_cons_True by done. unfold names_of. simpl. set_solver.
        -- rewrite (process_entry_ignores _ _ _ _ _ _ Hstep Hc) in Ht1.
           assert (a1 = []) as ->; [|done].
           apply (f_equal length) in Ht1. rewrite length_app in Ht1.
           destruct a1; [done|simpl in Ht1; lia].
      * eapply Forall_impl; [exact Hw2|]. intros x. apply allowed_write_mono.
        rewrite filter_cons. destruct (decide _); [|done].
        unfold names_of. simpl. set_solver.
    + by apply Forall_app.
    + by rewrite filter_app, Hr1, Hr2.
    + by rewrite filter_app, Hx1, Hx2.
    + rewrite filter_app, length_app. lia.
    + rewrite filter_cons. destruct (conforming e) eqn:Hc.
      * rewrite decide_True by done. simpl. lia.
      * rewrite decide_False by done. lia.
Qed.

(** The trace of a run that completes: the effects of the main loop,
    the removals, the index. *)
Lemma run_trace conversations_dir w s w' :
  build_static_site clock conversations_dir w = (Ok s, w') ->
  exists st w1 loop_added,
    main_loop clock conversations_dir w = (Ok st, w1)
    /\ for_each_M (processing_order (entries_of conversations_dir))
                  (process_entry clock) initial_state w = (Ok st, w1)
    /\ index s = trajectories st /\ observed_ids s = source_ids st
    /\ rebuilt s = rebuilt_count st /\ skipped s = skipped_count st
    /\ removed s = length (stale_outputs (source_ids st) (map_to_list (data_dir w1)))
    /\ trace w1 = trace w ++ loop_added
    /\ trace w'
       = trace w
         ++ (loop_added
             ++ map (fun x => Rmtree (fst x))
                    (stale_outputs (source_ids st) (map_to_list (data_dir w1)))
             ++ [Write ["trajectories.json"] (TrajectoriesJson (index s))]).
Proof.
  intros H. destruct (build_static_site_inv _ _ _ _ _ H) as (st & w1 & Hloop & -> & ->).
  pose proof (main_loop_entries _ _ _ _ _ Hloop) as Hfor.
  destruct (loop_effects _ _ _ _ _ Hfor) as (added & Ht & _).
  exists st, w1, added. repeat split; try done.
  simpl. rewrite Ht. by rewrite <- !app_assoc.
Qed.

End RunEffects.

Section RunSummary.
Context {rt : Runtime}.

(** X11. The summary that [build_static_site] prints counts what the
    run did: every trajectory of the index was either rebuilt or skipped,
    each rebuilt trajectory accounts for two file writes
    ([trajectory.json] and [events.json]), each removal for one
    [rmtree], and the index is written once, as the last effect. *)
Theorem summary_counts_what_was_done clock conversations_dir w s w' :
  build_static_site clock conversations_dir w = (Ok s, w') ->
  (rebuilt s + skipped s = length (index s))%nat
  /\ length (index s) = length (source_trajectories conversations_dir)
  /\ exists added,
      trace w' = trace w ++ added
      /\ length (filter (fun e => is_trajectory_write e = true) added)
         = (2 * rebuilt s)%nat
      /\ length (filter (fun e => is_rmtree e = true) added) = removed s
      /\ filter (fun e => is_index_write e = true) added
         = [Write ["trajectories.json"] (TrajectoriesJson (index s))]
      /\ last added = Some (Write ["trajectories.json"] (TrajectoriesJson (index s))).
Proof.
  intros H.
  destruct (run_trace _ _ _ _ _ H)
    as (st & w1 & added & Hloop & Hfor & Hi & Hids & Hr & Hs & Hrm & Ht1 & Ht).
  destruct (loop_effects _ _ _ _ _ _ Hfor)
    as (added' & Ht1' & _ & _ & Hnr & Hnx & Hcount & Hsum).
  assert (added' = added) as ->.
  { rewrite Ht1 in Ht1'. by apply app_inv_head in Ht1'. }
  destruct (main_loop_ids _ _ _ _ _ Hloop) as (ms & Hms & Htr & _).
  assert (Hlen : length (index s) = length (source_trajectories conversations_dir)).
  { rewrite Hi, Htr. symmetry. by eapply Forall2_length. }
  split; [|split; [done|]].
  - rewrite Hr, Hs, Hlen. simpl in Hsum. rewrite Hsum.
    unfold source_trajectories, entries_of.
    destruct conversations_dir as [entries|]; [done|]. simpl. done.
  - eexists. split; [exact Ht|]. split; [|split; [|split]].
    + rewrite !filter_app, length_app, length_app.
      rewrite filter_not_rmtree_map by done. simpl.
      rewrite Hr. simpl in Hcount. lia.
    + rewrite !filter_app, Hnr, filter_rmtree_map.
      rewrite filter_cons_False by done.
      rewrite filter_nil, app_nil_l, app_nil_r. by rewrite length_map, Hrm.
    + rewrite !filter_app, Hnx, filter_not_rmtree_map by done. reflexivity.
    + by rewrite !app_assoc, last_snoc.
Qed.

(** X12. A run that completes writes nowhere but into the outputs of
    the trajectories it observed and into [trajectories.json]. *)
Theorem run_writes_only_its_outputs clock conversations_dir w s w' :
  build_static_site clock conversations_dir w = (Ok s, w') ->
  exists added,
    trace w' = trace w ++ added
    /\ Forall (allowed_write (observed_ids s)) added.
Proof.
  intros H.
  destruct (run_trace _ _ _ _ _ H)
    as (st & w1 & added & Hloop & Hfor & Hi & Hids & Hr & Hs & Hrm & Ht1 & Ht).
  destruct (loop_effects _ _ _ _ _ _ Hfor) as (added' & Ht1' & Hw & _).
  assert (added' = added) as ->.
  { rewrite Ht1 in Ht1'. by apply app_inv_head in Ht1'. }
  destruct (main_loop_ids _ _ _ _ _ Hloop) as (ms & _ & _ & Hsrc).
  eexists. split; [exact Ht|].
  apply Forall_app. split; [|apply Forall_app; split].
  - eapply Forall_impl; [exact Hw|]. intros e. apply allowed_write_mono.
    rewrite Hids, Hsrc. unfold source_trajectories, entries_of.
    destruct conversations_dir as [entries|]; [done|]. simpl. set_solver.
  - apply Forall_forall. intros e He.
    apply list_elem_of_fmap in He as (x & -> & _). done.
  - constructor; [by left|done].
Qed.

End RunSummary.

(** ** The order of the index *)

Lemma StronglySorted_filter_keeps {A} (R : A -> A -> Prop) (P : A -> Prop)
    `{forall x, Decision (P x)} (l : list A) :
  StronglySorted R l -> StronglySorted R (filter P l).
Proof.
  induction 1 as [|a l Hs IH Ha]; [constructor|].
  rewrite filter_cons. destruct (decide (P a)); [|done].
  constructor; [done|].
  apply Forall_forall. intros x Hx. apply list_elem_of_filter in Hx as [_ Hx].
  by apply (proj1 (Forall_forall _ _) Ha).
Qed.

Lemma filter_swap {A} (P Q : A -> Prop)
    `{forall x, Decision (P x)} `{forall x, Decision (Q x)} (l : list A) :
  filter P (filter Q l) = filter Q (filter P l).
Proof.
  induction l as [|x l IH]; [done|].
  rewrite !(filter_cons _ x).
  destruct (decide (Q x)), (decide (P x)); rewrite ?filter_cons;
    repeat match goal with
           | |- context [decide ?X] => destruct (decide X); try done
           end; by rewrite IH.
Qed.

Lemma processing_order_sorted entries :
  Sorted most_recent_first (processing_order entries).
Proof.
  apply sort_by_sorted; unfold most_recent_first; intros a b H; lia.
Qed.

(** The sort is stable: entries modified at the same time keep the
    order of the listing. *)
Lemma insert_by_mtime_stable t x (l : list source_path) :
  filter (fun e => st_mtime e = t)
         (insert_by (fun a b => st_mtime b <? st_mtime a) x l)
  = filter (fun e => st_mtime e = t) (x :: l).
Proof.
  induction l as [|y l IH]; [done|]. cbn [insert_by].
  destruct (st_mtime x <? st_mtime y) eqn:Hlt; [|done].
  rewrite filter_cons, IH, !filter_cons.
  destruct (decide (st_mtime y = t)), (decide (st_mtime x = t)); try done. lia.
Qed.

Lemma processing_order_stable t entries :
  filter (fun e => st_mtime e = t) (processing_order entries)
  = filter (fun e => st_mtime e = t) entries.
Proof.
  unfold processing_order, sort_by.
  induction entries as [|x entries IH]; [done|]. cbn [foldr].
  rewrite insert_by_mtime_stable, !filter_cons. by rewrite IH.
Qed.

Section IndexOrder.
Context {rt : Runtime}.

Lemma index_fields (l : list source_path) ms :
  Forall2 (fun e m => compute_trajectory_metadata e = Ok m) l ms ->
  map id ms = map name l
  /\ map created ms = map (fun e => ctime (st_mtime e)) l.
Proof.
  induction 1 as [|e m l ms Hm _ [IH1 IH2]]; [done|].
  destruct (compute_trajectory_metadata_fields _ _ Hm) as (_ & _ & Hid & Hcr & _).
  simpl. by rewrite Hid, Hcr, IH1, IH2.
Qed.

(** X13. [trajectories.json] lists the source trajectories by
    modification time of their directory, the most recent first; those
    modified at the same time come in the order in which the system
    lists them, and each entry carries the name and the creation time of
    its directory. *)
Theorem index_lists_most_recent_first clock conversations_dir w s w' :
  build_static_site clock conversations_dir w = (Ok s, w') ->
  map id (index s) = map name (source_trajectories conversations_dir)
  /\ map created (index s)
     = map (fun e => ctime (st_mtime e)) (source_trajectories conversations_dir)
  /\ Sorted most_recent_first (source_trajectories conversations_dir)
  /\ source_trajectories conversations_dir
     ≡ₚ filter (fun e => conforming e = true) (entries_of conversations_dir)
  /\ forall t,
       filter (fun e => st_mtime e = t) (source_trajectories conversations_dir)
       = filter (fun e => st_mtime e = t)
                (filter (fun e => conforming e = true)
                        (entries_of conversations_dir)).
Proof.
  intros H. pose proof (index_spec _ _ _ _ _ H) as Hindex.
  destruct (index_fields _ _ Hindex) as [Hid Hcr].
  split; [done|]. split; [done|].
  unfold source_trajectories, entries_of.
  destruct conversations_dir as [entries|]; simpl;
    [|by repeat split; try constructor].
  split; [|split].
  - apply StronglySorted_Sorted, StronglySorted_filter_keeps.
    apply Sorted_StronglySorted; [|apply processing_order_sorted].
    unfold most_recent_first. intros a b c Hab Hbc. lia.
  - by rewrite processing_order_perm.
  - intros t.
    rewrite (filter_swap (fun e => st_mtime e = t) (fun e => conforming e = true)).
    rewrite processing_order_stable.
    apply filter_swap.
Qed.

End IndexOrder.

(** ** The index and the output directories *)

Section IndexAndOutputs.
Context {rt : Runtime}.
Variable clock : list string -> Z.

Lemma events_output_ext w w' n :
  data_dir w' !! n = data_dir w !! n -> events_output w' n = events_output w n.
Proof. unfold events_output. by intros ->. Qed.

Lemma process_entry_keeps_events st entry w st' w' n f :
  process_entry clock st entry w = (Ok st', w') ->
  events_output w n = Some f ->
  exists f', events_output w' n = Some f'.
Proof.
  intros H Hf. destruct (decide (n = name entry)) as [->|Hn].
  - destruct (process_entry_inv _ _ _ _ _ _ H)
      as [(_ & _ & ->)
         |(_ & m & _ & [(_ & _ & ->)|(_ & d & evs & ws & _ & _ & _ & ->)])];
      try by exists f.
    destruct (rebuilt_world_events clock w entry d evs ws) as [He _].
    by eexists.
  - exists f. rewrite <- Hf. apply events_output_ext.
    by eapply process_entry_other.
Qed.

Lemma process_entry_makes_events st entry w st' w' :
  process_entry clock st entry w = (Ok st', w') ->
  conforming entry = true ->
  exists f, events_output w' (name entry) = Some f.
Proof.
  intros H Hc.
  destruct (process_entry_inv _ _ _ _ _ _ H)
    as [(Hc' & _)
       |(_ & m & _ & [(Hf & _ & ->)|(_ & d & evs & ws & _ & _ & _ & ->)])].
  - congruence.
  - destruct Hf as (f & Hf & _). by exists f.
  - destruct (rebuilt_world_events clock w entry d evs ws) as [He _].
    by eexists.
Qed.

Lemma loop_keeps_events entries : forall st w st' w' n f,
  for_each_M entries (process_entry clock) st w = (Ok st', w') ->
  events_output w n = Some f ->
  exists f', events_output w' n = Some f'.
Proof.
  induction entries as [|e entries IH]; intros st w st' w' n f H Hf; simpl in H.
  - unfold mret, M_ret in H. simplify_eq. by exists f.
  - unfold mbind, M_bind in H.
    destruct (process_entry clock st e w) as [[st1|x] w1] eqn:Hstep; [|done].
    destruct (process_entry_keeps_events _ _ _ _ _ _ _ Hstep Hf) as [f1 Hf1].
    by eapply IH.
Qed.

Lemma loop_makes_events entries : forall st w st' w' e,
  for_each_M entries (process_entry clock) st w = (Ok st', w') ->
  e ∈ entries -> conforming e = true ->
  exists f, events_output w' (name e) = Some f.
Proof.
  induction entries as [|a entries IH]; intros st w st' w' e H He Hc; simpl in H.
  - by apply elem_of_nil in He.
  - unfold mbind, M_bind in H.
    destruct (process_entry clock st a w) as [[st1|x] w1] eqn:Hstep; [|done].
    apply elem_of_cons in He as [->|He].
    + destruct (process_entry_makes_events _ _ _ _ _ Hstep Hc) as [f Hf].
      by eapply loop_keeps_events.
    + by eapply IH.
Qed.

End IndexAndOutputs.

Section IndexAndOutputsRun.
Context {rt : Runtime}.

Lemma index_ids (l : list source_path) ms n :
  Forall2 (fun e m => compute_trajectory_metadata e = Ok m) l ms ->
  (exists m, m ∈ ms /\ id m = n) <-> n ∈ names_of l.
Proof.
  intros H. destruct (index_fields _ _ H) as [Hid _].
  unfold names_of. rewrite elem_of_list_to_set, <- Hid.
  rewrite list_elem_of_fmap. split.
  - intros (m & Hm & <-). by exists m.
  - intros (m & -> & Hm). by exists m.
Qed.

(** X14. After a run that completes, the index and the output agree:
    the directories of the output are those of the trajectories that
    [trajectories.json] lists, and each of them holds an [events.json]. *)
Theorem index_and_output_directories_agree clock conversations_dir w s w' :
  build_static_site clock conversations_dir w = (Ok s, w') ->
  (forall n, is_output_directory w' n <-> exists m, m ∈ index s /\ id m = n)
  /\ (forall m, m ∈ index s -> exists f, events_output w' (id m) = Some f).
Proof.
  intros H. pose proof (index_spec _ _ _ _ _ H) as Hindex.
  destruct (build_static_site_inv _ _ _ _ _ H) as (st & w1 & Hloop & -> & ->).
  simpl in *.
  destruct (main_loop_ids _ _ _ _ _ Hloop) as (ms & _ & _ & Hids).
  pose proof (main_loop_entries _ _ _ _ _ Hloop) as Hfor.
  pose proof (source_id_not_index _ _ _ _ _ Hloop) as Hnot.
  assert (Hin : forall n, n ∈ source_ids st ->
                          data_dir (index_written clock (trajectories st)
                                      (pruned (source_ids st) w1)) !! n
                          = data_dir w1 !! n).
  { intros n Hn. rewrite index_written_other by (intros ->; done).
    by apply pruned_keeps. }
  assert (Hsrc : forall n, n ∈ source_ids st ->
                           exists e, e ∈ processing_order (entries_of conversations_dir)
                                     /\ name e = n /\ conforming e = true).
  { intros n Hn.
    apply (source_ids_conforming _ _ _ _ _ n Hloop) in Hn as (e & He & <- & Hc).
    exists e. split; [by apply processing_order_elem|done]. }
  split.
  - intros n. rewrite (index_ids _ _ n Hindex), <- Hids. split.
    + intros (files & Hfiles).
      apply index_written_dirs in Hfiles. by apply pruned_dirs in Hfiles.
    + intros Hn. unfold is_output_directory. rewrite (Hin n Hn).
      destruct (Hsrc n Hn) as (e & He & <- & Hc).
      by eapply loop_makes_dirs.
  - intros m Hm.
    assert (Hn : id m ∈ source_ids st).
    { rewrite Hids. apply (index_ids _ _ (id m) Hindex). by exists m. }
    destruct (Hsrc _ Hn) as (e & He & Hname & Hc).
    destruct (loop_makes_events _ _ _ _ _ _ e Hfor He Hc) as [f Hf].
    exists f. rewrite <- Hf, Hname. apply events_output_ext. by apply Hin.
Qed.

(** X15. When the conversations directory does not exist, the run
    still completes: it processes nothing, removes every directory of the
    output, leaves the plain files, and writes an empty index. *)
Theorem missing_conversations_directory_empties_the_output clock w :
  exists s w',
    build_static_site clock None w = (Ok s, w')
    /\ index s = [] /\ observed_ids s = ∅
    /\ rebuilt s = 0%nat /\ skipped s = 0%nat
    /\ (forall n, n <> "trajectories.json" ->
                  data_dir w' !! n
                  = match data_dir w !! n with
                    | Some (OutDir _) => None
                    | other => other
                    end)
    /\ data_dir w' !! "trajectories.json"
       = Some (OutFile {| written := TrajectoriesJson [];
                          out_mtime := clock ["trajectories.json"] |})
    /\ (forall n, Rmtree n ∈ drop (length (trace w)) (trace w')
                  <-> is_output_directory w n).
Proof.
  exists {| index := []; observed_ids := ∅; rebuilt := 0; skipped := 0;
            removed := length (stale_outputs ∅ (map_to_list (data_dir w))) |},
         (index_written clock [] (pruned ∅ w)).
  split; [exact (build_static_site_run clock None w initial_state w eq_refl)|].
  do 4 (split; [done|]).
  assert (Htrace : drop (length (trace w)) (trace (index_written clock [] (pruned ∅ w)))
                   = map (fun x => Rmtree (fst x))
                         (stale_outputs ∅ (map_to_list (data_dir w)))
                     ++ [Write ["trajectories.json"] (TrajectoriesJson [])]).
  { unfold index_written, pruned. cbn [trace].
    by rewrite <- app_assoc, drop_app_length. }
  split; [|split].
  - intros n Hn. rewrite index_written_other by done. rewrite pruned_lookup.
    destruct (data_dir w !! n) as [[f|files]|]; try done.
  - unfold index_written. cbn [data_dir]. by rewrite lookup_insert_eq.
  - intros n. rewrite Htrace. split.
    + intros Hn. apply elem_of_app in Hn as [Hn|Hn].
      * apply pruned_trace in Hn as [Hd _]. done.
      * apply list_elem_of_singleton in Hn. done.
    + intros Hn. apply elem_of_app. left. apply pruned_trace.
      split; [done|set_solver].
Qed.

End IndexAndOutputsRun.

(** ** Runs that end with an exception *)

Lemma for_each_M_app_raise {A S} (body : S -> A -> M S) (before : list A) item after :
  forall s w s1 w1 x w',
    for_each_M before body s w = (Ok s1, w1) ->
    body s1 item w1 = (Raise x, w') ->
    for_each_M (before ++ item :: after) body s w = (Raise x, w').
Proof.
  induction before as [|a before IH]; intros s w s1 w1 x w' Hb Hi; simpl in *.
  - unfold mret, M_ret in Hb. simplify_eq. unfold mbind, M_bind. by rewrite Hi.
  - unfold mbind, M_bind in *.
    destruct (body s a w) as [[s2|x2] w2]; [|done]. by eapply IH.
Qed.

Section Exceptions.
Context {rt : Runtime}.
Variable clock : list string -> Z.

Lemma process_entry_file_in_place st entry w m f :
  conforming entry = true -> compute_trajectory_metadata entry = Ok m ->
  data_dir w !! name entry = Some (OutFile f) ->
  process_entry clock st entry w = (Raise FileExistsError, w).
Proof.
  intros Hc Hm Hl. apply (process_entry_blocked clock st entry w m f Hc Hm); [|done].
  intros (events_json & He & _). unfold events_output in He. by rewrite Hl in He.
Qed.

Lemma main_loop_raise conversations_dir w x w1 :
  main_loop clock conversations_dir w = (Raise x, w1) ->
  build_static_site clock conversations_dir w = (Raise x, w1).
Proof.
  intros H. unfold build_static_site.
  change (match conversations_dir with
          | Some entries => _
          | None => _
          end) with (main_loop clock conversations_dir).
  unfold mbind at 1, M_bind at 1. by rewrite H.
Qed.

(** A trajectory that cannot be processed ends the loop that reaches
    it. *)
Lemma loop_fails entries : forall st w e,
  e ∈ entries -> conforming e = true ->
  (exists x, compute_trajectory_metadata e = Raise x)
  \/ (exists f, data_dir w !! name e = Some (OutFile f)) ->
  exists x w', for_each_M entries (process_entry clock) st w = (Raise x, w').
Proof.
  induction entries as [|a entries IH]; intros st w e He Hc Hbad.
  - by apply elem_of_nil in He.
  - simpl. unfold mbind, M_bind.
    destruct (process_entry clock st a w) as [[st1|x] w1] eqn:Hstep;
      [|by eexists _, _].
    apply elem_of_cons in He as [->|He].
    + exfalso. destruct Hbad as [[x Hx]|[f Hf]].
      * by rewrite (process_entry_raise clock st a w x Hc Hx) in Hstep.
      * by apply (process_entry_not_file clock _ _ _ _ _ f Hstep Hc).
    + apply (IH st1 w1 e He Hc).
      destruct Hbad as [Hx|[f Hf]]; [by left|right]. exists f.
      apply (loop_keeps_file clock [a] st w st1 w1); [|done].
      simpl. unfold mbind, M_bind. by rewrite Hstep.
Qed.

End Exceptions.

Section ExceptionsRun.
Context {rt : Runtime}.

(** X16. An exception of a trajectory ends the run where it occurs.
    When the main loop has processed the trajectories before [e] in the
    processing order and the metrics of [e] raise [x], or a plain file
    stands where the output directory of [e] should be (then [x] is the
    [FileExistsError] of [mkdir]), [build_static_site] raises [x] and
    leaves the output as the trajectories before [e] left it: nothing is
    written for [e] or for the trajectories after it, no output directory
    is removed and [trajectories.json] is not written, so it still lists
    what the previous run found. *)
Theorem exception_aborts_the_run clock entries w before e after st w1 x :
  processing_order entries = before ++ e :: after ->
  for_each_M before (process_entry clock) initial_state w = (Ok st, w1) ->
  conforming e = true ->
  compute_trajectory_metadata e = Raise x
  \/ (x = FileExistsError
      /\ (exists m, compute_trajectory_metadata e = Ok m)
      /\ exists f, data_dir w1 !! name e = Some (OutFile f)) ->
  build_static_site clock (Some entries) w = (Raise x, w1)
  /\ (exists added,
        trace w1 = trace w ++ added
        /\ Forall (allowed_write
                     (names_of (filter (fun e => conforming e = true) before)))
                  added
        /\ filter (fun e => is_rmtree e = true) added = []
        /\ filter (fun e => is_index_write e = true) added = [])
  /\ data_dir w1 !! "trajectories.json" = data_dir w !! "trajectories.json".
Proof.
  intros Horder Hbefore Hc Hwhy.
  assert (Hstep : process_entry clock st e w1 = (Raise x, w1)).
  { destruct Hwhy as [Hx|(-> & (m & Hm) & (f & Hf))].
    - by apply process_entry_raise.
    - by apply (process_entry_file_in_place clock st e w1 m f). }
  split; [|split].
  - apply main_loop_raise. unfold main_loop. rewrite Horder.
    by apply (for_each_M_app_raise _ before e after _ _ st w1).
  - destruct (loop_effects _ _ _ _ _ _ Hbefore) as (added & Ht & Ha & _ & Hr & Hx & _).
    by exists added.
  - eapply main_loop_other; [exact Hbefore|]. apply names_of_not_index.
Qed.

(** X17. One trajectory that cannot be processed fails the whole run:
    when the metrics of a source trajectory raise, or when a plain file
    stands where its output directory should be, [build_static_site]
    raises, whatever the other trajectories are. *)
Theorem failing_trajectory_fails_the_run clock entries w e :
  e ∈ entries -> conforming e = true ->
  (exists x, compute_trajectory_metadata e = Raise x)
  \/ (exists f, data_dir w !! name e = Some (OutFile f)) ->
  exists x w', build_static_site clock (Some entries) w = (Raise x, w').
Proof.
  intros He Hc Hbad.
  destruct (loop_fails clock (processing_order entries) initial_state w e)
    as (x & w' & Hloop); [by apply processing_order_elem|done|done|].
  exists x, w'. by apply main_loop_raise.
Qed.

End ExceptionsRun.

(** ** The source modification time and the event files *)

Lemma fold_max_attained (l : list (string * src_file)) : forall init,
  fold_left (fun mtime f => Z.max mtime (file_mtime (snd f))) l init = init
  \/ exists f, f ∈ l
               /\ fold_left (fun mtime f => Z.max mtime (file_mtime (snd f))) l init
                  = file_mtime (snd f).
Proof.
  induction l as [|f l IH]; intros init; [by left|]. cbn [fold_left].
  destruct (IH (Z.max init (file_mtime (snd f)))) as [E|(g & Hg & E)].
  - rewrite E. destruct (Z.max_spec init (file_mtime (snd f))) as [[_ ->]|[_ ->]].
    + right. exists f. split; [left|done].
    + by left.
  - right. exists g. split; [by right|done].
Qed.

Lemma string_prefix_app s1 s2 :
  String.prefix s1 s2 = true <-> exists rest, s2 = s1 +:+ rest.
Proof.
  revert s2. induction s1 as [|c s1 IH]; intros s2.
  - split; [intros _; by exists s2|]. by destruct s2.
  - destruct s2 as [|c' s2]; cbn.
    + split; [done|]. by intros (rest & ?).
    + destruct (ascii_dec c c') as [->|Hne].
      * rewrite IH. split; intros (rest & H); exists rest; [by rewrite H|].
        by injection H.
      * split; [done|]. intros (rest & H). by injection H as -> _.
Qed.

Lemma substring_app_length pre s k :
  String.substring (String.length pre) k (pre +:+ s) = String.substring 0 k s.
Proof. induction pre as [|c pre IH]; [done|]. exact IH. Qed.

Lemma substring_app_skip pre s i k :
  String.substring (String.length pre + i) k (pre +:+ s) = String.substring i k s.
Proof. induction pre as [|c pre IH]; [done|]. exact IH. Qed.

Lemma substring_all s : String.substring 0 (String.length s) s = s.
Proof. induction s as [|c s IH]; [done|]. cbn. by rewrite IH. Qed.

Lemma string_split_at s : forall i,
  (i <= String.length s)%nat ->
  s = String.substring 0 i s +:+ String.substring i (String.length s - i) s.
Proof.
  induction s as [|c s IH]; intros i Hi.
  - cbn in Hi. by replace i with 0%nat by lia.
  - destruct i as [|i]; cbn.
    + by rewrite substring_all.
    + cbn in Hi.
      change (String c s
              = String c (String.substring 0 i s
                          +:+ String.substring i (String.length s - i) s)).
      f_equal. apply IH. lia.
Qed.

Lemma string_app_length s1 s2 :
  String.length (s1 +:+ s2) = (String.length s1 + String.length s2)%nat.
Proof.
  induction s1 as [|c s1 IH]; [done|].
  change (S (String.length (s1 +:+ s2)) = S (String.length s1 + String.length s2)).
  by rewrite IH.
Qed.

Lemma ends_with_app suffix s :
  ends_with suffix s = true <-> exists pre, s = pre +:+ suffix.
Proof.
  unfold ends_with. rewrite andb_true_iff, Nat.leb_le, String.eqb_eq. split.
  - intros [Hle Hsub].
    exists (String.substring 0 (String.length s - String.length suffix) s).
    assert (Hi : (String.length s - String.length suffix <= String.length s)%nat) by lia.
    pose proof (string_split_at s _ Hi) as Hsplit.
    replace (String.length s - (String.length s - String.length suffix))%nat
      with (String.length suffix) in Hsplit by lia.
    by rewrite Hsub in Hsplit.
  - intros (pre & ->). rewrite string_app_length. split; [lia|].
    replace (String.length pre + String.length suffix - String.length suffix)%nat
      with (String.length pre) by lia.
    rewrite substring_app_length. apply substring_all.
Qed.

Lemma string_app_assoc s1 s2 s3 : (s1 +:+ s2) +:+ s3 = s1 +:+ (s2 +:+ s3).
Proof.
  induction s1 as [|c s1 IH]; [done|].
  change (String c ((s1 +:+ s2) +:+ s3) = String c (s1 +:+ (s2 +:+ s3))).
  by rewrite IH.
Qed.

Lemma matches_event_glob_spec file_name :
  matches_event_glob file_name = true
  <-> exists middle, file_name = "event-" +:+ middle +:+ ".json".
Proof.
  unfold matches_event_glob. rewrite !andb_true_iff, Nat.leb_le.
  rewrite string_prefix_app, ends_with_app. split.
  - intros [[(rest & Hrest) (pre & Hpre)] Hlen].
    assert (Hr : ends_with ".json" rest = true).
    { unfold ends_with. rewrite andb_true_iff, Nat.leb_le, String.eqb_eq.
      assert (Hl : (5 <= String.length rest)%nat).
      { rewrite Hrest, string_app_length in Hlen.
        change (String.length "event-") with 6%nat in Hlen.
        change (String.length ".json") with 5%nat. lia. }
      split; [done|].
      assert (Hsuffix : ends_with ".json" file_name = true)
        by (apply ends_with_app; by exists pre).
      unfold ends_with in Hsuffix.
      rewrite andb_true_iff, String.eqb_eq in Hsuffix. destruct Hsuffix as [_ Hs].
      rewrite Hrest, string_app_length in Hs.
      replace (String.length "event-" + String.length rest - String.length ".json")%nat
        with (String.length "event-" + (String.length rest - String.length ".json"))%nat
        in Hs
        by (change (String.length ".json") with 5%nat;
            change (String.length "event-") with 6%nat; lia).
      rewrite substring_app_skip in Hs.
      exact Hs. }
    apply ends_with_app in Hr as (middle & ->). by exists middle.
  - intros (middle & ->). split; [split|].
    + by eexists.
    + exists ("event-" +:+ middle). by rewrite string_app_assoc.
    + rewrite !string_app_length.
      change (String.length "event-") with 6%nat.
      change (String.length ".json") with 5%nat. lia.
Qed.

Section SourceFiles.
Context {rt : Runtime}.

(** X18. [get_source_mtime] is the latest modification time among the
    trajectory directory, its [base_state.json] when there is one, and
    the files of its events directory that match [event-*.json]: it is at
    least each of them and equal to one of them. The other files of the
    trajectory do not count. *)
Theorem get_source_mtime_is_the_latest entry :
  st_mtime entry <= get_source_mtime entry
  /\ (forall f, base_state_path entry = Some f ->
                file_mtime f <= get_source_mtime entry)
  /\ (forall listing f,
        events_dir entry = Some listing -> f ∈ glob_events listing ->
        file_mtime (snd f) <= get_source_mtime entry)
  /\ (get_source_mtime entry = st_mtime entry
      \/ (exists f, base_state_path entry = Some f
                    /\ get_source_mtime entry = file_mtime f)
      \/ (exists listing f,
             events_dir entry = Some listing /\ f ∈ glob_events listing
             /\ get_source_mtime entry = file_mtime (snd f))).
Proof.
  destruct (proj1 (get_source_mtime_le entry (get_source_mtime entry)))
    as (H1 & H2 & H3); [lia|].
  split; [done|]. split; [done|]. split; [done|].
  unfold get_source_mtime.
  assert (Hbase : forall mtime,
             mtime = match base_state_path entry with
                     | Some base_state => Z.max (st_mtime entry) (file_mtime base_state)
                     | None => st_mtime entry
                     end ->
             mtime = st_mtime entry
             \/ exists f, base_state_path entry = Some f /\ mtime = file_mtime f).
  { intros mtime ->. destruct (base_state_path entry) as [f|]; [|by left].
    destruct (Z.max_spec (st_mtime entry) (file_mtime f)) as [[_ ->]|[_ ->]];
      [right; by exists f|by left]. }
  destruct (events_dir entry) as [listing|].
  - destruct (fold_max_attained (glob_events listing)
                (match base_state_path entry with
                 | Some base_state => Z.max (st_mtime entry) (file_mtime base_state)
                 | None => st_mtime entry
                 end)) as [E|(f & Hf & E)].
    + rewrite E. destruct (Hbase _ eq_refl) as [->|Hb]; [by left|right; by left].
    + right. right. by exists listing, f.
  - destruct (Hbase _ eq_refl) as [->|Hb]; [by left|right; by left].
Qed.

(** X19. The event files of a trajectory, which [eventCount] counts,
    [build_events] loads and [get_source_mtime] looks at, are the files
    of its events directory whose name is [event-], anything (nothing
    included), [.json]. *)
Theorem event_files_are_named_event_json listing f :
  (f ∈ glob_events listing
   <-> f ∈ listing /\ exists middle, fst f = "event-" +:+ middle +:+ ".json")
  /\ (f ∈ sorted_event_files listing
      <-> f ∈ listing /\ exists middle, fst f = "event-" +:+ middle +:+ ".json").
Proof.
  assert (H : f ∈ glob_events listing
              <-> f ∈ listing /\ exists middle, fst f = "event-" +:+ middle +:+ ".json").
  { unfold glob_events. rewrite list_elem_of_filter, matches_event_glob_spec. tauto. }
  split; [done|]. by rewrite sorted_event_files_perm.
Qed.

End SourceFiles.

(** ** The conversations directory *)

(** X20. [get_conversations_dir] gives for a path the answer it gives
    without one (the directory [Path.home()/.openhands/conversations], not
    custom) in two cases only: the path resolves to [Path.home()/.openhands]
    and the default directory exists, or the path resolves to the default
    directory and that has no [conversations] directory of its own. The
    default directory is built from [Path.home()] as it is, the path is
    resolved: when the path resolves to the [.openhands] of another
    directory than [Path.home()], as [~/.openhands] does when the home
    directory is reached through a symbolic link, its [conversations]
    directory is reported as a custom one. *)
Theorem custom_flag_tells_the_default_directory home resolve path_is_dir p :
  (get_conversations_dir home resolve path_is_dir (Some p)
   = get_conversations_dir home resolve path_is_dir None
   <-> (resolve p = home ++ [".openhands"] /\ path_is_dir (default_dir home) = true)
       \/ (resolve p = default_dir home
           /\ path_is_dir (default_dir home ++ ["conversations"]) = false))
  /\ (forall real,
        resolve p = real ++ [".openhands"] ->
        real <> home ->
        path_is_dir (real ++ [".openhands"; "conversations"]) = true ->
        get_conversations_dir home resolve path_is_dir (Some p)
        = (real ++ [".openhands"; "conversations"], true)).
Proof.
  assert (Hsplit : forall l : list string,
             l ++ [".openhands"; "conversations"]
             = (l ++ [".openhands"]) ++ ["conversations"]).
  { intros l. by rewrite <- app_assoc. }
  split.
  - unfold get_conversations_dir, default_dir. split.
    + destruct (path_is_dir (resolve p ++ ["conversations"])) eqn:Hd;
        intros [= Hr Hc].
      * left. rewrite Hsplit in Hr. apply app_inj_tail in Hr as [Hr _].
        split; [done|]. by rewrite Hsplit, <- Hr.
      * right. split; [done|]. by rewrite <- Hr.
    + intros [[Hr Hd]|[Hr Hd]].
      * rewrite Hr, <- Hsplit, Hd. by rewrite bool_decide_eq_true_2.
      * rewrite Hr, Hd. by rewrite bool_decide_eq_true_2.
  - intros real Hr Hne Hd. unfold get_conversations_dir, default_dir.
    rewrite Hr, <- Hsplit, Hd. f_equal.
    rewrite bool_decide_eq_false_2; [done|].
    intros E. by apply app_inv_tail in E.
Qed.

(** ** The files a rebuild does not touch *)

Section OtherFiles.
Context {rt : Runtime}.
Variable clock : list string -> Z.

Lemma output_files_ext w w' n :
  data_dir w' !! n = data_dir w !! n -> output_files w' n = output_files w n.
Proof. unfold output_files. by intros ->. Qed.

Lemma process_entry_other_files st entry w st' w' n file_name :
  process_entry clock st entry w = (Ok st', w') ->
  file_name <> "trajectory.json" -> file_name <> "events.json" ->
  output_files w' n !! file_name = output_files w n !! file_name.
Proof.
  intros H Ht He.
  destruct (process_entry_inv _ _ _ _ _ _ H)
    as [(_ & _ & ->)
       |(_ & m & _ & [(_ & _ & ->)|(_ & d & evs & ws & _ & _ & _ & ->)])];
    try done.
  destruct (decide (n = name entry)) as [->|Hn].
  - unfold output_files at 1, rebuilt_world. cbn [data_dir].
    rewrite lookup_insert_eq. by rewrite !lookup_insert_ne.
  - f_equal. apply output_files_ext. unfold rebuilt_world. cbn [data_dir].
    by rewrite lookup_insert_ne.
Qed.

Lemma loop_other_files entries : forall st w st' w' n file_name,
  for_each_M entries (process_entry clock) st w = (Ok st', w') ->
  file_name <> "trajectory.json" -> file_name <> "events.json" ->
  output_files w' n !! file_name = output_files w n !! file_name.
Proof.
  induction entries as [|e entries IH]; intros st w st' w' n file_name H Ht He;
    simpl in H.
  - unfold mret, M_ret in H. by simplify_eq.
  - unfold mbind, M_bind in H.
    destruct (process_entry clock st e w) as [[st1|x] w1] eqn:Hstep; [|done].
    rewrite (IH _ _ _ _ _ _ H Ht He).
    by eapply process_entry_other_files.
Qed.

End OtherFiles.

Section OtherFilesRun.
Context {rt : Runtime}.

(** X21. A rebuild overwrites [trajectory.json] and [events.json] and
    nothing else: whatever other file the output directory of a source
    trajectory held before the run, it holds after it, unchanged. *)
Theorem run_keeps_other_output_files clock conversations_dir w s w' n file_name :
  build_static_site clock conversations_dir w = (Ok s, w') ->
  n ∈ observed_ids s ->
  file_name <> "trajectory.json" -> file_name <> "events.json" ->
  output_files w' n !! file_name = output_files w n !! file_name.
Proof.
  intros H Hn Ht He.
  destruct (build_static_site_inv _ _ _ _ _ H) as (st & w1 & Hloop & -> & ->).
  simpl in Hn.
  pose proof (main_loop_entries _ _ _ _ _ Hloop) as Hfor.
  pose proof (source_id_not_index _ _ _ _ _ Hloop) as Hnot.
  rewrite <- (loop_other_files clock _ _ _ _ _ n file_name Hfor Ht He).
  f_equal. apply output_files_ext.
  rewrite index_written_other by (intros ->; done).
  by apply pruned_keeps.
Qed.

End OtherFilesRun.

(** ** The properties on the sample data *)

#[local] Existing Instance sample_runtime.

Lemma total_conversation_time_witness :
  compute_total_conversation_time (rt := sample_runtime) agent_then_user
  = Ok (total_conversation_time_spec (rt := sample_runtime) agent_then_user)
  /\ compute_total_conversation_time (rt := sample_runtime)
       [event_at "agent" "2024-01-01T00:00:00Z"] = Ok (PyInt 0)
  /\ compute_total_conversation_time (rt := sample_runtime) agent_then_user
     = Ok (PyFloat (float_of_Z 5)).
Proof.
  destruct (@total_conversation_time_is_sum_of_counted_intervals sample_runtime)
    as (H1 & H2 & _ & H4).
  split; [|split].
  - apply H1. by repeat constructor.
  - apply H2. simpl. lia.
  - apply (H4 _ _ (instant 0) (instant 5)); [done|done| | |];
      vm_compute; reflexivity.
Defined.

Lemma average_agent_turn_time_witness :
  agent_turn_times_of (rt := sample_runtime) user_agent_agent
  = Ok (turn_samples (rt := sample_runtime) user_agent_agent)
  /\ agent_turn_times_of (rt := sample_runtime) user_agent_agent
     = Ok [float_of_Z 4; float_of_Z 6]
  /\ average_turn_time (rt := sample_runtime) [float_of_Z 4; float_of_Z 6]
     = Ok (PyFloat (float_of_Z 5)).
Proof.
  destruct (@average_agent_turn_time_is_mean_of_samples sample_runtime)
    as (H1 & _ & H3).
  split; [apply H1; by repeat constructor|].
  apply (H3 _ _ _ (instant 0) (instant 4) (instant 10)); try done;
    vm_compute; reflexivity.
Defined.

Lemma event_without_timestamp_witness :
  turn_time_step (rt := sample_runtime) ([], JStr "2024-01-01T00:00:00Z")
    agent_without_timestamp
  = Ok ([], JStr "2024-01-01T00:00:00Z")
  /\ agent_turn_times_of (rt := sample_runtime)
       ([event_at "user" "2024-01-01T00:00:00Z"]
        ++ [agent_without_timestamp; event_at "agent" "2024-01-01T00:00:04Z"])
     = Ok (turn_samples (rt := sample_runtime) [event_at "user" "2024-01-01T00:00:00Z"]
           ++ option_list (positive_duration (rt := sample_runtime)
                             "2024-01-01T00:00:00Z" "2024-01-01T00:00:04Z")).
Proof.
  destruct (@event_without_timestamp_is_skipped sample_runtime) as (H1 & _ & H3).
  split.
  - by apply H1.
  - apply H3; try done. by repeat constructor.
Defined.

Lemma all_load_check files :
  forallb loads_or_unparsable files = true -> all_load files.
Proof.
  intros H. apply Forall_forall. intros f Hf.
  apply (proj1 (forallb_forall _ _) H). by apply list_elem_of_In.
Qed.

Lemma outputs_skipped_iff_fresh_witness :
  fresh fresh_world sample_trajectory
  /\ (exists m,
        compute_trajectory_metadata sample_trajectory = Ok m
        /\ process_entry late_clock initial_state sample_trajectory fresh_world
           = (Ok (skipped_state initial_state sample_trajectory m), fresh_world))
  /\ ~ fresh empty_world sample_trajectory
  /\ (exists m d events warnings,
        compute_trajectory_metadata sample_trajectory = Ok m
        /\ build_trajectory_detail sample_trajectory = Ok d
        /\ build_events sample_trajectory = Ok (events, warnings)
        /\ process_entry late_clock initial_state sample_trajectory empty_world
           = (Ok (rebuilt_state initial_state sample_trajectory m),
              rebuilt_world late_clock empty_world sample_trajectory d events warnings))
  /\ process_entry late_clock initial_state unreadable_trajectory fresh_world
     = (Raise ValueError, fresh_world).
Proof.
  destruct (compute_trajectory_metadata sample_trajectory) as [m|e] eqn:Hm;
    [|by vm_compute in Hm].
  assert (Hc : conforming sample_trajectory = true) by (vm_compute; reflexivity).
  destruct (outputs_skipped_iff_fresh late_clock initial_state
              sample_trajectory fresh_world Hc) as (Hfresh & _ & _).
  destruct (Hfresh m Hm) as (Hiff & Hskip & _);
    [intros f; vm_compute; discriminate|].
  destruct (outputs_skipped_iff_fresh late_clock initial_state
              sample_trajectory empty_world Hc) as (Hempty & _ & _).
  destruct (Hempty m Hm) as (Hiff' & _ & Hstale);
    [intros f; vm_compute; discriminate|].
  assert (Hf : fresh fresh_world sample_trajectory).
  { apply (proj1 Hiff). vm_compute. reflexivity. }
  assert (Hnf : ~ fresh empty_world sample_trajectory).
  { intros H. apply (proj2 Hiff') in H. vm_compute in H. discriminate. }
  split; [exact Hf|].
  split; [exists m; split; [reflexivity|exact (Hskip Hf)]|].
  split; [exact Hnf|].
  split.
  - destruct (Hstale Hnf) as (d & events & warnings & Hd & He & Hp).
    exists m, d, events, warnings. by rewrite Hd, He, Hp.
  - assert (Hc' : conforming unreadable_trajectory = true) by (vm_compute; reflexivity).
    apply (proj1 (proj2 (outputs_skipped_iff_fresh late_clock initial_state
                           unreadable_trajectory fresh_world Hc'))).
    vm_compute. reflexivity.
Defined.

(** The event files of a fresh trajectory are read: two trajectories
    with the same modification times, both skipped on an output that is
    more recent, enter the index with the conversation times of their own
    event files, and a fresh trajectory one of whose event files cannot
    be decoded ends the iteration with the exception. *)
Lemma fresh_trajectory_events_are_read :
  fresh fresh_world sample_trajectory
  /\ fresh fresh_world edited_trajectory
  /\ fresh fresh_world unreadable_trajectory
  /\ get_source_mtime sample_trajectory = get_source_mtime edited_trajectory
  /\ snd (process_entry late_clock initial_state sample_trajectory fresh_world)
     = fresh_world
  /\ snd (process_entry late_clock initial_state edited_trajectory fresh_world)
     = fresh_world
  /\ (fun s => totalConversationTime <$> trajectories s)
       <$> ok_value (fst (process_entry late_clock initial_state
                            sample_trajectory fresh_world))
     = Some [PyFloat (float_of_Z 5)]
  /\ (fun s => totalConversationTime <$> trajectories s)
       <$> ok_value (fst (process_entry late_clock initial_state
                            edited_trajectory fresh_world))
     = Some [PyFloat (float_of_Z 9)]
  /\ process_entry late_clock initial_state unreadable_trajectory fresh_world
     = (Raise ValueError, fresh_world).
Proof.
  assert (Hfresh : forall entry,
             fst (up_to_date entry fresh_world) = Ok true ->
             fresh fresh_world entry).
  { intros entry H. destruct (up_to_date_fresh entry fresh_world) as (b & Hu & Hb).
    rewrite Hu in H. simpl in H. injection H as ->. by apply Hb. }
  repeat split; try (apply Hfresh); vm_compute; reflexivity.
Qed.

Lemma build_events_witness :
  build_events sample_trajectory
  = Ok ([event_at "user" "2024-01-01T00:00:09Z";
         event_at "agent" "2024-01-01T00:00:04Z"], ["event-00003.json"])
  /\ (exists sorted,
        sort_by_timestamp (omap parsed (sorted_event_files sample_listing)) = Ok sorted
        /\ sorted ≡ₚ omap parsed (sorted_event_files sample_listing)
        /\ Sorted timestamps_ordered sorted
        /\ ok_value (compute_total_conversation_time sorted)
           = totalConversationTime
               <$> ok_value (compute_trajectory_metadata sample_trajectory))
  /\ events_output
       (snd (process_entry late_clock initial_state sample_trajectory empty_world))
       sample_id
     = Some {| written := EventsJson [event_at "user" "2024-01-01T00:00:09Z";
                                      event_at "agent" "2024-01-01T00:00:04Z"];
               out_mtime := 1000 |}.
Proof.
  destruct (@build_events_keeps_file_name_order sample_runtime) as (H1 & _ & H3 & H4).
  destruct (compute_trajectory_metadata sample_trajectory) as [m|e] eqn:Hm;
    [|by vm_compute in Hm].
  assert (Hb : build_events sample_trajectory
               = Ok ([event_at "user" "2024-01-01T00:00:09Z";
                      event_at "agent" "2024-01-01T00:00:04Z"], ["event-00003.json"])).
  { rewrite (H1 sample_trajectory sample_listing eq_refl);
      [vm_compute; reflexivity|].
    apply all_load_check. vm_compute. reflexivity. }
  split; [exact Hb|]. split.
  - destruct (H4 sample_trajectory sample_listing m eq_refl Hm)
      as (sorted & Hs & Hp & Hsorted & Ht).
    exists sorted. repeat split; try done. by rewrite Ht.
  - destruct (H3 late_clock initial_state sample_trajectory empty_world m)
      as (events & warnings & Hev & Hout & _).
    + vm_compute. reflexivity.
    + exact Hm.
    + intros (f & Hf & _). vm_compute in Hf. discriminate.
    + intros f. vm_compute. discriminate.
    + rewrite Hb in Hev. injection Hev as <- <-. exact Hout.
Defined.

Lemma event_count_witness :
  eventCount <$> ok_value (compute_trajectory_metadata sample_trajectory) = Some 3%nat
  /\ listed_event_files sample_trajectory = 3%nat
  /\ length (omap parsed (sorted_event_files sample_listing)) = 2%nat
  /\ (exists m, compute_trajectory_metadata broken_trajectory = Ok m
                /\ eventCount m = listed_event_files broken_trajectory).
Proof.
  destruct (@event_count_is_listing_size sample_runtime) as [Hcount Htotal].
  destruct (compute_trajectory_metadata sample_trajectory) as [m|e] eqn:Hm;
    [|by vm_compute in Hm].
  destruct (Hcount sample_trajectory m Hm) as (H1 & _ & _).
  simpl. rewrite H1.
  split; [vm_compute; reflexivity|]. split; [vm_compute; reflexivity|].
  split; [vm_compute; reflexivity|].
  apply Htotal.
  - right. exists {| contents := Raise JSONDecodeError; file_mtime := 15 |}.
    split; [reflexivity|by left].
  - split; [apply all_load_check; vm_compute; reflexivity|].
    apply Forall_forall. intros ev Hev. vm_compute in Hev.
    repeat (apply elem_of_cons in Hev as [->|Hev]; [reflexivity|]).
    by apply elem_of_nil in Hev.
Defined.

Lemma base_state_defaults_witness :
  compute_trajectory_metadata broken_trajectory
  = (ev ← events_block broken_trajectory;
     Ok (metadata_without_tokens broken_trajectory (JStr sample_id) JNull ev))
  /\ compute_trajectory_metadata sample_trajectory
     = (ev ← events_block sample_trajectory;
        Ok (metadata_without_tokens sample_trajectory
              (JStr "helper") (JStr "gpt") ev)).
Proof.
  destruct (@base_state_defaults sample_runtime) as (_ & H2 & H3). split.
  - apply (H2 broken_trajectory
              {| contents := Raise JSONDecodeError; file_mtime := 15 |});
      [reflexivity|by left].
  - destruct (H3 sample_trajectory
                {| contents := Ok sample_base_state; file_mtime := 15 |}
                sample_base_state eq_refl eq_refl eq_refl) as (bf & Hbf & Hm).
    injection Hbf as <-. exact Hm.
Defined.

(** With a token path cut short the title and the model are still those
    of the agent entry, not the defaults. *)
Lemma title_not_default_without_token_path :
  missing_link sample_base_state token_path = true
  /\ title <$> ok_value (compute_trajectory_metadata sample_trajectory)
     = Some (JStr "helper")
  /\ model <$> ok_value (compute_trajectory_metadata sample_trajectory)
     = Some (JStr "gpt")
  /\ JStr "helper" <> JStr (name sample_trajectory)
  /\ JStr "gpt" <> JNull.
Proof. repeat split; try (vm_compute; reflexivity); discriminate. Qed.

Lemma entry_is_trajectory_witness :
  process_entry late_clock initial_state short_entry empty_world
  = (Ok initial_state, empty_world)
  /\ process_entry late_clock initial_state plain_entry empty_world
     = (Ok initial_state, empty_world)
  /\ hex_id sample_id = true
  /\ (forall s w',
        build_static_site late_clock
          (Some [short_entry; sample_trajectory; plain_entry]) empty_world
        = (Ok s, w') ->
        sample_id ∈ observed_ids s /\ name short_entry ∉ observed_ids s).
Proof.
  destruct (@entry_is_trajectory_iff_hex_directory sample_runtime)
    as (_ & H2 & H3 & H4).
  split; [apply H3; vm_compute; reflexivity|].
  split; [apply H3; vm_compute; reflexivity|].
  split; [apply H2; vm_compute; reflexivity|].
  intros s w' H. destruct (H4 _ _ _ _ _ H) as [Hids _]. split.
  - apply Hids. exists sample_trajectory.
    split; [apply list_elem_of_further, list_elem_of_here|].
    split; [reflexivity|]. split; vm_compute; reflexivity.
  - intros Hin. apply Hids in Hin as (e & _ & _ & _ & Hhex).
    vm_compute in Hhex. discriminate.
Defined.

(** A directory with an upper-case hexadecimal name is taken for a
    trajectory. *)
Lemma upper_case_id_is_accepted :
  is_dir upper_case_entry = true
  /\ lowercase_hex_id (name upper_case_entry) = false
  /\ conforming upper_case_entry = true
  /\ (fun s => bool_decide (name upper_case_entry ∈ observed_ids s))
       <$> ok_value (fst (build_static_site late_clock (Some [upper_case_entry])
                            empty_world))
     = Some true
  /\ (fun s => length (index s))
       <$> ok_value (fst (build_static_site late_clock (Some [upper_case_entry])
                            empty_world))
     = Some 1%nat.
Proof. repeat split; vm_compute; reflexivity. Qed.

Lemma output_directories_without_source_witness :
  data_dir (snd (build_static_site late_clock (Some [sample_trajectory]) stale_world))
    !! "deadbeefdeadbeefdeadbeefdeadbeef" = None
  /\ data_dir (snd (build_static_site late_clock (Some [sample_trajectory]) stale_world))
       !! "notes.txt"
     = Some (OutFile {| written := OtherContent; out_mtime := 3 |}).
Proof.
  destruct (build_static_site late_clock (Some [sample_trajectory]) stale_world)
    as [[s|e] w'] eqn:H; [|by vm_compute in H].
  destruct (output_directories_without_source_are_removed _ _ _ _ _ H)
    as (_ & H2 & _ & H4 & _).
  assert (Hs : bool_decide ("deadbeefdeadbeefdeadbeefdeadbeef" ∈ observed_ids s) = false).
  { vm_compute in H. injection H as <- _. vm_compute. reflexivity. }
  simpl. split.
  - apply (H2 _ ∅); [vm_compute; reflexivity| |discriminate].
    by apply bool_decide_eq_false in Hs.
  - apply H4; [vm_compute; reflexivity|discriminate].
Defined.

(** A file of the output data directory whose name is no source id is
    not removed. *)
Lemma plain_file_is_not_removed :
  is_Some (data_dir stale_world !! "notes.txt")
  /\ (fun s => bool_decide ("notes.txt" ∈ observed_ids s))
       <$> ok_value (fst (build_static_site late_clock (Some []) stale_world))
     = Some false
  /\ data_dir (snd (build_static_site late_clock (Some []) stale_world)) !! "notes.txt"
     = Some (OutFile {| written := OtherContent; out_mtime := 3 |})
  /\ data_dir (snd (build_static_site late_clock (Some []) stale_world))
       !! "deadbeefdeadbeefdeadbeefdeadbeef" = None.
Proof.
  split; [by eexists|]. repeat split; vm_compute; reflexivity.
Qed.

Lemma index_always_rewritten_witness :
  exists s1 w1,
    build_static_site late_clock (Some [sample_trajectory]) empty_world = (Ok s1, w1)
    /\ exists s2 w2,
        build_static_site late_clock (Some [sample_trajectory]) w1 = (Ok s2, w2)
        /\ index s2 = index s1
        /\ rebuilt s2 = 0%nat
        /\ trace w2
           = trace w1 ++ [Write ["trajectories.json"] (TrajectoriesJson (index s1))].
Proof.
  destruct (@index_always_rewritten_outputs_only_when_stale sample_runtime)
    as [_ H2].
  destruct (build_static_site late_clock (Some [sample_trajectory]) empty_world)
    as [[s1|e] w1] eqn:H; [|by vm_compute in H].
  exists s1, w1. split; [reflexivity|].
  destruct (H2 late_clock late_clock _ _ _ _ H) as (s2 & w2 & Hr & Hi & Hb & _ & _ & Ht & _).
  - apply NoDup_singleton.
  - intros e He _. apply list_elem_of_singleton in He as ->. vm_compute. discriminate.
  - exists s2, w2. split; [exact Hr|]. split; [exact Hi|].
    split; [exact Hb|exact Ht].
Defined.

(** When a source file is more recent than the output the first run
    writes, the second run rebuilds the trajectory again. *)
Lemma second_run_rebuilds_when_source_is_newer :
  let first := build_static_site early_clock (Some [sample_trajectory]) empty_world in
  let second := build_static_site early_clock (Some [sample_trajectory]) (snd first) in
  rebuilt <$> ok_value (fst first) = Some 1%nat
  /\ rebuilt <$> ok_value (fst second) = Some 1%nat
  /\ skipped <$> ok_value (fst second) = Some 0%nat
  /\ filter (fun e => is_trajectory_write e = true)
            (drop (length (trace (snd first))) (trace (snd second)))
     = [Write [sample_id; "trajectory.json"]
          (TrajectoryJson
             {| detail_id := sample_id;
                detail_created := EmptyString;
                detail_eventCount := 3;
                detail_baseState := Some sample_base_state;
                detail_model := Some (JStr "gpt") |});
        Write [sample_id; "events.json"]
          (EventsJson [event_at "user" "2024-01-01T00:00:09Z";
                       event_at "agent" "2024-01-01T00:00:04Z"])].
Proof. repeat split; vm_compute; reflexivity. Qed.

(** ** Further properties on the sample data *)

Lemma interval_not_later_witness :
  add_interval (PyInt 0) (JStr "2024-01-01T00:00:05Z") (JStr "2024-01-01T00:00:00Z")
  = Ok (PyInt 0)
  /\ add_turn_time [] (JStr "2024-01-01T00:00:00Z") (JStr "2024-01-01T00:00:05Z")
     = Ok []
  /\ compute_total_conversation_time
       [event_at "agent" "2024-01-01T00:00:05Z"; event_at "user" "2024-01-01T00:00:00Z"]
     = Ok (PyInt 0).
Proof.
  destruct (interval_not_later_adds_nothing (PyInt 0) []
              "2024-01-01T00:00:05Z" "2024-01-01T00:00:00Z"
              (instant 5) (instant 0) (-5000000))
    as (H1 & H2 & H3).
  - vm_compute. reflexivity.
  - vm_compute. reflexivity.
  - vm_compute. reflexivity.
  - lia.
  - split; [exact H1|]. split; [exact H2|apply H3].
Defined.

Lemma non_string_timestamp_witness :
  compute_total_conversation_time
    [numbered_event 1700000000; numbered_event 1700000005]
  = Raise AttributeError.
Proof.
  apply (non_string_timestamp_raises_attribute_error
           (numbered_event 1700000000) (numbered_event 1700000005) []
           (JInt 1700000000) (JInt 1700000005)).
  - reflexivity.
  - reflexivity.
  - reflexivity.
  - intros s. discriminate.
  - reflexivity.
  - reflexivity.
Defined.

Lemma conversation_time_after_users_witness :
  compute_total_conversation_time
    ([event_at "user" "2024-01-01T00:00:00Z"; event_at "user" "2024-01-01T00:00:05Z"]
     ++ [JNull])
  = Ok (PyInt 0).
Proof.
  apply conversation_time_is_zero_after_user_events.
  repeat constructor.
Defined.

Lemma turn_samples_witness :
  (exists samples,
      agent_turn_times_of user_agent_agent = Ok samples
      /\ (length samples
          <= length (filter (fun e => from_agent e = true) user_agent_agent))%nat)
  /\ (exists samples,
        agent_turn_times_of
          [event_at "user" "2024-01-01T00:00:00Z"; event_at "user" "2024-01-01T00:00:05Z"]
        = Ok samples
        /\ samples = []
        /\ average_turn_time samples = Ok (PyInt 0)).
Proof.
  split.
  - destruct (turn_samples_come_from_agent_events user_agent_agent)
      as (samples & H1 & H2 & _); [by repeat constructor|].
    exists samples. split; [exact H1|exact H2].
  - destruct (turn_samples_come_from_agent_events
                [event_at "user" "2024-01-01T00:00:00Z";
                 event_at "user" "2024-01-01T00:00:05Z"])
      as (samples & H1 & _ & H3); [by repeat constructor|].
    exists samples. split; [exact H1|]. apply H3. by repeat constructor.
Defined.

Lemma null_timestamp_witness :
  sort_by_timestamp
    [JObj [("source", JStr "user"); ("timestamp", JNull)];
     event_at "agent" "2024-01-01T00:00:04Z"]
  = Raise TypeError
  /\ compute_trajectory_metadata null_timestamp_trajectory = Raise TypeError.
Proof.
  destruct (@null_timestamp_breaks_the_sort sample_runtime) as [H1 H2]. split.
  - apply H1.
    + by repeat constructor.
    + simpl. lia.
    + apply Exists_cons_hd. reflexivity.
  - apply (H2 null_timestamp_trajectory null_timestamp_listing
              (default_fields sample_id)).
    + reflexivity.
    + reflexivity.
    + apply all_load_check. vm_compute. reflexivity.
    + vm_compute. by repeat constructor.
    + vm_compute. lia.
    + vm_compute. apply Exists_cons_hd. reflexivity.
Defined.

Lemma events_in_order_witness :
  sort_by_timestamp ordered_events = Ok ordered_events
  /\ exists m,
      compute_trajectory_metadata ordered_trajectory = Ok m
      /\ build_events ordered_trajectory = Ok (ordered_events, [])
      /\ compute_total_conversation_time ordered_events = Ok (totalConversationTime m)
      /\ (samples ← agent_turn_times_of ordered_events; average_turn_time samples)
         = Ok (avgAgentTurnTime m).
Proof.
  destruct (@events_in_order_are_measured_as_built sample_runtime) as [H1 H2].
  assert (Hsorted : Sorted timestamps_ordered ordered_events).
  { repeat constructor. }
  split.
  - apply H1; [by repeat constructor|].
    split; [by repeat constructor|exact Hsorted].
  - destruct (compute_trajectory_metadata ordered_trajectory) as [m|e] eqn:Hm;
      [|by vm_compute in Hm].
    exists m. split; [reflexivity|].
    assert (Hb : build_events ordered_trajectory = Ok (ordered_events, []))
      by (vm_compute; reflexivity).
    split; [exact Hb|].
    exact (H2 ordered_trajectory m ordered_events [] Hm Hb Hsorted).
Defined.

Lemma token_counters_witness :
  (exists m,
      compute_trajectory_metadata counted_trajectory = Ok m
      /\ promptTokens m = JInt 200
      /\ completionTokens m = JInt 30
      /\ reasoningTokens m = JInt 0
      /\ cacheReadTokens m = JInt 50
      /\ totalTokens m = JInt 230
      /\ cachePct m = 25)
  /\ (exists m,
        compute_trajectory_metadata zero_prompt_trajectory = Ok m
        /\ cacheReadTokens m = JInt 50
        /\ cachePct m = 0).
Proof.
  split.
  - destruct (compute_trajectory_metadata counted_trajectory) as [m|e] eqn:Hm;
      [|by vm_compute in Hm].
    destruct (token_counters_are_reported counted_trajectory m Hm)
      as (H1 & H2 & _ & H4).
    destruct (H1 {| contents := Ok counted_base_state; file_mtime := 15 |}
                 [("agent", JObj [("id", JStr "helper"); ("llm", JStr "gpt")]);
                  ("stats",
                   JObj [("usage_to_metrics",
                          JObj [("agent",
                                 JObj [("accumulated_token_usage",
                                        JObj [("prompt_tokens", JInt 200);
                                              ("completion_tokens", JInt 30);
                                              ("cache_read_tokens", JInt 50)])])])])]
                 [("prompt_tokens", JInt 200);
                  ("completion_tokens", JInt 30);
                  ("cache_read_tokens", JInt 50)]
                 eq_refl eq_refl eq_refl)
      as (Hp & Hc & Hr & Hk).
    exists m. split; [reflexivity|].
    split; [exact Hp|]. split; [exact Hc|]. split; [exact Hr|]. split; [exact Hk|].
    split; [exact (H2 200 30 Hp Hc)|].
    destruct (H4 200 50 Hp Hk) as (ratio & Hratio & Hpct); [lia|].
    assert (Hpct25 : (r ← int_truediv 50 200; float_round (fmul r (float_of_Z 100)))
                     = Ok 25) by (vm_compute; reflexivity).
    rewrite Hratio in Hpct25.
    change (float_round (fmul ratio (float_of_Z 100)) = Ok 25) in Hpct25.
    rewrite Hpct in Hpct25. by injection Hpct25.
  - destruct (compute_trajectory_metadata zero_prompt_trajectory) as [m|e] eqn:Hm;
      [|by vm_compute in Hm].
    destruct (token_counters_are_reported zero_prompt_trajectory m Hm)
      as (H1 & _ & H3 & _).
    destruct (H1 {| contents := Ok zero_prompt_state; file_mtime := 15 |}
                 [("stats",
                   JObj [("usage_to_metrics",
                          JObj [("agent",
                                 JObj [("accumulated_token_usage",
                                        JObj [("cache_read_tokens", JInt 50)])])])])]
                 [("cache_read_tokens", JInt 50)]
                 eq_refl eq_refl eq_refl)
      as (Hp & _ & _ & Hk).
    exists m. split; [reflexivity|]. split; [exact Hk|].
    apply (H3 0 Hp). lia.
Defined.

Lemma malformed_base_state_witness :
  compute_trajectory_metadata null_stats_trajectory = Raise AttributeError
  \/ compute_trajectory_metadata null_stats_trajectory = Raise TypeError.
Proof.
  apply (malformed_base_state_is_fatal null_stats_trajectory
           {| contents := Ok (JObj [("stats", JNull)]); file_mtime := 15 |}
           (JObj [("stats", JNull)])); reflexivity.
Defined.

Lemma detail_agrees_witness :
  exists m d,
    compute_trajectory_metadata sample_trajectory = Ok m
    /\ build_trajectory_detail sample_trajectory = Ok d
    /\ detail_id d = id m
    /\ detail_created d = created m
    /\ detail_eventCount d = eventCount m
    /\ default JNull (detail_model d) = model m
    /\ detail_baseState d = Some sample_base_state.
Proof.
  destruct (compute_trajectory_metadata sample_trajectory) as [m|e] eqn:Hm;
    [|by vm_compute in Hm].
  destruct (detail_agrees_with_metadata sample_trajectory m Hm)
    as (d & Hd & H1 & H2 & H3 & H4 & H5).
  exists m, d. split; [reflexivity|]. split; [exact Hd|].
  split; [exact H1|]. split; [exact H2|]. split; [exact H3|]. split; [exact H4|].
  exact H5.
Defined.

Lemma build_trajectory_detail_raises_witness :
  build_trajectory_detail list_state_trajectory = Raise AttributeError
  /\ exists d, build_trajectory_detail directory_state_trajectory = Ok d.
Proof.
  split.
  - apply (proj2 (build_trajectory_detail_raises_iff list_state_trajectory
                    AttributeError)).
    exists {| contents := Ok (JArr []); file_mtime := 15 |}.
    split; [reflexivity|]. right. exists (JArr []). by repeat split.
  - destruct (build_trajectory_detail directory_state_trajectory) as [d|e] eqn:H;
      [by exists d|].
    apply (proj1 (build_trajectory_detail_raises_iff directory_state_trajectory e))
      in H as (f & Hf & [(Hc & _ & Hi)|(v & Hv & _)]).
    + injection Hf as <-. injection Hc as <-. discriminate Hi.
    + injection Hf as <-. discriminate Hv.
Defined.

Lemma summary_counts_witness :
  exists s w',
    build_static_site late_clock (Some [sample_trajectory; plain_entry]) stale_world
    = (Ok s, w')
    /\ (rebuilt s + skipped s = length (index s))%nat
    /\ exists added,
        trace w' = trace stale_world ++ added
        /\ length (filter (fun e => is_trajectory_write e = true) added)
           = (2 * rebuilt s)%nat
        /\ length (filter (fun e => is_rmtree e = true) added) = removed s
        /\ last added = Some (Write ["trajectories.json"] (TrajectoriesJson (index s))).
Proof.
  destruct (build_static_site late_clock (Some [sample_trajectory; plain_entry])
              stale_world) as [[s|e] w'] eqn:H; [|by vm_compute in H].
  destruct (summary_counts_what_was_done _ _ _ _ _ H)
    as (H1 & _ & added & Ht & Hw & Hr & _ & Hl).
  exists s, w'. split; [reflexivity|]. split; [exact H1|].
  exists added. split; [exact Ht|]. split; [exact Hw|]. split; [exact Hr|exact Hl].
Defined.

Lemma run_writes_witness :
  exists s w' added,
    build_static_site late_clock (Some [sample_trajectory; plain_entry]) stale_world
    = (Ok s, w')
    /\ trace w' = trace stale_world ++ added
    /\ Forall (allowed_write (observed_ids s)) added.
Proof.
  destruct (build_static_site late_clock (Some [sample_trajectory; plain_entry])
              stale_world) as [[s|e] w'] eqn:H; [|by vm_compute in H].
  destruct (run_writes_only_its_outputs _ _ _ _ _ H) as (added & Ht & Hw).
  exists s, w', added. split; [reflexivity|]. split; [exact Ht|exact Hw].
Defined.

Lemma index_order_witness :
  exists s w',
    build_static_site late_clock
      (Some [sample_trajectory; plain_entry; recent_trajectory]) empty_world
    = (Ok s, w')
    /\ map id (index s)
       = map name (source_trajectories
                     (Some [sample_trajectory; plain_entry; recent_trajectory]))
    /\ Sorted most_recent_first
              (source_trajectories
                 (Some [sample_trajectory; plain_entry; recent_trajectory])).
Proof.
  destruct (build_static_site late_clock
              (Some [sample_trajectory; plain_entry; recent_trajectory]) empty_world)
    as [[s|e] w'] eqn:H; [|by vm_compute in H].
  destruct (index_lists_most_recent_first _ _ _ _ _ H) as (H1 & _ & H3 & _).
  exists s, w'. split; [reflexivity|]. split; [exact H1|exact H3].
Defined.

Lemma index_and_output_witness :
  exists s w',
    build_static_site late_clock (Some [sample_trajectory; plain_entry]) stale_world
    = (Ok s, w')
    /\ (forall n, is_output_directory w' n <-> exists m, m ∈ index s /\ id m = n)
    /\ (forall m, m ∈ index s -> exists f, events_output w' (id m) = Some f).
Proof.
  destruct (build_static_site late_clock (Some [sample_trajectory; plain_entry])
              stale_world) as [[s|e] w'] eqn:H; [|by vm_compute in H].
  destruct (index_and_output_directories_agree _ _ _ _ _ H) as [H1 H2].
  exists s, w'. split; [reflexivity|]. split; [exact H1|exact H2].
Defined.

Lemma missing_conversations_directory_witness :
  exists s w',
    build_static_site late_clock None stale_world = (Ok s, w')
    /\ index s = []
    /\ data_dir w' !! "deadbeefdeadbeefdeadbeefdeadbeef" = None
    /\ data_dir w' !! "notes.txt"
       = Some (OutFile {| written := OtherContent; out_mtime := 3 |}).
Proof.
  destruct (missing_conversations_directory_empties_the_output late_clock stale_world)
    as (s & w' & H & Hi & _ & _ & _ & Hn & _).
  exists s, w'. split; [exact H|]. split; [exact Hi|]. split.
  - rewrite Hn by discriminate. vm_compute. reflexivity.
  - rewrite Hn by discriminate. vm_compute. reflexivity.
Defined.

Lemma exception_aborts_witness :
  (exists w1,
      build_static_site late_clock (Some [null_stats_trajectory; recent_trajectory])
        stale_world
      = (Raise AttributeError, w1)
      /\ filter (fun e => is_rmtree e = true) (trace w1) = []
      /\ filter (fun e => is_index_write e = true) (trace w1) = []
      /\ data_dir w1 !! "trajectories.json" = None
      /\ is_Some (events_output w1 second_id)
      /\ data_dir w1 !! sample_id = None)
  /\ build_static_site late_clock (Some [sample_trajectory]) blocked_world
     = (Raise FileExistsError, blocked_world).
Proof.
  split.
  - destruct (for_each_M [recent_trajectory] (process_entry late_clock)
                initial_state stale_world) as [[st|x] w1] eqn:Hb;
      [|by vm_compute in Hb].
    exists w1.
    destruct (exception_aborts_the_run late_clock
                [null_stats_trajectory; recent_trajectory] stale_world
                [recent_trajectory] null_stats_trajectory [] st w1 AttributeError)
      as (H1 & (added & Ht & _ & Hr & Hx) & H3).
    + vm_compute. reflexivity.
    + exact Hb.
    + vm_compute. reflexivity.
    + left. vm_compute. reflexivity.
    + split; [exact H1|]. rewrite Ht. simpl.
      split; [exact Hr|]. split; [exact Hx|]. split; [exact H3|].
      vm_compute in Hb. injection Hb as _ <-.
      split; [by eexists|]. vm_compute. reflexivity.
  - refine (proj1 (exception_aborts_the_run late_clock [sample_trajectory]
                     blocked_world [] sample_trajectory [] initial_state
                     blocked_world FileExistsError _ _ _ _)).
    + vm_compute. reflexivity.
    + reflexivity.
    + vm_compute. reflexivity.
    + right. split; [reflexivity|]. split.
      * destruct (compute_trajectory_metadata sample_trajectory) as [m|e] eqn:Hm;
          [by exists m|by vm_compute in Hm].
      * exists {| written := OtherContent; out_mtime := 3 |}.
        vm_compute. reflexivity.
Defined.

Lemma failing_trajectory_witness :
  (exists x w',
      build_static_site late_clock (Some [null_stats_trajectory; recent_trajectory])
        stale_world
      = (Raise x, w'))
  /\ (exists x w',
        build_static_site late_clock (Some [recent_trajectory; sample_trajectory])
          blocked_world
        = (Raise x, w')).
Proof.
  split.
  - apply (failing_trajectory_fails_the_run late_clock _ stale_world
             null_stats_trajectory).
    + apply list_elem_of_here.
    + vm_compute. reflexivity.
    + left. exists AttributeError. vm_compute. reflexivity.
  - apply (failing_trajectory_fails_the_run late_clock _ blocked_world
             sample_trajectory).
    + apply list_elem_of_further, list_elem_of_here.
    + vm_compute. reflexivity.
    + right. exists {| written := OtherContent; out_mtime := 3 |}.
      vm_compute. reflexivity.
Defined.

Lemma get_source_mtime_witness :
  15 <= get_source_mtime sample_trajectory
  /\ 40 <= get_source_mtime sample_trajectory.
Proof.
  destruct (get_source_mtime_is_the_latest sample_trajectory) as (_ & H2 & H3 & _).
  split.
  - apply (H2 {| contents := Ok sample_base_state; file_mtime := 15 |}). reflexivity.
  - apply (H3 sample_listing
              ("event-00003.json",
               {| contents := Raise JSONDecodeError; file_mtime := 40 |}));
      [reflexivity|].
    apply list_elem_of_filter. split; [reflexivity|].
    apply list_elem_of_further, list_elem_of_further, list_elem_of_here.
Defined.

Lemma event_files_witness :
  ("event-00003.json", {| contents := Raise JSONDecodeError; file_mtime := 40 |})
  ∈ glob_events sample_listing.
Proof.
  apply (proj2 (proj1 (event_files_are_named_event_json sample_listing _))).
  split.
  - apply list_elem_of_further, list_elem_of_further, list_elem_of_here.
  - by exists "00003".
Defined.

Lemma custom_flag_witness :
  get_conversations_dir sample_home (fun p => p) only_default_dir
    (Some (sample_home ++ [".openhands"]))
  = (default_dir sample_home, false)
  /\ get_conversations_dir sample_home linked_resolve only_linked_dir
       (Some (sample_home ++ [".openhands"]))
     = (["mnt"; "user"; ".openhands"; "conversations"], true).
Proof.
  split.
  - apply (proj2 (proj1 (custom_flag_tells_the_default_directory sample_home
                           (fun p => p) only_default_dir
                           (sample_home ++ [".openhands"])))).
    left. split; reflexivity.
  - apply (proj2 (custom_flag_tells_the_default_directory sample_home
                    linked_resolve only_linked_dir
                    (sample_home ++ [".openhands"])) ["mnt"; "user"]).
    + reflexivity.
    + discriminate.
    + reflexivity.
Defined.

Lemma other_output_files_witness :
  exists s w',
    build_static_site late_clock (Some [sample_trajectory]) kept_notes_world = (Ok s, w')
    /\ output_files w' sample_id !! "notes.txt"
       = Some {| written := OtherContent; out_mtime := 3 |}.
Proof.
  destruct (build_static_site late_clock (Some [sample_trajectory]) kept_notes_world)
    as [[s|e] w'] eqn:H; [|by vm_compute in H].
  exists s, w'. split; [reflexivity|].
  rewrite (run_keeps_other_output_files _ _ _ _ _ sample_id "notes.txt" H).
  - vm_compute. reflexivity.
  - vm_compute in H. injection H as <- _. vm_compute. set_solver.
  - discriminate.
  - discriminate.
Defined.
